(** * Dayaldas portfolio backend: the handlers of [main.py] over a model
      of the document store

    The program is one module of HTTP handlers.  Each handler issues one
    or two operations on a MongoDB database, maps the documents it reads
    through a pydantic model and answers with the model, a plain
    dictionary or an [HTTPException].

    The embedding keeps that shape.  Documents are finite maps from key
    to BSON value.  A handler is a computation in a state-and-exception
    monad over a [world]: the database, the clock read by
    [datetime.utcnow()], the [ObjectId] generator, the log written by
    [logging.error], and a schedule that says which store operation
    raises.  [try]/[except] is a combinator of the monad.

    Conventions of the model, fixed here once:
    - datetimes are integers counting milliseconds, the resolution at
      which the store keeps them;
    - a BSON double is kept by its sign, mantissa and exponent, and the
      store compares numbers by value, whatever their kind;
    - pydantic validates in its lax mode: a field whose stored value
      already has the declared type is taken as it is, and a boolean, a
      number or a string stored under an [int], [bool] or [datetime]
      field goes through pydantic's conversion.  Which of those values
      it converts, and to what, is decided outside this repository; the
      conversion is a parameter ([coercion]) and every statement holds
      for every conversion. *)

From Stdlib Require Import ZArith NArith Ascii String List Sorted Permutation Lia.
From stdpp Require Import gmap strings list fin_maps sorting pretty.

Set Warnings "-register-all".
Local Open Scope string_scope.
Local Open Scope Z_scope.

(** ** BSON values and documents *)

(** An IEEE 754 double: a zero, an infinity, a NaN, or
    [+/- mantissa * 2 ^ exponent]. *)
Inductive double : Type :=
| DZero (negative : bool)
| DInfinity (negative : bool)
| DNaN
| DFinite (negative : bool) (mantissa : positive) (exponent : Z).

Inductive value : Type :=
| VNull
| VBool (b : bool)
| VInt (n : Z)
| VDouble (x : double)
| VStr (s : string)
| VDate (t : Z)
| VOid (o : N)
| VList (l : list value)
| VObj (kvs : list (string * value)).

(** A document, and equally a Python [dict] with string keys. *)
Abbreviation document := (gmap string value).

(** The numbers of the store, integers and doubles alike, in the order
    the store gives them: NaN below everything, then minus infinity, the
    finite numbers by value, plus infinity.  A finite number is
    [m * 2 ^ e]. *)
Inductive number : Type :=
| NaN
| MinusInfinity
| Finite (m e : Z)
| PlusInfinity.

Definition double_number (x : double) : number :=
  match x with
  | DZero _ => Finite 0 0
  | DInfinity true => MinusInfinity
  | DInfinity false => PlusInfinity
  | DNaN => NaN
  | DFinite true m e => Finite (Z.neg m) e
  | DFinite false m e => Finite (Z.pos m) e
  end.

Definition finite_leb (m1 e1 m2 e2 : Z) : bool :=
  let low := Z.min e1 e2 in
  m1 * 2 ^ (e1 - low) <=? m2 * 2 ^ (e2 - low).

Definition number_leb (a b : number) : bool :=
  match a, b with
  | NaN, _ => true
  | _, NaN => false
  | MinusInfinity, _ => true
  | _, MinusInfinity => false
  | _, PlusInfinity => true
  | PlusInfinity, _ => false
  | Finite m1 e1, Finite m2 e2 => finite_leb m1 e1 m2 e2
  end.

Definition number_eqb (a b : number) : bool :=
  number_leb a b && number_leb b a.

(** Equality of BSON values, as the store uses it to match a query
    operand and to detect a duplicate [_id].  Numbers are equal when
    their values are. *)
Fixpoint value_eqb (a b : value) {struct a} : bool :=
  match a, b with
  | VNull, VNull => true
  | VBool x, VBool y => Bool.eqb x y
  | VInt x, VInt y => Z.eqb x y
  | VInt x, VDouble y => number_eqb (Finite x 0) (double_number y)
  | VDouble x, VInt y => number_eqb (double_number x) (Finite y 0)
  | VDouble x, VDouble y => number_eqb (double_number x) (double_number y)
  | VStr x, VStr y => String.eqb x y
  | VDate x, VDate y => Z.eqb x y
  | VOid x, VOid y => N.eqb x y
  | VList xs, VList ys =>
      (fix go (xs ys : list value) {struct xs} : bool :=
         match xs, ys with
         | [], [] => true
         | x :: xs', y :: ys' => value_eqb x y && go xs' ys'
         | _, _ => false
         end) xs ys
  | VObj xs, VObj ys =>
      (fix go (xs ys : list (string * value)) {struct xs} : bool :=
         match xs, ys with
         | [], [] => true
         | (k, x) :: xs', (k', y) :: ys' =>
             String.eqb k k' && value_eqb x y && go xs' ys'
         | _, _ => false
         end) xs ys
  | _, _ => false
  end.

(** ** [str()] of an identifier *)

Definition hex_digit (n : N) : ascii :=
  match n with
  | 0 => "0" | 1 => "1" | 2 => "2" | 3 => "3" | 4 => "4" | 5 => "5"
  | 6 => "6" | 7 => "7" | 8 => "8" | 9 => "9" | 10 => "a" | 11 => "b"
  | 12 => "c" | 13 => "d" | 14 => "e" | _ => "f"
  end%N%char.

Fixpoint hex_fixed (width : nat) (n : N) (acc : string) : string :=
  match width with
  | O => acc
  | S width' =>
      hex_fixed width' (n / 16)%N (String (hex_digit (n mod 16)%N) acc)
  end.

(** An [ObjectId] is twelve bytes, kept as the number they encode;
    [str(ObjectId)] is its 24 lowercase hexadecimal digits. *)
Definition str_oid (o : N) : string := hex_fixed 24 o "".

(** ** Exceptions and the handler monad *)

Inductive exn : Type :=
| StoreError (msg : string)          (* any failure raised by the driver *)
| DuplicateKeyError (msg : string)   (* insert of an [_id] already present *)
| ValidationError (msg : string)     (* pydantic rejects a document *)
| TypeError (msg : string)           (* a call Python cannot make *)
| HTTPException (status_code : Z) (detail : string).

(** [str(e)], as the handlers interpolate it into the log line. *)
Definition exn_str (e : exn) : string :=
  match e with
  | StoreError msg | DuplicateKeyError msg | ValidationError msg
  | TypeError msg => msg
  | HTTPException _ detail => detail
  end.

Inductive outcome (A : Type) : Type :=
| Return (a : A)
| Raise (e : exn).
Arguments Return {A} a.
Arguments Raise {A} e.

(** What a request can observe and change.  [clock], [faults] and
    [oid_supply] are the environment: the [n]-th reading of the clock,
    whether the [n]-th store operation raises (and with which message),
    the [n]-th identifier minted by [ObjectId()].  [ticks], [ops] and
    [minted] count how many of each have been consumed. *)
Record world : Type := World {
  db : gmap string (list document);
  clock : nat -> Z;
  ticks : nat;
  faults : nat -> option string;
  ops : nat;
  oid_supply : nat -> N;
  minted : nat;
  log : list string
}.

Definition set_db (f : gmap string (list document) -> gmap string (list document))
    (w : world) : world :=
  World (f (db w)) (clock w) (ticks w) (faults w) (ops w)
        (oid_supply w) (minted w) (log w).
Definition tick (w : world) : world :=
  World (db w) (clock w) (S (ticks w)) (faults w) (ops w)
        (oid_supply w) (minted w) (log w).
Definition next_op (w : world) : world :=
  World (db w) (clock w) (ticks w) (faults w) (S (ops w))
        (oid_supply w) (minted w) (log w).
Definition mint (w : world) : world :=
  World (db w) (clock w) (ticks w) (faults w) (ops w)
        (oid_supply w) (S (minted w)) (log w).
Definition write_log (line : string) (w : world) : world :=
  World (db w) (clock w) (ticks w) (faults w) (ops w)
        (oid_supply w) (minted w) (log w ++ [line]).

Definition M (A : Type) : Type := world -> outcome A * world.

Definition ret {A} (a : A) : M A := fun w => (Return a, w).
Definition raise {A} (e : exn) : M A := fun w => (Raise e, w).
Definition bind {A B} (m : M A) (k : A -> M B) : M B :=
  fun w =>
    match m w with
    | (Return a, w') => k a w'
    | (Raise e, w') => (Raise e, w')
    end.

Notation "'do' x <- m ; k" := (bind m (fun x => k))
  (at level 10, x name, m at level 100, k at level 200).

(** [try: body except Exception as e: handler e].  Whatever the body
    changed before raising stays changed. *)
Definition try_except {A} (body : M A) (handler : exn -> M A) : M A :=
  fun w =>
    match body w with
    | (Return a, w') => (Return a, w')
    | (Raise e, w') => handler e w'
    end.

(** A pure step that may raise, run inside a handler. *)
Definition lift {A} (r : outcome A) : M A := fun w => (r, w).

(** [async for x in xs: acc.append(f x)] *)
Fixpoint for_each {A B} (f : A -> M B) (xs : list A) : M (list B) :=
  match xs with
  | [] => ret []
  | x :: xs' => do y <- f x; do ys <- for_each f xs'; ret (y :: ys)
  end.

Definition utcnow : M Z := fun w => (Return (clock w (ticks w)), tick w).
Definition logging_error (line : string) : M unit :=
  fun w => (Return tt, write_log line w).
Definition new_ObjectId : M N :=
  fun w => (Return (oid_supply w (minted w)), mint w).

(** ** The document store

    Collections are lists of documents in insertion order, addressed by
    name; a name never written to is an empty collection. *)

Definition collection (name : string) (w : world) : list document :=
  default [] (db w !! name).

(** The filters the handlers send: [{}], [{k: v}] and
    [{k: {"$gte": date}}]. *)
Inductive query : Type :=
| QAll
| QEq (k : string) (v : value)
| QSince (k : string) (t : Z).

(** A field condition holds of a scalar when the scalar satisfies it,
    and of an array when the array or one of its elements does. *)
Definition holds_of (p : value -> bool) (v : value) : bool :=
  match v with
  | VList l => p v || existsb p l
  | _ => p v
  end.

Definition is_since (t : Z) (v : value) : bool :=
  match v with
  | VDate t' => t <=? t'
  | _ => false
  end.

Definition matches (q : query) (d : document) : bool :=
  match q with
  | QAll => true
  | QEq k v =>
      match d !! k with
      | Some x => holds_of (value_eqb v) x
      | None => value_eqb v VNull
      end
  | QSince k t =>
      match d !! k with
      | Some x => holds_of (is_since t) x
      | None => false
      end
  end.

(** The order of [.sort(key, 1)].  Values of different kinds are ordered
    by kind, null first, integers and doubles together as numbers; an
    absent key counts as null.  Arrays and sub-documents are not ordered
    further among themselves (no model accepts them as [order]). *)
Definition bson_rank (v : value) : nat :=
  match v with
  | VNull => 1 | VInt _ | VDouble _ => 2 | VStr _ => 3 | VObj _ => 4
  | VList _ => 5 | VOid _ => 7 | VBool _ => 8 | VDate _ => 9
  end%nat.

Definition bson_leb (a b : value) : bool :=
  match a, b with
  | VInt x, VInt y => x <=? y
  | VInt x, VDouble y => number_leb (Finite x 0) (double_number y)
  | VDouble x, VInt y => number_leb (double_number x) (Finite y 0)
  | VDouble x, VDouble y => number_leb (double_number x) (double_number y)
  | VStr x, VStr y => String.leb x y
  | VOid x, VOid y => (x <=? y)%N
  | VBool x, VBool y => implb x y
  | VDate x, VDate y => x <=? y
  | _, _ => (bson_rank a <=? bson_rank b)%nat
  end.

Definition sort_key (k : string) (d : document) : value :=
  default VNull (d !! k).

Definition doc_le (k : string) (d1 d2 : document) : Prop :=
  bson_leb (sort_key k d1) (sort_key k d2) = true.

#[global] Instance doc_le_dec k d1 d2 : Decision (doc_le k d1 d2).
Proof. unfold doc_le. apply _. Defined.

(** Every store operation first consults the fault schedule. *)
Definition store_call {A} (op : world -> outcome A * world) : M A :=
  fun w =>
    match faults w (ops w) with
    | Some msg => (Raise (StoreError msg), next_op w)
    | None => op (next_op w)
    end.

(** [coll.find(q).sort(key, 1)], read to the end. *)
Definition find_sorted (name : string) (q : query) (key : string)
  : M (list document) :=
  store_call (fun w =>
    (Return (merge_sort (doc_le key) (List.filter (matches q) (collection name w))), w)).

Definition find_one (name : string) (q : query) : M (option document) :=
  store_call (fun w => (Return (List.find (matches q) (collection name w)), w)).

Definition count_documents (name : string) (q : query) : M Z :=
  store_call (fun w =>
    (Return (Z.of_nat (length (List.filter (matches q) (collection name w)))), w)).

(** [coll.insert_one(doc)].  The driver adds a fresh [_id] when the
    document has none.  The store refuses an array as [_id], and an
    [_id] that matches one it already holds.  The result is
    [inserted_id]. *)
Definition insert_one (name : string) (doc : document) : M value :=
  do id <- match doc !! "_id" with
           | Some v => ret v
           | None => do o <- new_ObjectId; ret (VOid o)
           end;
  store_call (fun w =>
    match id with
    | VList _ =>
        (Raise (StoreError "The '_id' value cannot be of type array"), w)
    | _ =>
        if existsb (matches (QEq "_id" id)) (collection name w)
        then (Raise (DuplicateKeyError "E11000 duplicate key error"), w)
        else (Return id,
              set_db (<[name := (collection name w ++ [<["_id" := id]> doc])%list]>) w)
    end).

(** ** The pydantic models

    A model is a record; [validate] is the constructor call of the
    model on the keys of a document and [dump] is the dictionary the
    model serializes to, keyed by field name.  Keys of the document
    that the model does not declare are ignored by [validate]. *)

Definition and_then {A B} (r : outcome A) (k : A -> outcome B) : outcome B :=
  match r with
  | Return a => k a
  | Raise e => Raise e
  end.

Notation "'get' x <- r ; k" := (and_then r (fun x => k))
  (at level 10, x name, r at level 100, k at level 200).

Definition as_str (v : value) : option string :=
  match v with VStr s => Some s | _ => None end.

(** [name: str] *)
Definition field_str (k : string) (d : document) : outcome string :=
  match d !! k with
  | Some (VStr s) => Return s
  | _ => Raise (ValidationError k)
  end.

(** [name: str = dflt] *)
Definition field_str_default (k dflt : string) (d : document) : outcome string :=
  match d !! k with
  | None => Return dflt
  | Some (VStr s) => Return s
  | Some _ => Raise (ValidationError k)
  end.

(** [name: List[str]] *)
Definition field_str_list (k : string) (d : document) : outcome (list string) :=
  match d !! k with
  | Some (VList l) =>
      match mapM as_str l with
      | Some ss => Return ss
      | None => Raise (ValidationError k)
      end
  | _ => Raise (ValidationError k)
  end.

(** Pydantic's lax conversions: what it makes of a value that is not
    of the declared type of an [int], a [bool] or a [datetime] field.
    They are asked only about booleans, numbers and strings. *)
Record coercion : Type := Coercion {
  lax_int : value -> option Z;
  lax_bool : value -> option bool;
  lax_datetime : value -> option Z
}.

(** The integer pydantic reads from a stored value: an integer is
    itself; a boolean, a double or a string is converted or refused;
    anything else is refused. *)
Definition as_int (c : coercion) (v : value) : option Z :=
  match v with
  | VInt n => Some n
  | VBool _ | VDouble _ | VStr _ => lax_int c v
  | _ => None
  end.

Definition as_bool (c : coercion) (v : value) : option bool :=
  match v with
  | VBool b => Some b
  | VInt _ | VDouble _ | VStr _ => lax_bool c v
  | _ => None
  end.

Definition as_datetime (c : coercion) (v : value) : option Z :=
  match v with
  | VDate t => Some t
  | VBool _ | VInt _ | VDouble _ | VStr _ => lax_datetime c v
  | _ => None
  end.

(** [name: int = dflt] *)
Definition field_int_default (c : coercion) (k : string) (dflt : Z)
    (d : document) : outcome Z :=
  match d !! k with
  | None => Return dflt
  | Some v =>
      match as_int c v with
      | Some n => Return n
      | None => Raise (ValidationError k)
      end
  end.

(** [name: bool = dflt] *)
Definition field_bool_default (c : coercion) (k : string) (dflt : bool)
    (d : document) : outcome bool :=
  match d !! k with
  | None => Return dflt
  | Some v =>
      match as_bool c v with
      | Some b => Return b
      | None => Raise (ValidationError k)
      end
  end.

(** [name: Optional[datetime] = None] *)
Definition field_datetime_opt (c : coercion) (k : string) (d : document)
  : outcome (option Z) :=
  match d !! k with
  | None | Some VNull => Return None
  | Some v =>
      match as_datetime c v with
      | Some t => Return (Some t)
      | None => Raise (ValidationError k)
      end
  end.

(** [id: str = Field(alias="_id")] under [populate_by_name = True]: the
    alias is read first, the field name when the alias is absent. *)
Definition field_id (d : document) : outcome string :=
  match d !! "_id" with
  | Some (VStr s) => Return s
  | Some _ => Raise (ValidationError "_id")
  | None =>
      match d !! "id" with
      | Some (VStr s) => Return s
      | _ => Raise (ValidationError "_id")
      end
  end.

Definition dump_datetime (o : option Z) : value :=
  match o with
  | Some t => VDate t
  | None => VNull
  end.

Definition dump_str_list (l : list string) : value := VList (map VStr l).

Module Experience.
Record t : Type := Make {
  id : string;
  position : string;
  company : string;
  location : string;
  period : string;
  description : string;
  achievements : list string;
  order : Z;
  isActive : bool;
  createdAt : option Z;
  updatedAt : option Z
}.

Definition validate (c : coercion) (d : document) : outcome t :=
  get id <- field_id d;
  get position <- field_str "position" d;
  get company <- field_str "company" d;
  get location <- field_str "location" d;
  get period <- field_str "period" d;
  get description <- field_str "description" d;
  get achievements <- field_str_list "achievements" d;
  get order <- field_int_default c "order" 0 d;
  get isActive <- field_bool_default c "isActive" true d;
  get createdAt <- field_datetime_opt c "createdAt" d;
  get updatedAt <- field_datetime_opt c "updatedAt" d;
  Return (Make id position company location period description
               achievements order isActive createdAt updatedAt).

Definition dump (m : t) : document :=
  <["id" := VStr (id m)]>
  (<["position" := VStr (position m)]>
  (<["company" := VStr (company m)]>
  (<["location" := VStr (location m)]>
  (<["period" := VStr (period m)]>
  (<["description" := VStr (description m)]>
  (<["achievements" := dump_str_list (achievements m)]>
  (<["order" := VInt (order m)]>
  (<["isActive" := VBool (isActive m)]>
  (<["createdAt" := dump_datetime (createdAt m)]>
  (<["updatedAt" := dump_datetime (updatedAt m)]> ∅)))))))))).

(** The keys the model declares besides the identifier. *)
Definition keys : list string :=
  ["position"; "company"; "location"; "period"; "description";
   "achievements"; "order"; "isActive"; "createdAt"; "updatedAt"].
End Experience.

Module Accomplishment.
Record t : Type := Make {
  id : string;
  title : string;
  description : string;
  impact : string;
  technologies : list string;
  order : Z;
  isActive : bool;
  createdAt : option Z;
  updatedAt : option Z
}.

Definition validate (c : coercion) (d : document) : outcome t :=
  get id <- field_id d;
  get title <- field_str "title" d;
  get description <- field_str "description" d;
  get impact <- field_str "impact" d;
  get technologies <- field_str_list "technologies" d;
  get order <- field_int_default c "order" 0 d;
  get isActive <- field_bool_default c "isActive" true d;
  get createdAt <- field_datetime_opt c "createdAt" d;
  get updatedAt <- field_datetime_opt c "updatedAt" d;
  Return (Make id title description impact technologies order isActive
               createdAt updatedAt).

Definition dump (m : t) : document :=
  <["id" := VStr (id m)]>
  (<["title" := VStr (title m)]>
  (<["description" := VStr (description m)]>
  (<["impact" := VStr (impact m)]>
  (<["technologies" := dump_str_list (technologies m)]>
  (<["order" := VInt (order m)]>
  (<["isActive" := VBool (isActive m)]>
  (<["createdAt" := dump_datetime (createdAt m)]>
  (<["updatedAt" := dump_datetime (updatedAt m)]> ∅)))))))).

Definition keys : list string :=
  ["title"; "description"; "impact"; "technologies"; "order";
   "isActive"; "createdAt"; "updatedAt"].
End Accomplishment.

Inductive ContactStatus : Type := NEW | READ | RESPONDED.

Definition status_value (s : ContactStatus) : string :=
  match s with
  | NEW => "new"
  | READ => "read"
  | RESPONDED => "responded"
  end.

(** [status: ContactStatus = ContactStatus.NEW] *)
Definition field_status (k : string) (d : document) : outcome ContactStatus :=
  match d !! k with
  | None => Return NEW
  | Some (VStr s) =>
      if String.eqb s "new" then Return NEW
      else if String.eqb s "read" then Return READ
      else if String.eqb s "responded" then Return RESPONDED
      else Raise (ValidationError k)
  | Some _ => Raise (ValidationError k)
  end.

Module ContactFormCreate.
Record t : Type := Make {
  name : string;
  email : string;
  subject : option string;
  message : string
}.

(** [subject: Optional[str] = ""] *)
Definition field_subject (d : document) : outcome (option string) :=
  match d !! "subject" with
  | None => Return (Some "")
  | Some VNull => Return None
  | Some (VStr s) => Return (Some s)
  | Some _ => Raise (ValidationError "subject")
  end.

(** The request body, as the framework hands it to the handler. *)
Definition validate (body : document) : outcome t :=
  get name <- field_str "name" body;
  get email <- field_str "email" body;
  get subject <- field_subject body;
  get message <- field_str "message" body;
  Return (Make name email subject message).

(** [contact.dict()] *)
Definition dict (c : t) : document :=
  <["name" := VStr (name c)]>
  (<["email" := VStr (email c)]>
  (<["subject" := match subject c with Some s => VStr s | None => VNull end]>
  (<["message" := VStr (message c)]> ∅))).
End ContactFormCreate.

Module ContactForm.
Record t : Type := Make {
  id : string;
  name : string;
  email : string;
  subject : string;
  message : string;
  status : ContactStatus;
  createdAt : option Z;
  updatedAt : option Z
}.

Definition validate (c : coercion) (d : document) : outcome t :=
  get id <- field_id d;
  get name <- field_str "name" d;
  get email <- field_str "email" d;
  get subject <- field_str_default "subject" "" d;
  get message <- field_str "message" d;
  get status <- field_status "status" d;
  get createdAt <- field_datetime_opt c "createdAt" d;
  get updatedAt <- field_datetime_opt c "updatedAt" d;
  Return (Make id name email subject message status createdAt updatedAt).

Definition dump (m : t) : document :=
  <["id" := VStr (id m)]>
  (<["name" := VStr (name m)]>
  (<["email" := VStr (email m)]>
  (<["subject" := VStr (subject m)]>
  (<["message" := VStr (message m)]>
  (<["status" := VStr (status_value (status m))]>
  (<["createdAt" := dump_datetime (createdAt m)]>
  (<["updatedAt" := dump_datetime (updatedAt m)]> ∅))))))).

Definition keys : list string :=
  ["name"; "email"; "subject"; "message"; "status"; "createdAt"; "updatedAt"].
End ContactForm.

Module Profile.
Record t : Type := Make {
  id : string;
  name : string;
  title : string;
  description : string;
  location : string;
  email : string;
  phone : string;
  isActive : bool;
  updatedAt : option Z
}.

Definition validate (c : coercion) (d : document) : outcome t :=
  get id <- field_id d;
  get name <- field_str "name" d;
  get title <- field_str "title" d;
  get description <- field_str "description" d;
  get location <- field_str "location" d;
  get email <- field_str "email" d;
  get phone <- field_str "phone" d;
  get isActive <- field_bool_default c "isActive" true d;
  get updatedAt <- field_datetime_opt c "updatedAt" d;
  Return (Make id name title description location email phone isActive
               updatedAt).

Definition dump (m : t) : document :=
  <["id" := VStr (id m)]>
  (<["name" := VStr (name m)]>
  (<["title" := VStr (title m)]>
  (<["description" := VStr (description m)]>
  (<["location" := VStr (location m)]>
  (<["email" := VStr (email m)]>
  (<["phone" := VStr (phone m)]>
  (<["isActive" := VBool (isActive m)]>
  (<["updatedAt" := dump_datetime (updatedAt m)]> ∅)))))))).

Definition keys : list string :=
  ["name"; "title"; "description"; "location"; "email"; "phone";
   "isActive"; "updatedAt"].
End Profile.

Module Testimonial.
Record t : Type := Make {
  id : string;
  name : string;
  title : string;
  company : string;
  testimonial : string;
  relationship : string;
  date : string;
  order : Z;
  isActive : bool;
  createdAt : option Z;
  updatedAt : option Z
}.

Definition validate (c : coercion) (d : document) : outcome t :=
  get id <- field_id d;
  get name <- field_str "name" d;
  get title <- field_str "title" d;
  get company <- field_str_default "company" "" d;
  get testimonial <- field_str "testimonial" d;
  get relationship <- field_str_default "relationship" "" d;
  get date <- field_str_default "date" "" d;
  get order <- field_int_default c "order" 0 d;
  get isActive <- field_bool_default c "isActive" true d;
  get createdAt <- field_datetime_opt c "createdAt" d;
  get updatedAt <- field_datetime_opt c "updatedAt" d;
  Return (Make id name title company testimonial relationship date order
               isActive createdAt updatedAt).

Definition dump (m : t) : document :=
  <["id" := VStr (id m)]>
  (<["name" := VStr (name m)]>
  (<["title" := VStr (title m)]>
  (<["company" := VStr (company m)]>
  (<["testimonial" := VStr (testimonial m)]>
  (<["relationship" := VStr (relationship m)]>
  (<["date" := VStr (date m)]>
  (<["order" := VInt (order m)]>
  (<["isActive" := VBool (isActive m)]>
  (<["createdAt" := dump_datetime (createdAt m)]>
  (<["updatedAt" := dump_datetime (updatedAt m)]> ∅)))))))))).

Definition keys : list string :=
  ["name"; "title"; "company"; "testimonial"; "relationship"; "date";
   "order"; "isActive"; "createdAt"; "updatedAt"].
End Testimonial.

(** The declared type of a field. *)
Inductive kind : Type := KStr | KStrList | KInt | KBool | KDatetime | KStatus.

(** What a model holds, once serialized, for the value [v] stored under
    a field of kind [k]; [None] when validation refuses [v]. *)
Definition converted (c : coercion) (k : kind) (v : value) : option value :=
  match k with
  | KStr => match v with VStr _ => Some v | _ => None end
  | KStrList =>
      match v with
      | VList l => dump_str_list <$> mapM as_str l
      | _ => None
      end
  | KInt => VInt <$> as_int c v
  | KBool => VBool <$> as_bool c v
  | KDatetime =>
      match v with
      | VNull => Some VNull
      | _ => VDate <$> as_datetime c v
      end
  | KStatus =>
      match v with
      | VStr s =>
          if String.eqb s "new" || String.eqb s "read"
             || String.eqb s "responded"
          then Some v else None
      | _ => None
      end
  end.

(** A stored value that already has the type its field declares. *)
Definition native (k : kind) (v : value) : bool :=
  match k, v with
  | KStr, VStr _ => true
  | KStrList, VList l => forallb (fun x => bool_decide (is_Some (as_str x))) l
  | KInt, VInt _ => true
  | KBool, VBool _ => true
  | KDatetime, VDate _ | KDatetime, VNull => true
  | KStatus, VStr s =>
      String.eqb s "new" || String.eqb s "read" || String.eqb s "responded"
  | _, _ => false
  end.

(** The fields each model declares besides the identifier, with their
    types. *)
Definition Experience_schema : list (string * kind) :=
  [("position", KStr); ("company", KStr); ("location", KStr);
   ("period", KStr); ("description", KStr); ("achievements", KStrList);
   ("order", KInt); ("isActive", KBool); ("createdAt", KDatetime);
   ("updatedAt", KDatetime)].

Definition Accomplishment_schema : list (string * kind) :=
  [("title", KStr); ("description", KStr); ("impact", KStr);
   ("technologies", KStrList); ("order", KInt); ("isActive", KBool);
   ("createdAt", KDatetime); ("updatedAt", KDatetime)].

Definition ContactForm_schema : list (string * kind) :=
  [("name", KStr); ("email", KStr); ("subject", KStr); ("message", KStr);
   ("status", KStatus); ("createdAt", KDatetime); ("updatedAt", KDatetime)].

Definition Profile_schema : list (string * kind) :=
  [("name", KStr); ("title", KStr); ("description", KStr);
   ("location", KStr); ("email", KStr); ("phone", KStr);
   ("isActive", KBool); ("updatedAt", KDatetime)].

Definition Testimonial_schema : list (string * kind) :=
  [("name", KStr); ("title", KStr); ("company", KStr);
   ("testimonial", KStr); ("relationship", KStr); ("date", KStr);
   ("order", KInt); ("isActive", KBool); ("createdAt", KDatetime);
   ("updatedAt", KDatetime)].

(** The keys each model requires besides the identifier: the fields
    declared without a default. *)
Definition Experience_required : list string :=
  ["position"; "company"; "location"; "period"; "description";
   "achievements"].

Definition Accomplishment_required : list string :=
  ["title"; "description"; "impact"; "technologies"].

Definition ContactForm_required : list string :=
  ["name"; "email"; "message"].

Definition Profile_required : list string :=
  ["name"; "title"; "description"; "location"; "email"; "phone"].

Definition Testimonial_required : list string :=
  ["name"; "title"; "testimonial"].

(** ** Sample stores

    Concrete documents and worlds on which the statements below are
    exercised. *)

Definition no_repr : value -> string := fun _ => "".

(** The value of a string of decimal digits. *)
Fixpoint digits_value (s : string) (acc : Z) : option Z :=
  match s with
  | EmptyString => Some acc
  | String a s' =>
      let n := Z.of_N (Ascii.N_of_ascii a) - 48 in
      if (0 <=? n) && (n <=? 9) then digits_value s' (10 * acc + n)
      else None
  end.

(** The conversions used on the samples, a part of pydantic's: a
    non-empty string of decimal digits and a boolean are read as an
    integer, the integers 0 and 1 as a boolean.  The samples hold no
    other value that pydantic would convert. *)
Definition sample_lax : coercion :=
  Coercion
    (fun v =>
       match v with
       | VStr (String a s) => digits_value (String a s) 0
       | VBool b => Some (if b then 1 else 0)
       | _ => None
       end)
    (fun v =>
       match v with
       | VInt 0 => Some false
       | VInt 1 => Some true
       | _ => None
       end)
    (fun _ => None).

Definition steady_clock (n : nat) : Z := 1700000000000 + 5 * Z.of_nat n.

Definition no_faults : nat -> option string := fun _ => None.

Definition fault_at (k : nat) (msg : string) : nat -> option string :=
  fun n => if Nat.eqb n k then Some msg else None.

Definition world_of (store : gmap string (list document))
    (schedule : nat -> option string) : world :=
  World store steady_clock 0 schedule 0 (fun n => 4096 + N.of_nat n)%N 0 [].

Definition experience_doc (id : N) (order : option Z) (shown : bool)
  : document :=
  let d : document :=
    <["_id" := VOid id]>
    (<["position" := VStr "Engineer"]>
    (<["company" := VStr "Acme"]>
    (<["location" := VStr "Pune"]>
    (<["period" := VStr "2020-2022"]>
    (<["description" := VStr "Built things"]>
    (<["achievements" := VList [VStr "Shipped"]]>
    (<["isActive" := VBool shown]> ∅))))))) in
  match order with
  | Some n => <["order" := VInt n]> d
  | None => d
  end.

Definition profile_doc : document :=
  <["_id" := VOid 7]>
  (<["name" := VStr "Dayaldas"]>
  (<["title" := VStr "Engineer"]>
  (<["description" := VStr "About"]>
  (<["location" := VStr "Pune"]>
  (<["email" := VStr "d@example.com"]>
  (<["phone" := VStr "000"]>
  (<["isActive" := VBool true]>
  (<["createdAt" := VDate 1600000000000]>
  (<["updatedAt" := VDate 1600000000000]> ∅))))))))).

Definition profile_model : Profile.t :=
  Profile.Make "000000000000000000000007" "Dayaldas" "Engineer" "About"
    "Pune" "d@example.com" "000" true (Some 1600000000000).

Definition contact_body : document :=
  <["name" := VStr "A"]>
  (<["email" := VStr "a@x.com"]>
  (<["message" := VStr "hi"]> ∅)).

Definition visit_payload : document :=
  <["page" := VStr "/"]> ∅.

(** A visit stamped with the first reading of [steady_clock]. *)
Definition visit_now : document :=
  <["timestamp" := VDate 1700000000000]> visit_payload.

(** Two active experiences, one without [order] and one with a negative
    [order], and an inactive one. *)
Definition experiences_store : gmap string (list document) :=
  {["experiences" :=
      [experience_doc 1 (Some (-1)) true;
       experience_doc 2 None true;
       experience_doc 3 (Some 0) false]]}.

Definition profile_store : gmap string (list document) :=
  {["profile" := [profile_doc]]}.

(** An active experience whose [order] is stored as the text "5", and a
    store that holds it before an active experience of [order] 7. *)
Definition experience_text_order : document :=
  <["order" := VStr "5"]> (experience_doc 4 None true).

Definition text_order_store : gmap string (list document) :=
  {["experiences" := [experience_text_order; experience_doc 5 (Some 7) true]]}.

(** Further samples: documents that miss a field or carry an odd one,
    a second profile, requests and payloads. *)

Definition experience_without_position : document :=
  delete "position" (experience_doc 1 None true).

Definition testimonial_minimal : document :=
  <["_id" := VStr "t1"]>
  (<["name" := VStr "Asha"]>
  (<["title" := VStr "CTO"]>
  (<["testimonial" := VStr "Great"]> ∅))).

Definition contact_archived : document :=
  <["_id" := VStr "c1"]>
  (<["name" := VStr "A"]>
  (<["email" := VStr "a@x.com"]>
  (<["message" := VStr "hi"]>
  (<["status" := VStr "archived"]> ∅)))).

(** An active profile document without a name. *)
Definition profile_nameless : document :=
  <["_id" := VOid 8]> (<["isActive" := VBool true]> ∅).

Definition two_profiles_store : gmap string (list document) :=
  {["profile" := [profile_doc; profile_nameless]]}.

Definition nameless_profile_store : gmap string (list document) :=
  {["profile" := [profile_nameless]]}.

Definition contact_body_null_subject : document :=
  <["subject" := VNull]> contact_body.

Definition contact_hello : ContactFormCreate.t :=
  ContactFormCreate.Make "A" "a@x.com" (Some "Hello") "hi".

Definition contact_again : ContactFormCreate.t :=
  ContactFormCreate.Make "B" "b@x.com" (Some "") "ho".

Definition visit_with_id : document :=
  <["_id" := VStr "v1"]> visit_payload.

Definition visit_text_stamp : document :=
  <["timestamp" := VStr "2024-01-01T00:00:00Z"]> visit_payload.

(** ** The handlers *)

Section Portfolio.

(** [str()] of a double, a date, an array or a sub-document used as
    identifier.  No property below depends on how Python prints these,
    so the rendering is left open. *)
Variable py_repr : value -> string.

(** Pydantic's lax conversions, likewise left open. *)
Variable lax : coercion.

Definition py_str (v : value) : string :=
  match v with
  | VOid o => str_oid o
  | VStr s => s
  | VInt n => pretty n
  | VBool true => "True"
  | VBool false => "False"
  | VNull => "None"
  | _ => py_repr v
  end.

(** [convert_objectid]: the guard [document and "_id" in document] is
    the membership test alone, an empty dictionary has no [_id]. *)
Definition convert_objectid (doc : document) : document :=
  match doc !! "_id" with
  | Some v => <["_id" := VStr (py_str v)]> doc
  | None => doc
  end.

(** Truth value of a dictionary that may be [None]. *)
Definition truthy (d : option document) : bool :=
  match d with
  | Some d => match map_to_list d with [] => false | _ => true end
  | None => false
  end.

Definition week : Z := 7 * 24 * 3600 * 1000.

Definition active : query := QEq "isActive" (VBool true).

Definition root : M document :=
  do now <- utcnow;
  ret (<["message" := VStr "Dayaldas Portfolio API is running"]>
       (<["timestamp" := VDate now]> ∅)).

Definition get_experiences : M (list Experience.t) :=
  try_except
    (do cursor <- find_sorted "experiences" active "order";
     for_each
       (fun document =>
          let document := convert_objectid document in
          lift (Experience.validate lax document))
       cursor)
    (fun e =>
       do _ <- logging_error ("Error fetching experiences: " ++ exn_str e);
       raise (HTTPException 500 "Failed to fetch experiences")).

Definition get_accomplishments : M (list Accomplishment.t) :=
  try_except
    (do cursor <- find_sorted "accomplishments" active "order";
     for_each
       (fun document =>
          let document := convert_objectid document in
          lift (Accomplishment.validate lax document))
       cursor)
    (fun e =>
       do _ <- logging_error ("Error fetching accomplishments: " ++ exn_str e);
       raise (HTTPException 500 "Failed to fetch accomplishments")).

Definition get_profile : M Profile.t :=
  try_except
    (do document <- find_one "profile" active;
     if negb (truthy document)
     then raise (HTTPException 404 "Profile not found")
     else
       match document with
       | Some document =>
           let document := convert_objectid document in
           lift (Profile.validate lax document)
       | None => raise (TypeError "argument after ** must be a mapping")
       end)
    (fun e =>
       match e with
       | HTTPException _ _ => raise e
       | _ =>
           do _ <- logging_error ("Error fetching profile: " ++ exn_str e);
           raise (HTTPException 500 "Failed to fetch profile")
       end).

Definition get_testimonials : M (list Testimonial.t) :=
  try_except
    (do cursor <- find_sorted "testimonials" active "order";
     for_each
       (fun document =>
          let document := convert_objectid document in
          lift (Testimonial.validate lax document))
       cursor)
    (fun e =>
       do _ <- logging_error ("Error fetching testimonials: " ++ exn_str e);
       raise (HTTPException 500 "Failed to fetch testimonials")).

Definition submit_contact_form (contact : ContactFormCreate.t)
  : M ContactForm.t :=
  try_except
    (let contact_data := ContactFormCreate.dict contact in
     do created <- utcnow;
     let contact_data := <["createdAt" := VDate created]> contact_data in
     do updated <- utcnow;
     let contact_data := <["updatedAt" := VDate updated]> contact_data in
     let contact_data := <["status" := VStr "new"]> contact_data in
     do inserted_id <- insert_one "contacts" contact_data;
     do created_contact <- find_one "contacts" (QEq "_id" inserted_id);
     match created_contact with
     | Some created_contact =>
         let created_contact := convert_objectid created_contact in
         lift (ContactForm.validate lax created_contact)
     | None => raise (TypeError "argument after ** must be a mapping")
     end)
    (fun e =>
       do _ <- logging_error ("Error submitting contact form: " ++ exn_str e);
       raise (HTTPException 500 "Failed to submit contact form")).

Definition track_analytics (analytics_data : document) : M document :=
  try_except
    (do now <- utcnow;
     let analytics_data := <["createdAt" := VDate now]> analytics_data in
     do _ <- insert_one "analytics" analytics_data;
     ret {["status" := VStr "success"]})
    (fun e =>
       do _ <- logging_error ("Error tracking analytics: " ++ exn_str e);
       ret {["status" := VStr "error"]}).

Definition get_analytics_summary : M document :=
  try_except
    (do total_visits <- count_documents "analytics" QAll;
     do now <- utcnow;
     do recent_visits <-
       count_documents "analytics" (QSince "timestamp" (now - week));
     do stamp <- utcnow;
     ret (<["total_visits" := VInt total_visits]>
          (<["recent_visits" := VInt recent_visits]>
          (<["timestamp" := VDate stamp]> ∅))))
    (fun e =>
       do _ <- logging_error ("Error fetching analytics: " ++ exn_str e);
       ret (<["total_visits" := VInt 0]> (<["recent_visits" := VInt 0]> ∅))).


(** ** Specification vocabulary *)

(** The first failure of [f] over a list, or all its results. *)
Fixpoint validate_all {A B} (f : A -> outcome B) (xs : list A)
  : outcome (list B) :=
  match xs with
  | [] => Return []
  | x :: xs' =>
      get y <- f x;
      get ys <- validate_all f xs';
      Return (y :: ys)
  end.

Definition is_return {A} (r : outcome A) : bool :=
  match r with
  | Return _ => true
  | Raise _ => false
  end.

(** The active documents of a collection: those the store matches
    against [{"isActive": True}]. *)
Definition active_docs (name : string) (w : world) : list document :=
  List.filter (matches active) (collection name w).

(** The [order] a model reports for a document that passed
    validation: the integer read from the stored value, 0 when the
    document has none. *)
Definition reported_order (d : document) : Z :=
  match d !! "order" with
  | Some v => default 0 (as_int lax v)
  | None => 0
  end.

(** Every document stores its [order] as an integer, or not at all. *)
Definition orders_are_integers (ds : list document) : Prop :=
  Forall (fun d : document =>
            d !! "order" = None \/ exists n, d !! "order" = Some (VInt n)) ds.

(** Reporting an absent [order] as 0 keeps the store's order: no
    active document lacks [order] while another stores a negative one. *)
Definition default_order_fits (ds : list document) : Prop :=
  forall d d' n,
    d ∈ ds -> d' ∈ ds ->
    d !! "order" = None -> d' !! "order" = Some (VInt n) -> 0 <= n.

(** What a listing handler does when the store answers the query.
    [validate], [order] and [isActive] are those of the entity, [name]
    is the collection and [detail] the text of the handler's 500. *)
Definition listing_contract {T} (validate : document -> outcome T)
    (order : T -> Z) (isActive : T -> bool) (name detail : string)
    (handler : M (list T)) : Prop :=
  forall w, faults w (ops w) = None ->
    (Forall (fun d => is_return (validate (convert_objectid d)) = true)
            (active_docs name w) ->
     exists ds ms,
       fst (handler w) = Return ms
       /\ ds ≡ₚ active_docs name w
       /\ Sorted (doc_le "order") ds
       /\ Forall2 (fun d m => validate (convert_objectid d) = Return m) ds ms
       /\ Forall (fun d => d !! "isActive" = Some (VBool true)) ds
       /\ Forall (fun m => isActive m = true) ms
       /\ map order ms = map reported_order ds
       /\ (orders_are_integers ds -> default_order_fits ds ->
           Sorted Z.le (map order ms)))
    /\ (Exists (fun d => is_return (validate (convert_objectid d)) = false)
               (active_docs name w) ->
        fst (handler w) = Raise (HTTPException 500 detail)).

(** The collection [name] with one more document at its end. *)
Definition add_document (name : string) (d : document) (w : world) : world :=
  set_db (<[name := (collection name w ++ [d])%list]>) w.

(** The dictionary [submit_contact_form] hands to [insert_one]. *)
Definition stamped_contact (contact : ContactFormCreate.t)
    (created updated : Z) : document :=
  <["status" := VStr "new"]>
  (<["updatedAt" := VDate updated]>
  (<["createdAt" := VDate created]> (ContactFormCreate.dict contact))).

(** The [except Exception] branch of a handler: the cause goes to the
    log, the caller gets the fixed [detail]. *)
Definition answer_500 {A} (pre detail : string) (e : exn) (w : world)
  : outcome A * world :=
  (Raise (HTTPException 500 detail), write_log (pre ++ exn_str e) w).

(** What [validate] followed by [dump] keeps of a stored document [d].
    Under every declared key the serialized model holds what pydantic
    made of the stored value, which is the stored value itself when it
    already has the declared type; it holds the identifier as the
    string [id], and nothing under any other key. *)
Definition kept_by {T} (dump : T -> document) (schema : list (string * kind))
    (d : document) (m : T) : Prop :=
  (forall k kd v, (k, kd) ∈ schema -> d !! k = Some v ->
     dump m !! k = converted lax kd v
     /\ (native kd v = true -> dump m !! k = Some v))
  /\ (forall v, d !! "_id" = Some v -> dump m !! "id" = Some (VStr (py_str v)))
  /\ (forall k, k ∉ "id" :: map fst schema -> dump m !! k = None).

(** How many documents of a collection match a query. *)
Definition count_where (q : query) (name : string) (w : world) : Z :=
  Z.of_nat (length (List.filter (matches q) (collection name w))).

(** The two bodies of the analytics summary. *)
Definition summary_body (total recent stamp : Z) : document :=
  <["total_visits" := VInt total]>
  (<["recent_visits" := VInt recent]>
  (<["timestamp" := VDate stamp]> ∅)).

Definition zero_counts : document :=
  <["total_visits" := VInt 0]> (<["recent_visits" := VInt 0]> ∅).

Definition day : Z := 24 * 3600 * 1000.

(** The shape the three listing handlers share. *)
Definition listing {T} (validate : document -> outcome T)
    (name pre detail : string) : M (list T) :=
  try_except
    (do cursor <- find_sorted name active "order";
     for_each
       (fun document =>
          let document := convert_objectid document in
          lift (validate document))
       cursor)
    (fun e =>
       do _ <- logging_error (pre ++ exn_str e);
       raise (HTTPException 500 detail)).

(** A handler that never changes the database, and that writes nothing
    to the log when it returns. *)
Definition keeps_database {A} (handler : M A) : Prop :=
  forall w, db (snd (handler w)) = db w.

Definition silent_on_return {A} (handler : M A) : Prop :=
  forall w, is_return (fst (handler w)) = true ->
            log (snd (handler w)) = log w.

(** What [get_profile] answers, read off the fault schedule and the
    active documents of the profile collection. *)
Definition profile_answer (w : world) : outcome Profile.t :=
  match faults w (ops w) with
  | Some _ => Raise (HTTPException 500 "Failed to fetch profile")
  | None =>
      match active_docs "profile" w with
      | [] => Raise (HTTPException 404 "Profile not found")
      | d :: _ =>
          match Profile.validate lax (convert_objectid d) with
          | Return m => Return m
          | Raise _ => Raise (HTTPException 500 "Failed to fetch profile")
          end
      end
  end.

(** The scalars a JSON payload can carry. *)
Definition json_scalar (v : value) : bool :=
  match v with
  | VNull | VBool _ | VInt _ | VDouble _ | VStr _ => true
  | _ => false
  end.

(** ** The monad and the store: basic facts *)

Lemma hex_fixed_length width n acc :
  String.length (hex_fixed width n acc) = (width + String.length acc)%nat.
Proof.
  revert n acc. induction width as [|width IH]; intros n acc; simpl.
  - reflexivity.
  - rewrite IH. simpl. lia.
Qed.

Lemma str_oid_length o : String.length (str_oid o) = 24%nat.
Proof. unfold str_oid. rewrite hex_fixed_length. reflexivity. Qed.

Lemma str_oid_nonempty o : str_oid o <> "".
Proof.
  intros H. pose proof (str_oid_length o) as L. rewrite H in L. discriminate.
Qed.

Lemma number_leb_refl a : number_leb a a = true.
Proof.
  destruct a; try reflexivity.
  unfold number_leb, finite_leb. apply Z.leb_refl.
Qed.

Lemma number_leb_total a b : number_leb a b = true \/ number_leb b a = true.
Proof.
  destruct a, b; simpl; auto.
  unfold finite_leb. rewrite (Z.min_comm e0 e).
  destruct (Z.leb_spec (m * 2 ^ (e - Z.min e e0))
                       (m0 * 2 ^ (e0 - Z.min e e0))); [auto|].
  right. apply Z.leb_le. lia.
Qed.

(** Every value equals itself for the store. *)
Lemma value_eqb_refl : forall v, value_eqb v v = true.
Proof.
  fix IH 1. intros [|x|x|x|x|x|x|xs|xs]; simpl.
  - reflexivity.
  - destruct x; reflexivity.
  - apply Z.eqb_refl.
  - unfold number_eqb. rewrite number_leb_refl. reflexivity.
  - apply String.eqb_refl.
  - apply Z.eqb_refl.
  - apply N.eqb_refl.
  - induction xs as [|x xs IHxs]; [reflexivity|].
    rewrite IH, IHxs. reflexivity.
  - induction xs as [|[k x] xs IHxs]; [reflexivity|].
    rewrite String.eqb_refl, IH, IHxs. reflexivity.
Qed.

Lemma store_call_ok {A} (op : world -> outcome A * world) w :
  faults w (ops w) = None -> store_call op w = op (next_op w).
Proof. intros H. unfold store_call. rewrite H. reflexivity. Qed.

Lemma store_call_fault {A} (op : world -> outcome A * world) w msg :
  faults w (ops w) = Some msg ->
  store_call op w = (Raise (StoreError msg), next_op w).
Proof. intros H. unfold store_call. rewrite H. reflexivity. Qed.

Lemma for_each_lift {A B} (f : A -> outcome B) xs w :
  for_each (fun x => lift (f x)) xs w = (validate_all f xs, w).
Proof.
  induction xs as [|x xs IH]; simpl.
  - reflexivity.
  - unfold bind, lift at 1. destruct (f x) as [y|e]; simpl.
    + rewrite IH. destruct (validate_all f xs); reflexivity.
    + reflexivity.
Qed.

Lemma validate_all_Return {A B} (f : A -> outcome B) xs ys :
  validate_all f xs = Return ys <-> Forall2 (fun x y => f x = Return y) xs ys.
Proof.
  revert ys. induction xs as [|x xs IH]; intros ys; simpl.
  - split.
    + intros [= <-]. constructor.
    + intros H. inversion H. reflexivity.
  - split.
    + destruct (f x) as [y|e] eqn:Hx; simpl; [|discriminate].
      destruct (validate_all f xs) as [ys'|e] eqn:Hxs; simpl; [|discriminate].
      intros [= <-]. constructor; [exact Hx|]. apply IH. reflexivity.
    + intros H. inversion H as [|? y ? ys' Hx Hxs]; subst.
      rewrite Hx. simpl. apply IH in Hxs. rewrite Hxs. reflexivity.
Qed.

Lemma validate_all_ok {A B} (f : A -> outcome B) xs :
  Forall (fun x => is_return (f x) = true) xs ->
  exists ys, validate_all f xs = Return ys.
Proof.
  induction 1 as [|x xs Hx _ [ys IH]]; simpl.
  - eexists. reflexivity.
  - destruct (f x) as [y|e]; [|discriminate]. rewrite IH. simpl.
    eexists. reflexivity.
Qed.

Lemma validate_all_Raise {A B} (f : A -> outcome B) xs :
  Exists (fun x => is_return (f x) = false) xs ->
  exists e, validate_all f xs = Raise e.
Proof.
  induction 1 as [x xs Hx|x xs _ [e IH]]; simpl.
  - destruct (f x) as [y|e]; [discriminate|]. eexists. reflexivity.
  - destruct (f x) as [y|e']; simpl.
    + rewrite IH. eexists. reflexivity.
    + eexists. reflexivity.
Qed.

Lemma bson_leb_total a b : bson_leb a b = true \/ bson_leb b a = true.
Proof.
  destruct a as [|p|n|x|s|t|o|l|kvs], b as [|p'|n'|x'|s'|t'|o'|l'|kvs'];
    try (left; reflexivity); try (right; reflexivity).
  - destruct p, p'; auto.
  - simpl. destruct (Z.leb_spec n n'); [left; reflexivity|right; apply Z.leb_le; lia].
  - exact (number_leb_total (Finite n 0) (double_number x')).
  - exact (number_leb_total (double_number x) (Finite n' 0)).
  - exact (number_leb_total (double_number x) (double_number x')).
  - apply String.leb_total.
  - simpl. destruct (Z.leb_spec t t'); [left; reflexivity|right; apply Z.leb_le; lia].
  - simpl. destruct (N.leb_spec o o'); [left; reflexivity|right; apply N.leb_le; lia].
Qed.

#[local] Instance doc_le_total k : Total (doc_le k).
Proof. intros d1 d2. apply bson_leb_total. Qed.

Lemma convert_objectid_lookup_ne (d : document) k :
  k <> "_id" -> convert_objectid d !! k = d !! k.
Proof.
  intros Hk. unfold convert_objectid.
  destruct (d !! "_id"); [|reflexivity].
  rewrite lookup_insert_ne; [reflexivity|congruence].
Qed.

Lemma convert_objectid_lookup_id (d : document) :
  convert_objectid d !! "_id" = (fun v => VStr (py_str v)) <$> d !! "_id".
Proof.
  unfold convert_objectid.
  destruct (d !! "_id") eqn:E; simpl.
  - apply lookup_insert_eq.
  - exact E.
Qed.

(** *** Running a listing handler *)

Section Listing.
Context {T : Type} (validate : document -> outcome T).
Context (name pre detail : string).

Lemma listing_run w :
  faults w (ops w) = None ->
  listing validate name pre detail w =
    match validate_all (fun d => validate (convert_objectid d))
            (merge_sort (doc_le "order") (active_docs name w)) with
    | Return ms => (Return ms, next_op w)
    | Raise e =>
        (Raise (HTTPException 500 detail),
         write_log (pre ++ exn_str e) (next_op w))
    end.
Proof.
  intros Hf. unfold listing, try_except, bind, find_sorted.
  rewrite (store_call_ok _ _ Hf).
  rewrite (for_each_lift (fun d => validate (convert_objectid d))).
  unfold active_docs, collection. simpl.
  destruct (validate_all _ _); reflexivity.
Qed.

Lemma listing_fault w msg :
  faults w (ops w) = Some msg ->
  listing validate name pre detail w =
    (Raise (HTTPException 500 detail), write_log (pre ++ msg) (next_op w)).
Proof.
  intros Hf. unfold listing, try_except, bind, find_sorted.
  rewrite (store_call_fault _ _ _ Hf). reflexivity.
Qed.
End Listing.

(** *** What validation tells about the document *)

Lemma field_str_inv k (d : document) s :
  field_str k d = Return s -> d !! k = Some (VStr s).
Proof.
  unfold field_str. destruct (d !! k) as [[]|]; intros [=]; subst; reflexivity.
Qed.

Lemma field_str_default_inv k dflt (d : document) s :
  field_str_default k dflt d = Return s ->
  forall v, d !! k = Some v -> v = VStr s.
Proof.
  unfold field_str_default.
  destruct (d !! k) as [[]|]; intros [=] v [=]; subst; reflexivity.
Qed.

Lemma mapM_as_str l ss : mapM as_str l = Some ss -> l = map VStr ss.
Proof.
  intros H. apply mapM_Some in H.
  induction H as [|v s l ss Hv _ IH]; simpl.
  - reflexivity.
  - destruct v; try discriminate. injection Hv as ->. rewrite IH. reflexivity.
Qed.

Lemma field_str_list_inv k (d : document) ss :
  field_str_list k d = Return ss -> d !! k = Some (dump_str_list ss).
Proof.
  unfold field_str_list, dump_str_list.
  destruct (d !! k) as [[]|]; try discriminate.
  destruct (mapM as_str l) as [ss'|] eqn:E; intros [=]; subst.
  rewrite (mapM_as_str _ _ E). reflexivity.
Qed.

Lemma field_int_default_inv k dflt (d : document) n :
  field_int_default lax k dflt d = Return n ->
  (d !! k = None /\ n = dflt)
  \/ exists v, d !! k = Some v /\ as_int lax v = Some n.
Proof.
  unfold field_int_default.
  destruct (d !! k) as [v|]; [|intros [= <-]; auto].
  destruct (as_int lax v) as [z|] eqn:E; intros [= <-]. eauto.
Qed.

Lemma field_bool_default_inv k dflt (d : document) b :
  field_bool_default lax k dflt d = Return b ->
  (d !! k = None /\ b = dflt)
  \/ exists v, d !! k = Some v /\ as_bool lax v = Some b.
Proof.
  unfold field_bool_default.
  destruct (d !! k) as [v|]; [|intros [= <-]; auto].
  destruct (as_bool lax v) as [z|] eqn:E; intros [= <-]. eauto.
Qed.

Lemma field_datetime_opt_inv k (d : document) o :
  field_datetime_opt lax k d = Return o ->
  forall v, d !! k = Some v ->
    (v = VNull /\ o = None)
    \/ exists t, as_datetime lax v = Some t /\ o = Some t.
Proof.
  unfold field_datetime_opt. intros H v Hv. rewrite Hv in H.
  destruct v as [|p|n|x|s|t|o'|l|kvs]; try (injection H as <-; auto; fail);
    (destruct (as_datetime lax _) as [t'|] eqn:E; [|discriminate H];
     injection H as <-; eauto).
Qed.

Lemma field_status_inv k (d : document) s :
  field_status k d = Return s ->
  forall v, d !! k = Some v -> v = VStr (status_value s).
Proof.
  unfold field_status.
  destruct (d !! k) as [[| | | |x| | | |]|]; try discriminate.
  destruct (String.eqb_spec x "new");
    [|destruct (String.eqb_spec x "read");
      [|destruct (String.eqb_spec x "responded")]];
    intros [=] v [=]; subst; reflexivity.
Qed.

Lemma field_id_inv (d : document) s :
  field_id d = Return s ->
  forall v, d !! "_id" = Some v -> v = VStr s.
Proof.
  unfold field_id.
  destruct (d !! "_id") as [[]|]; intros [=] v [=]; subst; reflexivity.
Qed.

(** Fields other than the identifier are validated on the stored
    document itself. *)
Lemma field_str_convert k (d : document) :
  k <> "_id" -> field_str k (convert_objectid d) = field_str k d.
Proof.
  intros H. unfold field_str. rewrite convert_objectid_lookup_ne by exact H.
  reflexivity.
Qed.

Lemma field_str_default_convert k dflt (d : document) :
  k <> "_id" ->
  field_str_default k dflt (convert_objectid d) = field_str_default k dflt d.
Proof.
  intros H. unfold field_str_default.
  rewrite convert_objectid_lookup_ne by exact H. reflexivity.
Qed.

Lemma field_str_list_convert k (d : document) :
  k <> "_id" -> field_str_list k (convert_objectid d) = field_str_list k d.
Proof.
  intros H. unfold field_str_list.
  rewrite convert_objectid_lookup_ne by exact H. reflexivity.
Qed.

Lemma field_int_default_convert k dflt (d : document) :
  k <> "_id" ->
  field_int_default lax k dflt (convert_objectid d)
  = field_int_default lax k dflt d.
Proof.
  intros H. unfold field_int_default.
  rewrite convert_objectid_lookup_ne by exact H. reflexivity.
Qed.

Lemma field_bool_default_convert k dflt (d : document) :
  k <> "_id" ->
  field_bool_default lax k dflt (convert_objectid d)
  = field_bool_default lax k dflt d.
Proof.
  intros H. unfold field_bool_default.
  rewrite convert_objectid_lookup_ne by exact H. reflexivity.
Qed.

Lemma field_datetime_opt_convert k (d : document) :
  k <> "_id" ->
  field_datetime_opt lax k (convert_objectid d) = field_datetime_opt lax k d.
Proof.
  intros H. unfold field_datetime_opt.
  rewrite convert_objectid_lookup_ne by exact H. reflexivity.
Qed.

Lemma field_status_convert k (d : document) :
  k <> "_id" -> field_status k (convert_objectid d) = field_status k d.
Proof.
  intros H. unfold field_status.
  rewrite convert_objectid_lookup_ne by exact H. reflexivity.
Qed.

Lemma field_id_convert (d : document) v :
  d !! "_id" = Some v -> field_id (convert_objectid d) = Return (py_str v).
Proof.
  intros H. unfold field_id. rewrite convert_objectid_lookup_id, H.
  reflexivity.
Qed.

(** Splits [validate d = Return m] into one equation per field. *)
Ltac split_validate H :=
  unfold and_then in H;
  repeat match type of H with
         | match ?r with Return _ => _ | Raise _ => _ end = Return _ =>
             let E := fresh "E" in
             destruct r eqn:E; [|discriminate H]
         end;
  injection H as <-.

Ltac on_stored_document :=
  repeat match goal with
         | E : context [convert_objectid] |- _ =>
             first
               [ rewrite field_str_convert in E by discriminate
               | rewrite field_str_default_convert in E by discriminate
               | rewrite field_str_list_convert in E by discriminate
               | rewrite field_int_default_convert in E by discriminate
               | rewrite field_bool_default_convert in E by discriminate
               | rewrite field_datetime_opt_convert in E by discriminate
               | rewrite field_status_convert in E by discriminate ]
         end.

Lemma Experience_listed (d : document) m :
  Experience.validate lax (convert_objectid d) = Return m ->
  field_int_default lax "order" 0 d = Return (Experience.order m)
  /\ field_bool_default lax "isActive" true d
     = Return (Experience.isActive m).
Proof.
  intros H. unfold Experience.validate in H. split_validate H.
  on_stored_document. simpl. auto.
Qed.

Lemma Accomplishment_listed (d : document) m :
  Accomplishment.validate lax (convert_objectid d) = Return m ->
  field_int_default lax "order" 0 d = Return (Accomplishment.order m)
  /\ field_bool_default lax "isActive" true d
     = Return (Accomplishment.isActive m).
Proof.
  intros H. unfold Accomplishment.validate in H. split_validate H.
  on_stored_document. simpl. auto.
Qed.

Lemma Testimonial_listed (d : document) m :
  Testimonial.validate lax (convert_objectid d) = Return m ->
  field_int_default lax "order" 0 d = Return (Testimonial.order m)
  /\ field_bool_default lax "isActive" true d
     = Return (Testimonial.isActive m).
Proof.
  intros H. unfold Testimonial.validate in H. split_validate H.
  on_stored_document. simpl. auto.
Qed.

Lemma active_field (d : document) b :
  matches active d = true ->
  field_bool_default lax "isActive" true d = Return b ->
  d !! "isActive" = Some (VBool true) /\ b = true.
Proof.
  unfold field_bool_default. simpl.
  destruct (d !! "isActive") as [v|]; [|discriminate].
  destruct v as [|p|n|x|s|t|o|l|kvs]; simpl; try discriminate.
  destruct p; [|discriminate]. intros _ [= <-]. auto.
Qed.

Lemma reported_order_spec (d : document) n :
  field_int_default lax "order" 0 d = Return n -> n = reported_order d.
Proof.
  intros H. unfold reported_order.
  destruct (field_int_default_inv _ _ _ _ H) as [[E ->]|[v [E Ev]]];
    rewrite E; [|rewrite Ev]; reflexivity.
Qed.

Lemma default_order_fits_tail d ds :
  default_order_fits (d :: ds) -> default_order_fits ds.
Proof.
  intros H x y n Hx Hy. apply H; apply list_elem_of_further; assumption.
Qed.

Lemma integer_order_read (d : document) n :
  field_int_default lax "order" 0 d = Return n ->
  d !! "order" = None \/ (exists z, d !! "order" = Some (VInt z)) ->
  (d !! "order" = None /\ n = 0) \/ d !! "order" = Some (VInt n).
Proof.
  unfold field_int_default. intros H [E|[z E]]; rewrite E in H |- *.
  - injection H as <-. auto.
  - injection H as <-. auto.
Qed.

Lemma doc_le_reported (d d' : document) n n' :
  field_int_default lax "order" 0 d = Return n ->
  field_int_default lax "order" 0 d' = Return n' ->
  d !! "order" = None \/ (exists z, d !! "order" = Some (VInt z)) ->
  d' !! "order" = None \/ (exists z, d' !! "order" = Some (VInt z)) ->
  (d !! "order" = None -> forall z, d' !! "order" = Some (VInt z) -> 0 <= z) ->
  doc_le "order" d d' ->
  n <= n'.
Proof.
  intros H H' Hi Hi' Hfit. unfold doc_le, sort_key.
  destruct (integer_order_read _ _ H Hi) as [[E ->]|E];
    destruct (integer_order_read _ _ H' Hi') as [[E' ->]|E'];
    rewrite E, E'; simpl; intros Hle.
  - lia.
  - apply (Hfit E n'). exact E'.
  - discriminate.
  - apply Z.leb_le. exact Hle.
Qed.

Lemma sorted_reported_orders (ds : list document) (ns : list Z) :
  Forall2 (fun d n => field_int_default lax "order" 0 d = Return n) ds ns ->
  Sorted (doc_le "order") ds ->
  orders_are_integers ds ->
  default_order_fits ds ->
  Sorted Z.le ns.
Proof.
  induction 1 as [|d n ds ns Hd Hds IH]; intros Hs Hint Hfit.
  - constructor.
  - apply Sorted_inv in Hs as [Hs Hhd].
    apply Forall_cons in Hint as [Hi Hint]. constructor.
    + apply IH; [exact Hs|exact Hint|]. eapply default_order_fits_tail, Hfit.
    + destruct Hds as [|d' n' ds' ns' Hd' _]; constructor.
      apply HdRel_inv in Hhd. apply Forall_cons in Hint as [Hi' _].
      apply (doc_le_reported d d'); try assumption.
      intros E z E'. apply (Hfit d d' z); try assumption.
      * apply list_elem_of_here.
      * apply list_elem_of_further, list_elem_of_here.
Qed.

Section ListingContract.
Context {T : Type} (validate : document -> outcome T).
Context (order : T -> Z) (isActive : T -> bool).
Context (name pre detail : string).
Hypothesis listed : forall (d : document) m,
  validate (convert_objectid d) = Return m ->
  field_int_default lax "order" 0 d = Return (order m)
  /\ field_bool_default lax "isActive" true d = Return (isActive m).

Lemma listing_contract_holds :
  listing_contract validate order isActive name detail
    (listing validate name pre detail).
Proof.
  intros w Hf.
  pose proof (listing_run validate name pre detail w Hf) as Hrun.
  set (ds := merge_sort (doc_le "order") (active_docs name w)) in *.
  assert (Hperm : ds ≡ₚ active_docs name w)
    by apply merge_sort_Permutation.
  split.
  - intros Hvalid. rewrite <- Hperm in Hvalid.
    destruct (validate_all_ok _ _ Hvalid) as [ms Hms].
    rewrite Hms in Hrun. apply validate_all_Return in Hms.
    assert (Hact : Forall (fun d : document => matches active d = true) ds).
    { rewrite Hperm. apply Forall_forall. intros d Hd.
      apply list_elem_of_In, filter_In in Hd. apply Hd. }
    assert (Hord : Forall2
              (fun d n => field_int_default lax "order" 0 d = Return n)
              ds (map order ms)).
    { clear -Hms listed.
      induction Hms as [|d m ds ms Hd _ IH]; simpl; constructor.
      - apply (listed d m Hd).
      - exact IH. }
    exists ds, ms. rewrite Hrun. repeat split.
    + exact Hperm.
    + apply Sorted_merge_sort. apply _.
    + exact Hms.
    + clear -Hms Hact listed.
      induction Hms as [|d m ds ms Hd _ IH]; constructor.
      * apply Forall_inv in Hact.
        destruct (listed d m Hd) as [_ Hb].
        apply (active_field d _ Hact Hb).
      * apply IH. eapply Forall_inv_tail, Hact.
    + clear -Hms Hact listed.
      induction Hms as [|d m ds ms Hd _ IH]; constructor.
      * apply Forall_inv in Hact.
        destruct (listed d m Hd) as [_ Hb].
        apply (active_field d _ Hact Hb).
      * apply IH. eapply Forall_inv_tail, Hact.
    + clear -Hms listed.
      induction Hms as [|d m ds ms Hd _ IH]; simpl; [reflexivity|].
      destruct (listed d m Hd) as [Ho _].
      apply reported_order_spec in Ho as ->. rewrite IH. reflexivity.
    + intros Hint Hfit. apply (sorted_reported_orders ds); try assumption.
      apply Sorted_merge_sort. apply _.
  - intros Hbad. rewrite <- Hperm in Hbad.
    destruct (validate_all_Raise _ _ Hbad) as [e He].
    rewrite He in Hrun. rewrite Hrun. reflexivity.
Qed.
End ListingContract.

(** ** The listing endpoints *)

(** C1, as amended.  When the store answers the query and every active
    document of the collection passes validation, each listing endpoint
    returns the models of exactly the active documents, in the order of
    the store's ascending sort on the stored [order], where a document
    without [order] comes first, then the numbers by value, then every
    other kind of value.  Every returned model has [isActive = true],
    and reports as [order] the integer pydantic read from the stored
    value, 0 for a document without [order].  The [order] fields of the
    response are non-decreasing when every active document stores its
    [order] as an integer or not at all, and no document without
    [order], reported as 0, precedes a negative one.  When some active
    document fails validation the endpoint answers with its 500. *)
Theorem listing_returns_active_in_store_order :
  listing_contract (Experience.validate lax) Experience.order Experience.isActive
    "experiences" "Failed to fetch experiences" get_experiences
  /\ listing_contract (Accomplishment.validate lax) Accomplishment.order
       Accomplishment.isActive
       "accomplishments" "Failed to fetch accomplishments" get_accomplishments
  /\ listing_contract (Testimonial.validate lax) Testimonial.order
       Testimonial.isActive
       "testimonials" "Failed to fetch testimonials" get_testimonials.
Proof.
  split; [|split].
  - exact (listing_contract_holds (Experience.validate lax) _ _ "experiences"
             "Error fetching experiences: " _ Experience_listed).
  - exact (listing_contract_holds (Accomplishment.validate lax) _ _
             "accomplishments" "Error fetching accomplishments: " _
             Accomplishment_listed).
  - exact (listing_contract_holds (Testimonial.validate lax) _ _ "testimonials"
             "Error fetching testimonials: " _ Testimonial_listed).
Qed.

(** C6.  When the store answers the query and the collection holds no
    active document, each listing endpoint returns the empty list: no
    exception, nothing logged. *)
Theorem listing_empty_when_none_active (w : world) :
  faults w (ops w) = None ->
  (active_docs "experiences" w = [] ->
   get_experiences w = (Return [], next_op w))
  /\ (active_docs "accomplishments" w = [] ->
      get_accomplishments w = (Return [], next_op w))
  /\ (active_docs "testimonials" w = [] ->
      get_testimonials w = (Return [], next_op w)).
Proof.
  intros Hf. split; [|split]; intros He.
  - pose proof (listing_run (Experience.validate lax) "experiences"
                  "Error fetching experiences: "
                  "Failed to fetch experiences" w Hf) as H.
    rewrite He in H. exact H.
  - pose proof (listing_run (Accomplishment.validate lax) "accomplishments"
                  "Error fetching accomplishments: "
                  "Failed to fetch accomplishments" w Hf) as H.
    rewrite He in H. exact H.
  - pose proof (listing_run (Testimonial.validate lax) "testimonials"
                  "Error fetching testimonials: "
                  "Failed to fetch testimonials" w Hf) as H.
    rewrite He in H. exact H.
Qed.

(** ** Inserting and reading back *)

Lemma collection_add_document name d w :
  collection name (add_document name d w) = (collection name w ++ [d])%list.
Proof.
  unfold add_document, collection at 1. simpl.
  rewrite lookup_insert_eq. reflexivity.
Qed.

Lemma collection_add_document_ne name name' d w :
  name <> name' ->
  collection name' (add_document name d w) = collection name' w.
Proof.
  intros H. unfold add_document, collection at 1. simpl.
  rewrite lookup_insert_ne by exact H. reflexivity.
Qed.

Lemma find_appended {A} (p : A -> bool) l d :
  existsb p l = false -> p d = true -> List.find p (l ++ [d]) = Some d.
Proof.
  intros Hl Hd. induction l as [|x l IH]; simpl in *.
  - rewrite Hd. reflexivity.
  - apply orb_false_iff in Hl as [Hx Hl]. rewrite Hx. apply IH, Hl.
Qed.

Lemma matches_own_oid (d : document) o :
  matches (QEq "_id" (VOid o)) (<["_id" := VOid o]> d) = true.
Proof. simpl. rewrite lookup_insert_eq. simpl. apply N.eqb_refl. Qed.

Lemma insert_one_fresh name (doc : document) w :
  doc !! "_id" = None ->
  faults w (ops w) = None ->
  existsb (matches (QEq "_id" (VOid (oid_supply w (minted w)))))
          (collection name w) = false ->
  insert_one name doc w =
    (Return (VOid (oid_supply w (minted w))),
     add_document name (<["_id" := VOid (oid_supply w (minted w))]> doc)
       (next_op (mint w))).
Proof.
  intros Hid Hf Hdup. unfold insert_one, bind. rewrite Hid. simpl.
  unfold store_call. simpl. rewrite Hf.
  change (collection name (next_op (mint w))) with (collection name w).
  rewrite Hdup. reflexivity.
Qed.

Lemma insert_one_fresh_fault name (doc : document) w msg :
  doc !! "_id" = None ->
  faults w (ops w) = Some msg ->
  insert_one name doc w = (Raise (StoreError msg), next_op (mint w)).
Proof.
  intros Hid Hf. unfold insert_one, bind. rewrite Hid. simpl.
  unfold store_call. simpl. rewrite Hf. reflexivity.
Qed.

Lemma insert_one_fresh_duplicate name (doc : document) w :
  doc !! "_id" = None ->
  faults w (ops w) = None ->
  existsb (matches (QEq "_id" (VOid (oid_supply w (minted w)))))
          (collection name w) = true ->
  insert_one name doc w =
    (Raise (DuplicateKeyError "E11000 duplicate key error"),
     next_op (mint w)).
Proof.
  intros Hid Hf Hdup. unfold insert_one, bind. rewrite Hid. simpl.
  unfold store_call. simpl. rewrite Hf.
  change (collection name (next_op (mint w))) with (collection name w).
  rewrite Hdup. reflexivity.
Qed.

(** Whatever [insert_one] does, it leaves the clock and the log alone;
    when it returns, the collection has grown by the document, and when
    it raises, the database is as before. *)
Lemma insert_one_inv name (doc : document) w r w' :
  insert_one name doc w = (r, w') ->
  clock w' = clock w /\ ticks w' = ticks w /\ log w' = log w
  /\ match r with
     | Return id =>
         db w' = <[name := (collection name w ++ [<["_id" := id]> doc])%list]> (db w)
         /\ (doc !! "_id" = Some id
             \/ doc !! "_id" = None /\ id = VOid (oid_supply w (minted w)))
     | Raise e => db w' = db w
     end.
Proof.
  unfold insert_one, bind, store_call.
  destruct (doc !! "_id") as [v|] eqn:Hid; simpl.
  - destruct (faults w (ops w)); [intros [= <- <-]; auto|].
    change (collection name (next_op w)) with (collection name w).
    destruct v; try (destruct (existsb _ _));
      intros [= <- <-]; simpl; repeat split; auto.
  - destruct (faults w (ops w)); [intros [= <- <-]; auto|].
    change (collection name (next_op (mint w))) with (collection name w).
    destruct (existsb _ _); intros [= <- <-]; simpl; repeat split; auto.
Qed.

(** ** The contact endpoint, step by step *)

Lemma stamped_contact_no_id contact created updated :
  stamped_contact contact created updated !! "_id" = None.
Proof.
  unfold stamped_contact, ContactFormCreate.dict.
  repeat (rewrite lookup_insert_ne by discriminate). apply lookup_empty.
Qed.

Lemma submit_contact_form_steps contact w :
  submit_contact_form contact w =
    let failed := answer_500 "Error submitting contact form: "
                    "Failed to submit contact form" in
    match insert_one "contacts"
            (stamped_contact contact (clock w (ticks w)) (clock w (S (ticks w))))
            (tick (tick w)) with
    | (Return id, w1) =>
        match find_one "contacts" (QEq "_id" id) w1 with
        | (Return (Some d), w2) =>
            match ContactForm.validate lax (convert_objectid d) with
            | Return m => (Return m, w2)
            | Raise e => failed e w2
            end
        | (Return None, w2) =>
            failed (TypeError "argument after ** must be a mapping") w2
        | (Raise e, w2) => failed e w2
        end
    | (Raise e, w1) => failed e w1
    end.
Proof.
  unfold submit_contact_form, try_except.
  unfold bind at 1. unfold utcnow at 1.
  unfold bind at 1. unfold utcnow at 1.
  unfold bind at 1.
  fold (stamped_contact contact (clock w (ticks w))
          (clock (tick w) (ticks (tick w)))).
  change (clock (tick w) (ticks (tick w))) with (clock w (S (ticks w))).
  cbv zeta.
  destruct (insert_one _ _ _) as [[id|e] w1]; [|reflexivity].
  unfold bind.
  destruct (find_one _ _ _) as [[[d|]|e] w2]; reflexivity.
Qed.

Lemma validate_stamped_contact contact created updated o s :
  ContactFormCreate.subject contact = Some s ->
  ContactForm.validate lax
    (convert_objectid
       (<["_id" := VOid o]> (stamped_contact contact created updated)))
  = Return (ContactForm.Make (str_oid o) (ContactFormCreate.name contact)
              (ContactFormCreate.email contact) s
              (ContactFormCreate.message contact) NEW
              (Some created) (Some updated)).
Proof.
  intros Hs. unfold ContactForm.validate.
  rewrite (field_id_convert _ (VOid o)) by apply lookup_insert_eq.
  rewrite !field_str_convert, field_str_default_convert,
    field_status_convert, !field_datetime_opt_convert by discriminate.
  unfold field_str, field_str_default, field_status, field_datetime_opt,
    stamped_contact, ContactFormCreate.dict.
  rewrite Hs.
  repeat (rewrite lookup_insert_eq || rewrite lookup_insert_ne by discriminate).
  reflexivity.
Qed.

Lemma find_one_ok name q w :
  faults w (ops w) = None ->
  find_one name q w =
    (Return (List.find (matches q) (collection name w)), next_op w).
Proof. intros Hf. unfold find_one. rewrite store_call_ok by exact Hf. reflexivity. Qed.

Lemma find_one_fault name q w msg :
  faults w (ops w) = Some msg ->
  find_one name q w = (Raise (StoreError msg), next_op w).
Proof. intros Hf. unfold find_one. apply store_call_fault, Hf. Qed.

Lemma find_inserted name (doc : document) o w :
  existsb (matches (QEq "_id" (VOid o))) (collection name w) = false ->
  List.find (matches (QEq "_id" (VOid o)))
    (collection name (add_document name (<["_id" := VOid o]> doc) w))
  = Some (<["_id" := VOid o]> doc).
Proof.
  intros Hdup. rewrite collection_add_document.
  apply find_appended; [exact Hdup|apply matches_own_oid].
Qed.

Lemma submit_contact_form_ok contact w s :
  ContactFormCreate.subject contact = Some s ->
  faults w (ops w) = None ->
  faults w (S (ops w)) = None ->
  existsb (matches (QEq "_id" (VOid (oid_supply w (minted w)))))
          (collection "contacts" w) = false ->
  submit_contact_form contact w =
    (Return (ContactForm.Make (str_oid (oid_supply w (minted w)))
               (ContactFormCreate.name contact)
               (ContactFormCreate.email contact) s
               (ContactFormCreate.message contact) NEW
               (Some (clock w (ticks w))) (Some (clock w (S (ticks w))))),
     next_op
       (add_document "contacts"
          (<["_id" := VOid (oid_supply w (minted w))]>
             (stamped_contact contact (clock w (ticks w))
                (clock w (S (ticks w)))))
          (next_op (mint (tick (tick w)))))).
Proof.
  intros Hs Hf1 Hf2 Hdup. rewrite submit_contact_form_steps. cbv zeta.
  rewrite (insert_one_fresh "contacts" _ (tick (tick w)))
    by (try apply stamped_contact_no_id; assumption).
  rewrite find_one_ok by exact Hf2.
  change (oid_supply (tick (tick w)) (minted (tick (tick w))))
    with (oid_supply w (minted w)).
  rewrite find_inserted by exact Hdup.
  rewrite (validate_stamped_contact _ _ _ _ s Hs). reflexivity.
Qed.

(** A request body with [name], [email] and [message] and no [subject]
    is accepted, with the empty string as subject. *)
Lemma body_without_subject (body : document) name email message :
  body !! "name" = Some (VStr name) ->
  body !! "email" = Some (VStr email) ->
  body !! "message" = Some (VStr message) ->
  body !! "subject" = None ->
  ContactFormCreate.validate body =
    Return (ContactFormCreate.Make name email (Some "") message).
Proof.
  intros Hn He Hm Hs.
  unfold ContactFormCreate.validate, ContactFormCreate.field_subject, field_str.
  rewrite Hn, He, Hm, Hs. reflexivity.
Qed.

(** C3.  A contact submission with [name], [email] and [message] and no
    [subject], on a store that accepts the insert and answers the
    re-read: the response has the empty subject, status [new], the 24
    hexadecimal digits of the new identifier as [id], and the two
    consecutive clock readings as [createdAt] and [updatedAt], so the
    two differ by no more than the clock moved in between.  The
    contacts collection has grown by exactly the stamped document, which
    the store finds under that identifier; no other collection has
    changed. *)
Theorem contact_submission_without_subject
    (body : document) (name email message : string) (w : world) :
  body !! "name" = Some (VStr name) ->
  body !! "email" = Some (VStr email) ->
  body !! "message" = Some (VStr message) ->
  body !! "subject" = None ->
  faults w (ops w) = None ->
  faults w (S (ops w)) = None ->
  existsb (matches (QEq "_id" (VOid (oid_supply w (minted w)))))
          (collection "contacts" w) = false ->
  let created := clock w (ticks w) in
  let updated := clock w (S (ticks w)) in
  let o := oid_supply w (minted w) in
  exists contact m w',
    ContactFormCreate.validate body = Return contact
    /\ submit_contact_form contact w = (Return m, w')
    /\ ContactForm.subject m = ""
    /\ ContactForm.status m = NEW
    /\ status_value (ContactForm.status m) = "new"
    /\ ContactForm.id m = str_oid o
    /\ String.length (ContactForm.id m) = 24%nat
    /\ ContactForm.id m <> ""
    /\ ContactForm.name m = name
    /\ ContactForm.email m = email
    /\ ContactForm.message m = message
    /\ ContactForm.createdAt m = Some created
    /\ ContactForm.updatedAt m = Some updated
    /\ (forall tol, Z.abs (updated - created) <= tol ->
        exists c u, ContactForm.createdAt m = Some c
                    /\ ContactForm.updatedAt m = Some u
                    /\ Z.abs (u - c) <= tol)
    /\ collection "contacts" w' =
         (collection "contacts" w
            ++ [<["_id" := VOid o]> (stamped_contact contact created updated)])%list
    /\ List.find (matches (QEq "_id" (VOid o))) (collection "contacts" w')
       = Some (<["_id" := VOid o]> (stamped_contact contact created updated))
    /\ (forall other, other <> "contacts" ->
        collection other w' = collection other w).
Proof.
  intros Hn He Hm Hs Hf1 Hf2 Hdup created updated o.
  pose proof (body_without_subject body name email message Hn He Hm Hs) as Hbody.
  set (contact := ContactFormCreate.Make name email (Some "") message) in *.
  pose proof (submit_contact_form_ok contact w "" eq_refl Hf1 Hf2 Hdup) as Hrun.
  eexists contact, _, _.
  split; [exact Hbody|]. split; [exact Hrun|].
  cbn [ContactForm.subject ContactForm.status ContactForm.id ContactForm.name
       ContactForm.email ContactForm.message ContactForm.createdAt
       ContactForm.updatedAt status_value].
  repeat split.
  - apply str_oid_nonempty.
  - intros tol Htol. exists created, updated. auto.
  - change (collection "contacts" (next_op ?x)) with (collection "contacts" x).
    rewrite collection_add_document. reflexivity.
  - change (collection "contacts" (next_op ?x)) with (collection "contacts" x).
    rewrite find_inserted by exact Hdup. reflexivity.
  - intros other Hother.
    change (collection other (next_op ?x)) with (collection other x).
    rewrite collection_add_document_ne by congruence. reflexivity.
Qed.

(** ** Store failures *)

Lemma raises_only_fixed_500 {A} (body : M A) pre detail w e :
  fst (try_except body
         (fun e =>
            do _ <- logging_error (pre ++ exn_str e);
            raise (HTTPException 500 detail)) w) = Raise e ->
  e = HTTPException 500 detail.
Proof.
  unfold try_except. destruct (body w) as [[a|e'] w']; simpl.
  - discriminate.
  - intros [= <-]. reflexivity.
Qed.

(** C7.  A store failure during a listing or a contact submission, with
    any message [msg], makes the handler raise the 500 whose detail is
    the handler's own fixed text, and appends the cause to the log.
    This is so when the listing query fails, when the contact insert
    fails, and when the contact re-read fails.  More generally, whatever
    goes wrong in these four handlers, the only exception that leaves
    them is that 500. *)
Theorem store_failure_gives_generic_500 (w : world) (msg : string) :
  (faults w (ops w) = Some msg ->
   get_experiences w =
     (Raise (HTTPException 500 "Failed to fetch experiences"),
      write_log ("Error fetching experiences: " ++ msg) (next_op w))
   /\ get_accomplishments w =
        (Raise (HTTPException 500 "Failed to fetch accomplishments"),
         write_log ("Error fetching accomplishments: " ++ msg) (next_op w))
   /\ get_testimonials w =
        (Raise (HTTPException 500 "Failed to fetch testimonials"),
         write_log ("Error fetching testimonials: " ++ msg) (next_op w))
   /\ forall contact,
        submit_contact_form contact w =
          (Raise (HTTPException 500 "Failed to submit contact form"),
           write_log ("Error submitting contact form: " ++ msg)
             (next_op (mint (tick (tick w))))))
  /\ (faults w (ops w) = None ->
      faults w (S (ops w)) = Some msg ->
      existsb (matches (QEq "_id" (VOid (oid_supply w (minted w)))))
              (collection "contacts" w) = false ->
      forall contact,
        fst (submit_contact_form contact w) =
          Raise (HTTPException 500 "Failed to submit contact form")
        /\ log (snd (submit_contact_form contact w)) =
             (log w ++ [("Error submitting contact form: " ++ msg)%string])%list)
  /\ (forall e,
        (fst (get_experiences w) = Raise e ->
         e = HTTPException 500 "Failed to fetch experiences")
        /\ (fst (get_accomplishments w) = Raise e ->
            e = HTTPException 500 "Failed to fetch accomplishments")
        /\ (fst (get_testimonials w) = Raise e ->
            e = HTTPException 500 "Failed to fetch testimonials")
        /\ (forall contact,
              fst (submit_contact_form contact w) = Raise e ->
              e = HTTPException 500 "Failed to submit contact form")).
Proof.
  split; [|split].
  - intros Hf. repeat split.
    + exact (listing_fault (Experience.validate lax) "experiences"
               "Error fetching experiences: " _ w msg Hf).
    + exact (listing_fault (Accomplishment.validate lax) "accomplishments"
               "Error fetching accomplishments: " _ w msg Hf).
    + exact (listing_fault (Testimonial.validate lax) "testimonials"
               "Error fetching testimonials: " _ w msg Hf).
    + intros contact. rewrite submit_contact_form_steps. cbv zeta.
      rewrite (insert_one_fresh_fault "contacts" _ (tick (tick w)) msg)
        by (try apply stamped_contact_no_id; assumption).
      reflexivity.
  - intros Hf1 Hf2 Hdup contact.
    rewrite submit_contact_form_steps. cbv zeta.
    rewrite (insert_one_fresh "contacts" _ (tick (tick w)))
      by (try apply stamped_contact_no_id; assumption).
    rewrite (find_one_fault _ _ _ msg) by exact Hf2.
    split; reflexivity.
  - intros e.
    unfold get_experiences, get_accomplishments, get_testimonials,
      submit_contact_form.
    split; [|split; [|split; [|intros contact]]]; intros H;
      eapply raises_only_fixed_500; exact H.
Qed.

(** ** Documents and their models *)

Lemma field_str_kept k (d : document) s :
  field_str k d = Return s ->
  forall v, d !! k = Some v -> converted lax KStr v = Some (VStr s).
Proof.
  intros H v Hv. apply field_str_inv in H.
  assert (v = VStr s) as -> by congruence. reflexivity.
Qed.

Lemma field_str_default_kept k dflt (d : document) s :
  field_str_default k dflt d = Return s ->
  forall v, d !! k = Some v -> converted lax KStr v = Some (VStr s).
Proof.
  intros H v Hv. rewrite (field_str_default_inv _ _ _ _ H v Hv). reflexivity.
Qed.

Lemma field_str_list_kept k (d : document) ss :
  field_str_list k d = Return ss ->
  forall v, d !! k = Some v ->
    converted lax KStrList v = Some (dump_str_list ss).
Proof.
  unfold field_str_list. intros H v Hv. rewrite Hv in H.
  destruct v as [|p|n|x|s|t|o|l|kvs]; try discriminate H. simpl.
  destruct (mapM as_str l) as [ss'|]; [|discriminate H].
  injection H as <-. reflexivity.
Qed.

Lemma field_int_default_kept k dflt (d : document) n :
  field_int_default lax k dflt d = Return n ->
  forall v, d !! k = Some v -> converted lax KInt v = Some (VInt n).
Proof.
  intros H v Hv.
  destruct (field_int_default_inv _ _ _ _ H) as [[E _]|[v' [E Ev]]];
    [congruence|].
  assert (v' = v) as -> by congruence. simpl. rewrite Ev. reflexivity.
Qed.

Lemma field_bool_default_kept k dflt (d : document) b :
  field_bool_default lax k dflt d = Return b ->
  forall v, d !! k = Some v -> converted lax KBool v = Some (VBool b).
Proof.
  intros H v Hv.
  destruct (field_bool_default_inv _ _ _ _ H) as [[E _]|[v' [E Ev]]];
    [congruence|].
  assert (v' = v) as -> by congruence. simpl. rewrite Ev. reflexivity.
Qed.

Lemma field_datetime_opt_kept k (d : document) o :
  field_datetime_opt lax k d = Return o ->
  forall v, d !! k = Some v ->
    converted lax KDatetime v = Some (dump_datetime o).
Proof.
  unfold field_datetime_opt. intros H v Hv. rewrite Hv in H.
  destruct v as [|p|n|x|s|t|o'|l|kvs];
    try (injection H as <-; reflexivity);
    (cbn [converted];
     destruct (as_datetime lax _) as [t'|]; [|discriminate H];
     injection H as <-; reflexivity).
Qed.

Lemma field_status_kept k (d : document) s :
  field_status k d = Return s ->
  forall v, d !! k = Some v ->
    converted lax KStatus v = Some (VStr (status_value s)).
Proof.
  intros H v Hv. rewrite (field_status_inv _ _ _ H v Hv).
  destruct s; reflexivity.
Qed.

Lemma mapM_as_str_native l :
  forallb (fun x => bool_decide (is_Some (as_str x))) l = true ->
  dump_str_list <$> mapM as_str l = Some (VList l).
Proof.
  intros H.
  assert (Hss : exists ss, mapM as_str l = Some ss /\ map VStr ss = l).
  { induction l as [|x l IH].
    - exists []. split; reflexivity.
    - simpl in H. apply andb_true_iff in H as [Hx Hl].
      destruct (IH Hl) as [ss [Hss Hmap]].
      destruct x as [|p|n|y|s|t|o|l'|kvs];
        try (apply bool_decide_eq_true in Hx; destruct Hx as [? [=]]).
      exists (s :: ss). split.
      + apply mapM_Some. constructor; [reflexivity|apply mapM_Some, Hss].
      + simpl. rewrite Hmap. reflexivity. }
  destruct Hss as [ss [-> <-]]. reflexivity.
Qed.

(** The schemas list the declared keys of the models. *)
Lemma schema_keys :
  map fst Experience_schema = Experience.keys
  /\ map fst Accomplishment_schema = Accomplishment.keys
  /\ map fst Profile_schema = Profile.keys
  /\ map fst Testimonial_schema = Testimonial.keys
  /\ map fst ContactForm_schema = ContactForm.keys.
Proof. repeat split. Qed.

(** A value that already has the declared type is kept as it is. *)
Lemma converted_native kd v : native kd v = true -> converted lax kd v = Some v.
Proof.
  destruct kd, v; simpl; try discriminate; try reflexivity.
  - apply mapM_as_str_native.
  - intros ->. reflexivity.
Qed.

Lemma kept_as_converted (served : document) k kd v :
  served !! k = converted lax kd v ->
  served !! k = converted lax kd v
  /\ (native kd v = true -> served !! k = Some v).
Proof.
  intros H. split; [exact H|]. intros Hn. rewrite H.
  apply converted_native, Hn.
Qed.

(** Given [Hv : d !! k = Some v] and the equation of the field [k],
    replaces what pydantic makes of [v] by the value the model holds. *)
Ltac converted_value Hv :=
  match type of Hv with
  | ?d !! ?k = Some ?v =>
      match goal with
      | E : field_str k d = Return _ |- _ =>
          rewrite (field_str_kept _ _ _ E _ Hv)
      | E : field_str_default k _ d = Return _ |- _ =>
          rewrite (field_str_default_kept _ _ _ _ E _ Hv)
      | E : field_str_list k d = Return _ |- _ =>
          rewrite (field_str_list_kept _ _ _ E _ Hv)
      | E : field_int_default _ k _ d = Return _ |- _ =>
          rewrite (field_int_default_kept _ _ _ _ E _ Hv)
      | E : field_bool_default _ k _ d = Return _ |- _ =>
          rewrite (field_bool_default_kept _ _ _ _ E _ Hv)
      | E : field_datetime_opt _ k d = Return _ |- _ =>
          rewrite (field_datetime_opt_kept _ _ _ E _ Hv)
      | E : field_status k d = Return _ |- _ =>
          rewrite (field_status_kept _ _ _ E _ Hv)
      end
  end.

Ltac each_key Hk :=
  repeat (apply elem_of_cons in Hk as [->|Hk]); [..|inversion Hk].

Ltac each_field Hk :=
  repeat (apply elem_of_cons in Hk as [[= -> ->]|Hk]); [..|inversion Hk].

Ltac declared_key Hk Hv :=
  each_field Hk; apply kept_as_converted; converted_value Hv; reflexivity.

Ltac identifier_becomes_id E :=
  match type of E with
  | field_id (convert_objectid ?d) = Return _ =>
      let v := fresh "v" in
      let Hv := fresh "Hv" in
      intros v Hv; rewrite (field_id_convert d v Hv) in E;
      injection E as <-; reflexivity
  end.

Ltac undeclared_key Hk :=
  repeat (rewrite lookup_insert_ne
            by (intros <-; apply Hk; repeat constructor));
  apply lookup_empty.

Lemma Experience_kept (d : document) m :
  Experience.validate lax (convert_objectid d) = Return m ->
  kept_by Experience.dump Experience_schema d m.
Proof.
  intros H. unfold Experience.validate in H. split_validate H.
  on_stored_document. split; [|split].
  - intros k kd v Hk Hv. declared_key Hk Hv.
  - identifier_becomes_id E.
  - intros k Hk. unfold Experience.dump. undeclared_key Hk.
Qed.

Lemma Accomplishment_kept (d : document) m :
  Accomplishment.validate lax (convert_objectid d) = Return m ->
  kept_by Accomplishment.dump Accomplishment_schema d m.
Proof.
  intros H. unfold Accomplishment.validate in H. split_validate H.
  on_stored_document. split; [|split].
  - intros k kd v Hk Hv. declared_key Hk Hv.
  - identifier_becomes_id E.
  - intros k Hk. unfold Accomplishment.dump. undeclared_key Hk.
Qed.

Lemma Profile_kept (d : document) m :
  Profile.validate lax (convert_objectid d) = Return m ->
  kept_by Profile.dump Profile_schema d m.
Proof.
  intros H. unfold Profile.validate in H. split_validate H.
  on_stored_document. split; [|split].
  - intros k kd v Hk Hv. declared_key Hk Hv.
  - identifier_becomes_id E.
  - intros k Hk. unfold Profile.dump. undeclared_key Hk.
Qed.

Lemma Testimonial_kept (d : document) m :
  Testimonial.validate lax (convert_objectid d) = Return m ->
  kept_by Testimonial.dump Testimonial_schema d m.
Proof.
  intros H. unfold Testimonial.validate in H. split_validate H.
  on_stored_document. split; [|split].
  - intros k kd v Hk Hv. declared_key Hk Hv.
  - identifier_becomes_id E.
  - intros k Hk. unfold Testimonial.dump. undeclared_key Hk.
Qed.

Lemma ContactForm_kept (d : document) m :
  ContactForm.validate lax (convert_objectid d) = Return m ->
  kept_by ContactForm.dump ContactForm_schema d m.
Proof.
  intros H. unfold ContactForm.validate in H. split_validate H.
  on_stored_document. split; [|split].
  - intros k kd v Hk Hv. declared_key Hk Hv.
  - identifier_becomes_id E.
  - intros k Hk. unfold ContactForm.dump. undeclared_key Hk.
Qed.

(** C8, as amended.  For every stored document that passes the
    validation of its entity, the serialized model holds, under every
    key the entity declares and the document holds, what pydantic made
    of the stored value: the stored value itself when it already has
    the declared type (a string, a list of strings, an integer, a
    boolean, a date or null for an optional date, a status), and
    otherwise the integer, boolean or date that the stored boolean,
    number or string was converted to.  The serialized model holds the
    identifier [_id] as the string [id], and nothing under any other
    key, so a field of the document that the entity does not declare
    is not preserved. *)
Theorem declared_fields_round_trip (d : document) :
  (forall m, Experience.validate lax (convert_objectid d) = Return m ->
             kept_by Experience.dump Experience_schema d m)
  /\ (forall m, Accomplishment.validate lax (convert_objectid d) = Return m ->
                kept_by Accomplishment.dump Accomplishment_schema d m)
  /\ (forall m, Profile.validate lax (convert_objectid d) = Return m ->
                kept_by Profile.dump Profile_schema d m)
  /\ (forall m, Testimonial.validate lax (convert_objectid d) = Return m ->
                kept_by Testimonial.dump Testimonial_schema d m)
  /\ (forall m, ContactForm.validate lax (convert_objectid d) = Return m ->
                kept_by ContactForm.dump ContactForm_schema d m).
Proof.
  split; [|split; [|split; [|split]]].
  - apply Experience_kept.
  - apply Accomplishment_kept.
  - apply Profile_kept.
  - apply Testimonial_kept.
  - apply ContactForm_kept.
Qed.

(** ** The profile endpoint *)

Lemma find_filter {A} (p : A -> bool) l :
  List.find p l = head (List.filter p l).
Proof.
  induction l as [|x l IH]; simpl; [reflexivity|].
  destruct (p x); [reflexivity|exact IH].
Qed.

Lemma truthy_active (d : document) :
  matches active d = true -> truthy (Some d) = true.
Proof.
  simpl. destruct (d !! "isActive") as [v|] eqn:E; [|discriminate].
  intros _. destruct (map_to_list d) eqn:L; [|reflexivity].
  apply map_to_list_empty_iff in L. subst d. rewrite lookup_empty in E.
  discriminate.
Qed.

Lemma get_profile_none w :
  faults w (ops w) = None ->
  active_docs "profile" w = [] ->
  get_profile w = (Raise (HTTPException 404 "Profile not found"), next_op w).
Proof.
  intros Hf Hnone. unfold get_profile, try_except, bind.
  rewrite find_one_ok by exact Hf. rewrite find_filter.
  fold (active_docs "profile" w). rewrite Hnone. reflexivity.
Qed.

Lemma get_profile_first w (d : document) rest :
  faults w (ops w) = None ->
  active_docs "profile" w = d :: rest ->
  get_profile w =
    match Profile.validate lax (convert_objectid d) with
    | Return m => (Return m, next_op w)
    | Raise e =>
        answer_500 "Error fetching profile: " "Failed to fetch profile" e
          (next_op w)
    end.
Proof.
  intros Hf Hd. unfold get_profile, try_except, bind.
  rewrite find_one_ok by exact Hf. rewrite find_filter.
  fold (active_docs "profile" w). rewrite Hd.
  change (head (d :: rest)) with (Some d).
  assert (Hact : matches active d = true).
  { assert (Hin : In d (active_docs "profile" w))
      by (rewrite Hd; left; reflexivity).
    apply filter_In in Hin. apply Hin. }
  rewrite (truthy_active d Hact). simpl negb. cbv iota. unfold lift.
  destruct (Profile.validate lax (convert_objectid d)) as [m|e] eqn:Hv.
  - reflexivity.
  - assert (He : exists k, e = ValidationError k).
    { unfold Profile.validate, and_then in Hv.
      repeat match type of Hv with
             | match ?r with Return _ => _ | Raise _ => _ end = Raise _ =>
                 let E := fresh "E" in
                 destruct r eqn:E
             end;
        try discriminate;
        injection Hv as <-;
        match goal with
        | E : _ = Raise ?e |- _ =>
            unfold field_id, field_str, field_bool_default,
              field_datetime_opt in E;
            repeat match type of E with
                   | context [match ?x with _ => _ end] => destruct x
                   end;
            try discriminate; injection E as <-; eexists; reflexivity
        end. }
    destruct He as [k ->]. reflexivity.
Qed.

(** C2, as amended.  When the store answers the query: with no active
    profile document the handler raises the 404 "Profile not found",
    which is not the 500 and leaves the log untouched; with exactly one
    active document that passes validation, the handler returns its
    model, which holds under every declared key what pydantic made of
    the stored value, the stored value itself when it has the declared
    type; with exactly one active document that fails validation, the
    handler raises the generic 500. *)
Theorem profile_not_found_or_returned (w : world) :
  faults w (ops w) = None ->
  (active_docs "profile" w = [] ->
   get_profile w = (Raise (HTTPException 404 "Profile not found"), next_op w)
   /\ fst (get_profile w) <> Raise (HTTPException 500 "Failed to fetch profile")
   /\ log (snd (get_profile w)) = log w)
  /\ (forall (d : document) m,
        active_docs "profile" w = [d] ->
        Profile.validate lax (convert_objectid d) = Return m ->
        get_profile w = (Return m, next_op w)
        /\ kept_by Profile.dump Profile_schema d m)
  /\ (forall (d : document) e,
        active_docs "profile" w = [d] ->
        Profile.validate lax (convert_objectid d) = Raise e ->
        fst (get_profile w)
        = Raise (HTTPException 500 "Failed to fetch profile")).
Proof.
  intros Hf. split; [|split].
  - intros Hnone. rewrite (get_profile_none w Hf Hnone). simpl.
    split; [reflexivity|]. split; [discriminate|reflexivity].
  - intros d m Hone Hv. rewrite (get_profile_first w d [] Hf Hone), Hv.
    split; [reflexivity|]. apply Profile_kept, Hv.
  - intros d e Hone Hv. rewrite (get_profile_first w d [] Hf Hone), Hv.
    reflexivity.
Qed.

(** ** The analytics endpoints *)

Lemma track_analytics_steps (payload : document) w :
  track_analytics payload w =
    match insert_one "analytics"
            (<["createdAt" := VDate (clock w (ticks w))]> payload) (tick w) with
    | (Return _, w1) => (Return {["status" := VStr "success"]}, w1)
    | (Raise e, w1) =>
        (Return {["status" := VStr "error"]},
         write_log ("Error tracking analytics: " ++ exn_str e) w1)
    end.
Proof.
  unfold track_analytics, try_except.
  unfold bind at 1. unfold utcnow at 1. unfold bind at 1.
  destruct (insert_one _ _ _) as [[id|e] w1]; reflexivity.
Qed.

Lemma insert_one_fault name (doc : document) w msg :
  faults w (ops w) = Some msg ->
  exists w1, insert_one name doc w = (Raise (StoreError msg), w1).
Proof.
  intros Hf. unfold insert_one, bind, store_call.
  destruct (doc !! "_id"); simpl; rewrite Hf; eexists; reflexivity.
Qed.

Lemma status_success_not_error :
  ({["status" := VStr "success"]} : document) <> {["status" := VStr "error"]}.
Proof.
  intros H. apply (f_equal (fun m : document => m !! "status")) in H.
  rewrite !lookup_singleton_eq in H. discriminate.
Qed.

Lemma get_analytics_summary_ok w :
  faults w (ops w) = None ->
  faults w (S (ops w)) = None ->
  get_analytics_summary w =
    (Return (summary_body
               (count_where QAll "analytics" w)
               (count_where (QSince "timestamp" (clock w (ticks w) - week))
                  "analytics" w)
               (clock w (S (ticks w)))),
     tick (next_op (tick (next_op w)))).
Proof.
  intros Hf1 Hf2. unfold get_analytics_summary, try_except, bind,
    count_documents, store_call, utcnow.
  rewrite Hf1. simpl. rewrite Hf2. reflexivity.
Qed.

Lemma get_analytics_summary_fault_first w msg :
  faults w (ops w) = Some msg ->
  get_analytics_summary w =
    (Return zero_counts,
     write_log ("Error fetching analytics: " ++ msg) (next_op w)).
Proof.
  intros Hf. unfold get_analytics_summary, try_except, bind,
    count_documents, store_call. rewrite Hf. reflexivity.
Qed.

Lemma get_analytics_summary_fault_second w msg :
  faults w (ops w) = None ->
  faults w (S (ops w)) = Some msg ->
  get_analytics_summary w =
    (Return zero_counts,
     write_log ("Error fetching analytics: " ++ msg)
       (next_op (tick (next_op w)))).
Proof.
  intros Hf1 Hf2. unfold get_analytics_summary, try_except, bind,
    count_documents, store_call, utcnow.
  rewrite Hf1. simpl. rewrite Hf2. reflexivity.
Qed.

Lemma length_filter_snoc {A} (p : A -> bool) l d :
  Z.of_nat (length (List.filter p (l ++ [d]))) =
    Z.of_nat (length (List.filter p l)) + (if p d then 1 else 0).
Proof.
  rewrite List.filter_app, length_app. simpl.
  destruct (p d); simpl; lia.
Qed.

Lemma count_where_add_document q name d w :
  count_where q name (add_document name d w) =
    count_where q name w + (if matches q d then 1 else 0).
Proof.
  unfold count_where. rewrite collection_add_document.
  apply length_filter_snoc.
Qed.

Lemma matches_since_date k thr (d : document) t :
  d !! k = Some (VDate t) -> matches (QSince k thr) d = (thr <=? t).
Proof. intros H. simpl. rewrite H. reflexivity. Qed.

Lemma matches_since_absent k thr (d : document) :
  d !! k = None -> matches (QSince k thr) d = false.
Proof. intros H. simpl. rewrite H. reflexivity. Qed.

(** C4.  Whatever the payload and whatever the store does, the track
    endpoint returns a body and raises nothing.  When the store accepts
    the insert the body is [{status: "success"}] and the analytics
    collection has grown by exactly one document, the payload with the
    server's [createdAt] and its [_id]; no other collection changes.
    For a payload without [_id] that is so whenever the store does not
    fail and the fresh identifier is unused.  When the insert raises,
    and in particular on every store failure, the body is
    [{status: "error"}], the cause is logged and the database is
    unchanged. *)
Theorem track_analytics_answers_in_body (payload : document) (w : world) :
  let stamped := <["createdAt" := VDate (clock w (ticks w))]> payload in
  (exists body, fst (track_analytics payload w) = Return body)
  /\ (payload !! "_id" = None ->
      faults w (ops w) = None ->
      existsb (matches (QEq "_id" (VOid (oid_supply w (minted w)))))
              (collection "analytics" w) = false ->
      track_analytics payload w =
        (Return {["status" := VStr "success"]},
         add_document "analytics"
           (<["_id" := VOid (oid_supply w (minted w))]> stamped)
           (next_op (mint (tick w)))))
  /\ (forall msg, faults w (ops w) = Some msg ->
      fst (track_analytics payload w) = Return {["status" := VStr "error"]}
      /\ db (snd (track_analytics payload w)) = db w
      /\ log (snd (track_analytics payload w)) =
           (log w ++ [("Error tracking analytics: " ++ msg)%string])%list)
  /\ match insert_one "analytics" stamped (tick w) with
     | (Return id, w1) =>
         track_analytics payload w
         = (Return {["status" := VStr "success"]}, w1)
         /\ collection "analytics" w1 =
              (collection "analytics" w ++ [<["_id" := id]> stamped])%list
         /\ (<["_id" := id]> stamped) !! "createdAt"
            = Some (VDate (clock w (ticks w)))
         /\ (forall other, other <> "analytics" ->
             collection other w1 = collection other w)
     | (Raise e, w1) =>
         track_analytics payload w =
           (Return {["status" := VStr "error"]},
            write_log ("Error tracking analytics: " ++ exn_str e) w1)
         /\ db w1 = db w
     end.
Proof.
  intros stamped. rewrite track_analytics_steps. fold stamped.
  split; [|split; [|split]].
  - destruct (insert_one "analytics" stamped (tick w)) as [[id|e] w1];
      eexists; reflexivity.
  - intros Hid Hf Hdup.
    rewrite (insert_one_fresh "analytics" stamped (tick w)); try assumption.
    + reflexivity.
    + unfold stamped. rewrite lookup_insert_ne by discriminate. exact Hid.
  - intros msg Hf.
    destruct (insert_one_fault "analytics" stamped (tick w) msg Hf)
      as [w1 Hins].
    rewrite Hins. apply insert_one_inv in Hins as (_ & _ & Hlog & Hdb).
    simpl. rewrite Hlog. auto.
  - destruct (insert_one "analytics" stamped (tick w)) as [[id|e] w1] eqn:Hins;
      apply insert_one_inv in Hins as (_ & _ & _ & Hdb).
    + destruct Hdb as [Hdb _]. split; [reflexivity|]. repeat split.
      * unfold collection at 1. rewrite Hdb, lookup_insert_eq. reflexivity.
      * rewrite lookup_insert_ne by discriminate. apply lookup_insert_eq.
      * intros other Hother. unfold collection. rewrite Hdb.
        rewrite lookup_insert_ne by congruence. reflexivity.
    + split; [reflexivity|exact Hdb].
Qed.

(** C5.  When the store answers both counts, the summary reports the
    number of documents of the analytics collection and the number of
    those whose [timestamp] is a date within the seven days before the
    handler read the clock.  Over an empty collection both are 0.  One
    more document whose [timestamp] is that clock reading raises both by
    one; one more document whose [timestamp] is ten days older raises
    the total only. *)
Theorem analytics_summary_counts (w : world) :
  faults w (ops w) = None ->
  faults w (S (ops w)) = None ->
  let now := clock w (ticks w) in
  exists total recent stamp,
    fst (get_analytics_summary w) = Return (summary_body total recent stamp)
    /\ summary_body total recent stamp !! "total_visits" = Some (VInt total)
    /\ summary_body total recent stamp !! "recent_visits" = Some (VInt recent)
    /\ (collection "analytics" w = [] -> total = 0 /\ recent = 0)
    /\ forall (d : document) t,
         d !! "timestamp" = Some (VDate t) ->
         exists recent',
           fst (get_analytics_summary (add_document "analytics" d w))
           = Return (summary_body (total + 1) recent' stamp)
           /\ (t = now -> recent' = recent + 1)
           /\ (t = now - 10 * day -> recent' = recent)
           /\ (now - week <= t -> recent' = recent + 1)
           /\ (t < now - week -> recent' = recent).
Proof.
  intros Hf1 Hf2 now.
  exists (count_where QAll "analytics" w),
    (count_where (QSince "timestamp" (now - week)) "analytics" w),
    (clock w (S (ticks w))).
  rewrite (get_analytics_summary_ok w Hf1 Hf2). fold now.
  split; [reflexivity|]. split; [reflexivity|]. split; [reflexivity|].
  split.
  - intros He. unfold count_where. rewrite He. simpl. auto.
  - intros d t Ht.
    exists (count_where (QSince "timestamp" (now - week)) "analytics"
              (add_document "analytics" d w)).
    rewrite (get_analytics_summary_ok (add_document "analytics" d w) Hf1 Hf2).
    change (clock (add_document "analytics" d w)) with (clock w).
    change (ticks (add_document "analytics" d w)) with (ticks w).
    fold now. rewrite !count_where_add_document.
    rewrite (matches_since_date _ _ _ _ Ht). simpl matches.
    split; [reflexivity|].
    unfold week, day.
    repeat split; intros H; destruct (Z.leb_spec (now - 7 * 24 * 3600 * 1000) t); lia.
Qed.

(** C10.  When either count fails, the summary answers with exactly
    [{total_visits: 0, recent_visits: 0}], which has no [timestamp], and
    logs the cause.  When both counts succeed the body has a
    [timestamp]; over an empty collection it is the failure body with
    that one key added. *)
Theorem failed_summary_lacks_timestamp (w : world) :
  (forall msg,
     faults w (ops w) = Some msg
     \/ (faults w (ops w) = None /\ faults w (S (ops w)) = Some msg) ->
     fst (get_analytics_summary w) = Return zero_counts
     /\ zero_counts !! "timestamp" = None
     /\ zero_counts !! "total_visits" = Some (VInt 0)
     /\ zero_counts !! "recent_visits" = Some (VInt 0)
     /\ (forall k, k <> "total_visits" -> k <> "recent_visits" ->
         zero_counts !! k = None)
     /\ log (snd (get_analytics_summary w)) =
          (log w ++ [("Error fetching analytics: " ++ msg)%string])%list)
  /\ (faults w (ops w) = None ->
      faults w (S (ops w)) = None ->
      exists total recent stamp,
        fst (get_analytics_summary w) = Return (summary_body total recent stamp)
        /\ summary_body total recent stamp !! "timestamp" = Some (VDate stamp)
        /\ summary_body total recent stamp <> zero_counts
        /\ (collection "analytics" w = [] ->
            summary_body total recent stamp
            = <["timestamp" := VDate stamp]> zero_counts)).
Proof.
  split.
  - intros msg H.
    assert (Hrun : exists w1,
               get_analytics_summary w =
                 (Return zero_counts,
                  write_log ("Error fetching analytics: " ++ msg) w1)
               /\ log w1 = log w).
    { destruct H as [Hf|[Hf1 Hf2]].
      - eexists. split; [apply get_analytics_summary_fault_first, Hf|].
        reflexivity.
      - eexists.
        split; [apply get_analytics_summary_fault_second; assumption|].
        reflexivity. }
    destruct Hrun as (w1 & -> & Hlog). simpl. rewrite Hlog.
    repeat split.
    intros k Hk1 Hk2. unfold zero_counts.
    rewrite !lookup_insert_ne by congruence. apply lookup_empty.
  - intros Hf1 Hf2. do 3 eexists.
    rewrite (get_analytics_summary_ok w Hf1 Hf2).
    split; [reflexivity|]. split; [reflexivity|]. split.
    + intros H. apply (f_equal (fun m : document => m !! "timestamp")) in H.
      discriminate H.
    + intros He. unfold count_where. rewrite He. simpl.
      unfold summary_body, zero_counts.
      apply map_eq. intros k.
      destruct (decide (k = "total_visits")) as [->|H1]; [reflexivity|].
      destruct (decide (k = "recent_visits")) as [->|H2]; [reflexivity|].
      destruct (decide (k = "timestamp")) as [->|H3]; [reflexivity|].
      rewrite !lookup_insert_ne by congruence. reflexivity.
Qed.

(** C9.  A payload without a [timestamp] key that the track endpoint
    accepts is stored with the server's [createdAt] and without a
    [timestamp].  Whenever the summary is taken afterwards, whatever the
    clock then reads, the stored document adds one to [total_visits]
    and nothing to [recent_visits]. *)
Theorem untimestamped_visit_never_recent (payload : document) (w : world) :
  payload !! "timestamp" = None ->
  fst (track_analytics payload w) = Return {["status" := VStr "success"]} ->
  let w1 := snd (track_analytics payload w) in
  exists doc : document,
    collection "analytics" w1 = (collection "analytics" w ++ [doc])%list
    /\ doc !! "createdAt" = Some (VDate (clock w (ticks w)))
    /\ doc !! "timestamp" = None
    /\ forall obs : world,
         faults obs (ops obs) = None ->
         faults obs (S (ops obs)) = None ->
         exists total recent stamp,
           fst (get_analytics_summary (set_db (fun _ => db w) obs))
           = Return (summary_body total recent stamp)
           /\ fst (get_analytics_summary (set_db (fun _ => db w1) obs))
              = Return (summary_body (total + 1) recent stamp).
Proof.
  intros Hts. rewrite track_analytics_steps.
  destruct (insert_one "analytics" _ (tick w)) as [[id|e] w1] eqn:Hins;
    cbn [fst snd]; intros Hok.
  2:{ apply (f_equal (fun r : outcome document =>
                        match r with Return b => b | Raise _ => ∅ end)) in Hok.
      cbv beta iota in Hok. symmetry in Hok.
      destruct (status_success_not_error Hok). }
  clear Hok. apply insert_one_inv in Hins as (_ & _ & _ & Hdb & _).
  set (doc := <["_id" := id]>
                (<["createdAt" := VDate (clock w (ticks w))]> payload)) in *.
  assert (Hcoll : collection "analytics" w1
                  = (collection "analytics" w ++ [doc])%list).
  { unfold collection at 1. rewrite Hdb, lookup_insert_eq. reflexivity. }
  exists doc. split; [exact Hcoll|]. split; [|split].
  - unfold doc. rewrite lookup_insert_ne by discriminate.
    apply lookup_insert_eq.
  - unfold doc. rewrite !lookup_insert_ne by discriminate. exact Hts.
  - intros obs Hf1 Hf2. do 3 eexists.
    rewrite (get_analytics_summary_ok (set_db (fun _ => db w) obs) Hf1 Hf2).
    rewrite (get_analytics_summary_ok (set_db (fun _ => db w1) obs) Hf1 Hf2).
    split; [reflexivity|]. simpl fst. f_equal.
    unfold count_where.
    change (collection "analytics" (set_db (fun _ => db w1) obs))
      with (collection "analytics" w1).
    change (collection "analytics" (set_db (fun _ => db w) obs))
      with (collection "analytics" w).
    change (clock (set_db (fun _ => db w1) obs)) with (clock obs).
    change (clock (set_db (fun _ => db w) obs)) with (clock obs).
    change (ticks (set_db (fun _ => db w1) obs)) with (ticks obs).
    change (ticks (set_db (fun _ => db w) obs)) with (ticks obs).
    rewrite Hcoll, !length_filter_snoc.
    assert (Hno : matches (QSince "timestamp"
                    (clock obs (ticks obs) - week)) doc = false).
    { apply matches_since_absent. unfold doc.
      rewrite !lookup_insert_ne by discriminate. exact Hts. }
    rewrite Hno. cbn [matches]. rewrite Z.add_0_r. reflexivity.
Qed.

(** * Further properties of the handlers and the models *)

(** ** [convert_objectid] *)

(** X1.  [convert_objectid] is idempotent: converting a converted
    document changes nothing, the identifier is already a string. *)
Theorem convert_objectid_idempotent (d : document) :
  convert_objectid (convert_objectid d) = convert_objectid d.
Proof.
  unfold convert_objectid at 2 3.
  destruct (d !! "_id") as [v|] eqn:E.
  - unfold convert_objectid. rewrite lookup_insert_eq. simpl py_str.
    apply insert_insert_eq.
  - unfold convert_objectid. rewrite E. reflexivity.
Qed.

(** X2.  [convert_objectid] keeps the keys of the document and the
    value under every key but [_id]; the value under [_id], when there
    is one, becomes a string; a document without [_id] is returned as it
    is. *)
Theorem convert_objectid_touches_only_id (d : document) :
  dom (convert_objectid d) = dom d
  /\ (forall k, k <> "_id" -> convert_objectid d !! k = d !! k)
  /\ (forall v, d !! "_id" = Some v ->
      convert_objectid d !! "_id" = Some (VStr (py_str v)))
  /\ (d !! "_id" = None -> convert_objectid d = d).
Proof.
  split; [|split; [|split]].
  - unfold convert_objectid. destruct (d !! "_id") as [v|] eqn:E.
    + apply dom_insert_lookup_L. rewrite E. eauto.
    + reflexivity.
  - intros k Hk. apply convert_objectid_lookup_ne, Hk.
  - intros v Hv. rewrite convert_objectid_lookup_id, Hv. reflexivity.
  - intros Hn. unfold convert_objectid. rewrite Hn. reflexivity.
Qed.

(** ** The models *)

Lemma mapM_as_str_map (l : list string) : mapM as_str (map VStr l) = Some l.
Proof.
  induction l as [|s l IH]; simpl; [reflexivity|].
  rewrite IH. reflexivity.
Qed.

Lemma field_str_list_dumped k (d : document) l :
  d !! k = Some (dump_str_list l) -> field_str_list k d = Return l.
Proof.
  intros H. unfold field_str_list, dump_str_list in *. rewrite H.
  rewrite mapM_as_str_map. reflexivity.
Qed.

Lemma field_datetime_opt_dumped k (d : document) o :
  d !! k = Some (dump_datetime o) -> field_datetime_opt lax k d = Return o.
Proof.
  intros H. unfold field_datetime_opt. rewrite H. destruct o; reflexivity.
Qed.

Lemma field_status_dumped k (d : document) s :
  d !! k = Some (VStr (status_value s)) -> field_status k d = Return s.
Proof.
  intros H. unfold field_status. rewrite H. destruct s; reflexivity.
Qed.

(** Looks a concrete key up in a map built by nested inserts. *)
Ltac lookup_key :=
  repeat (rewrite lookup_insert_eq || rewrite lookup_insert_ne by discriminate);
  try apply lookup_empty; try reflexivity.

Ltac rebuild_from_dump :=
  unfold field_id, field_str, field_str_default, field_int_default,
    field_bool_default;
  repeat (rewrite lookup_insert_eq
          || rewrite lookup_insert_ne by discriminate
          || rewrite lookup_empty);
  cbn [and_then as_int as_bool].

(** X3.  A response model is rebuilt from its own serialization:
    validating [dump m] gives [m] back, for each of the five models.
    The serialization carries the identifier under the field name [id],
    which [populate_by_name] accepts in place of the alias [_id]. *)
Theorem model_rebuilt_from_dump :
  (forall m, Experience.validate lax (Experience.dump m) = Return m)
  /\ (forall m, Accomplishment.validate lax (Accomplishment.dump m) = Return m)
  /\ (forall m, Profile.validate lax (Profile.dump m) = Return m)
  /\ (forall m, Testimonial.validate lax (Testimonial.dump m) = Return m)
  /\ (forall m, ContactForm.validate lax (ContactForm.dump m) = Return m).
Proof.
  split; [|split; [|split; [|split]]]; intros [].
  - unfold Experience.validate, Experience.dump; cbn [Experience.id
      Experience.position Experience.company Experience.location
      Experience.period Experience.description Experience.achievements
      Experience.order Experience.isActive Experience.createdAt
      Experience.updatedAt].
    rewrite (field_str_list_dumped "achievements" _ achievements) by lookup_key.
    rewrite (field_datetime_opt_dumped "createdAt" _ createdAt) by lookup_key.
    rewrite (field_datetime_opt_dumped "updatedAt" _ updatedAt) by lookup_key.
    rebuild_from_dump. reflexivity.
  - unfold Accomplishment.validate, Accomplishment.dump; cbn [Accomplishment.id
      Accomplishment.title Accomplishment.description Accomplishment.impact
      Accomplishment.technologies Accomplishment.order
      Accomplishment.isActive Accomplishment.createdAt
      Accomplishment.updatedAt].
    rewrite (field_str_list_dumped "technologies" _ technologies) by lookup_key.
    rewrite (field_datetime_opt_dumped "createdAt" _ createdAt) by lookup_key.
    rewrite (field_datetime_opt_dumped "updatedAt" _ updatedAt) by lookup_key.
    rebuild_from_dump. reflexivity.
  - unfold Profile.validate, Profile.dump; cbn [Profile.id Profile.name
      Profile.title Profile.description Profile.location Profile.email
      Profile.phone Profile.isActive Profile.updatedAt].
    rewrite (field_datetime_opt_dumped "updatedAt" _ updatedAt) by lookup_key.
    rebuild_from_dump. reflexivity.
  - unfold Testimonial.validate, Testimonial.dump; cbn [Testimonial.id
      Testimonial.name Testimonial.title Testimonial.company
      Testimonial.testimonial Testimonial.relationship Testimonial.date
      Testimonial.order Testimonial.isActive Testimonial.createdAt
      Testimonial.updatedAt].
    rewrite (field_datetime_opt_dumped "createdAt" _ createdAt) by lookup_key.
    rewrite (field_datetime_opt_dumped "updatedAt" _ updatedAt) by lookup_key.
    rebuild_from_dump. reflexivity.
  - unfold ContactForm.validate, ContactForm.dump; cbn [ContactForm.id
      ContactForm.name ContactForm.email ContactForm.subject
      ContactForm.message ContactForm.status ContactForm.createdAt
      ContactForm.updatedAt].
    rewrite (field_status_dumped "status" _ status) by lookup_key.
    rewrite (field_datetime_opt_dumped "createdAt" _ createdAt) by lookup_key.
    rewrite (field_datetime_opt_dumped "updatedAt" _ updatedAt) by lookup_key.
    rebuild_from_dump. reflexivity.
Qed.

(** X4.  The request model of the contact form is rebuilt from
    [contact.dict()], whether the subject is a string or [None]. *)
Theorem contact_request_rebuilt_from_dict (c : ContactFormCreate.t) :
  ContactFormCreate.validate (ContactFormCreate.dict c) = Return c.
Proof.
  destruct c as [name email subject message].
  unfold ContactFormCreate.validate, ContactFormCreate.dict,
    ContactFormCreate.field_subject, field_str.
  cbn [ContactFormCreate.name ContactFormCreate.email
       ContactFormCreate.subject ContactFormCreate.message].
  repeat (rewrite lookup_insert_eq
          || rewrite lookup_insert_ne by discriminate).
  destruct subject; reflexivity.
Qed.

Lemma field_str_missing k (d : document) :
  d !! k = None -> field_str k d = Raise (ValidationError k).
Proof. intros H. unfold field_str. rewrite H. reflexivity. Qed.

Lemma field_str_list_missing k (d : document) :
  d !! k = None -> field_str_list k d = Raise (ValidationError k).
Proof. intros H. unfold field_str_list. rewrite H. reflexivity. Qed.

(** Closes [is_return (validate d) = false] once the equation of the
    failing field has been rewritten in. *)
Ltac rejected :=
  unfold and_then;
  repeat match goal with
         | |- context [match ?r with Return _ => _ | Raise _ => _ end] =>
             destruct r
         end;
  reflexivity.

(** X5.  A document that lacks a key its model requires is rejected by
    validation, whatever else it holds; so is a document with neither
    [_id] nor [id]. *)
Theorem missing_required_key_rejected (d : document) (k : string) :
  d !! k = None ->
  (k ∈ Experience_required -> is_return (Experience.validate lax d) = false)
  /\ (k ∈ Accomplishment_required ->
      is_return (Accomplishment.validate lax d) = false)
  /\ (k ∈ Profile_required -> is_return (Profile.validate lax d) = false)
  /\ (k ∈ Testimonial_required -> is_return (Testimonial.validate lax d) = false)
  /\ (k ∈ ContactForm_required -> is_return (ContactForm.validate lax d) = false)
  /\ (k = "_id" -> d !! "id" = None ->
      is_return (Experience.validate lax d) = false
      /\ is_return (Accomplishment.validate lax d) = false
      /\ is_return (Profile.validate lax d) = false
      /\ is_return (Testimonial.validate lax d) = false
      /\ is_return (ContactForm.validate lax d) = false).
Proof.
  intros Hk.
  split; [|split; [|split; [|split; [|split]]]].
  - intros Hin. unfold Experience.validate, Experience_required in *.
    each_key Hin;
      first [ rewrite (field_str_missing _ d Hk)
            | rewrite (field_str_list_missing _ d Hk) ];
      rejected.
  - intros Hin. unfold Accomplishment.validate, Accomplishment_required in *.
    each_key Hin;
      first [ rewrite (field_str_missing _ d Hk)
            | rewrite (field_str_list_missing _ d Hk) ];
      rejected.
  - intros Hin. unfold Profile.validate, Profile_required in *.
    each_key Hin; rewrite (field_str_missing _ d Hk); rejected.
  - intros Hin. unfold Testimonial.validate, Testimonial_required in *.
    each_key Hin; rewrite (field_str_missing _ d Hk); rejected.
  - intros Hin. unfold ContactForm.validate, ContactForm_required in *.
    each_key Hin; rewrite (field_str_missing _ d Hk); rejected.
  - intros -> Hid.
    assert (E : field_id d = Raise (ValidationError "_id"))
      by (unfold field_id; rewrite Hk, Hid; reflexivity).
    unfold Experience.validate, Accomplishment.validate, Profile.validate,
      Testimonial.validate, ContactForm.validate.
    rewrite E. repeat split.
Qed.

Ltac unfold_fields :=
  unfold field_id, field_str, field_str_default, field_str_list,
    field_int_default, field_bool_default, field_datetime_opt, field_status.

Ltac undeclared_ignored Hk :=
  unfold_fields;
  repeat (rewrite lookup_insert_ne
            by (intros ->; apply Hk; repeat constructor));
  reflexivity.

(** X6.  Validation does not look at keys the model does not declare:
    adding or changing such a key in a document leaves the outcome of
    validation as it was. *)
Theorem undeclared_key_ignored (d : document) (k : string) (v : value) :
  (k ∉ "_id" :: "id" :: Experience.keys ->
   Experience.validate lax (<[k := v]> d) = Experience.validate lax d)
  /\ (k ∉ "_id" :: "id" :: Accomplishment.keys ->
      Accomplishment.validate lax (<[k := v]> d) = Accomplishment.validate lax d)
  /\ (k ∉ "_id" :: "id" :: Profile.keys ->
      Profile.validate lax (<[k := v]> d) = Profile.validate lax d)
  /\ (k ∉ "_id" :: "id" :: Testimonial.keys ->
      Testimonial.validate lax (<[k := v]> d) = Testimonial.validate lax d)
  /\ (k ∉ "_id" :: "id" :: ContactForm.keys ->
      ContactForm.validate lax (<[k := v]> d) = ContactForm.validate lax d).
Proof.
  split; [|split; [|split; [|split]]]; intros Hk.
  - unfold Experience.validate. undeclared_ignored Hk.
  - unfold Accomplishment.validate. undeclared_ignored Hk.
  - unfold Profile.validate. undeclared_ignored Hk.
  - unfold Testimonial.validate. undeclared_ignored Hk.
  - unfold ContactForm.validate. undeclared_ignored Hk.
Qed.

(** X7.  A document that holds only the identifier and the required
    fields passes validation, and the model takes the defaults of the
    class for the rest: [order] 0, [isActive] true, the empty string
    for [company], [relationship], [date] and [subject], status [new],
    and no timestamps. *)
Theorem absent_fields_take_defaults (d : document) (id : string) :
  d !! "_id" = Some (VStr id) ->
  (forall position company location period description achievements,
     d !! "position" = Some (VStr position) ->
     d !! "company" = Some (VStr company) ->
     d !! "location" = Some (VStr location) ->
     d !! "period" = Some (VStr period) ->
     d !! "description" = Some (VStr description) ->
     d !! "achievements" = Some (dump_str_list achievements) ->
     d !! "order" = None -> d !! "isActive" = None ->
     d !! "createdAt" = None -> d !! "updatedAt" = None ->
     Experience.validate lax d =
       Return (Experience.Make id position company location period
                 description achievements 0 true None None))
  /\ (forall title description impact technologies,
        d !! "title" = Some (VStr title) ->
        d !! "description" = Some (VStr description) ->
        d !! "impact" = Some (VStr impact) ->
        d !! "technologies" = Some (dump_str_list technologies) ->
        d !! "order" = None -> d !! "isActive" = None ->
        d !! "createdAt" = None -> d !! "updatedAt" = None ->
        Accomplishment.validate lax d =
          Return (Accomplishment.Make id title description impact
                    technologies 0 true None None))
  /\ (forall name title description location email phone,
        d !! "name" = Some (VStr name) ->
        d !! "title" = Some (VStr title) ->
        d !! "description" = Some (VStr description) ->
        d !! "location" = Some (VStr location) ->
        d !! "email" = Some (VStr email) ->
        d !! "phone" = Some (VStr phone) ->
        d !! "isActive" = None -> d !! "updatedAt" = None ->
        Profile.validate lax d =
          Return (Profile.Make id name title description location email
                    phone true None))
  /\ (forall name title testimonial,
        d !! "name" = Some (VStr name) ->
        d !! "title" = Some (VStr title) ->
        d !! "testimonial" = Some (VStr testimonial) ->
        d !! "company" = None -> d !! "relationship" = None ->
        d !! "date" = None ->
        d !! "order" = None -> d !! "isActive" = None ->
        d !! "createdAt" = None -> d !! "updatedAt" = None ->
        Testimonial.validate lax d =
          Return (Testimonial.Make id name title "" testimonial "" "" 0
                    true None None))
  /\ (forall name email message,
        d !! "name" = Some (VStr name) ->
        d !! "email" = Some (VStr email) ->
        d !! "message" = Some (VStr message) ->
        d !! "subject" = None -> d !! "status" = None ->
        d !! "createdAt" = None -> d !! "updatedAt" = None ->
        ContactForm.validate lax d =
          Return (ContactForm.Make id name email "" message NEW None None)).
Proof.
  intros Hid.
  split; [|split; [|split; [|split]]]; intros.
  - unfold Experience.validate.
    rewrite (field_str_list_dumped "achievements" d achievements) by assumption.
    unfold_fields.
    repeat match goal with H : d !! _ = _ |- _ => rewrite H; clear H end.
    reflexivity.
  - unfold Accomplishment.validate.
    rewrite (field_str_list_dumped "technologies" d technologies) by assumption.
    unfold_fields.
    repeat match goal with H : d !! _ = _ |- _ => rewrite H; clear H end.
    reflexivity.
  - unfold Profile.validate. unfold_fields.
    repeat match goal with H : d !! _ = _ |- _ => rewrite H; clear H end.
    reflexivity.
  - unfold Testimonial.validate. unfold_fields.
    repeat match goal with H : d !! _ = _ |- _ => rewrite H; clear H end.
    reflexivity.
  - unfold ContactForm.validate. unfold_fields.
    repeat match goal with H : d !! _ = _ |- _ => rewrite H; clear H end.
    reflexivity.
Qed.

(** X8.  The status of a stored contact must be one of the three
    values of [ContactStatus]: with any other string under [status] the
    document is rejected by validation. *)
Theorem unknown_status_rejected (d : document) (s : string) :
  d !! "status" = Some (VStr s) ->
  s <> "new" -> s <> "read" -> s <> "responded" ->
  is_return (ContactForm.validate lax d) = false.
Proof.
  intros Hs H1 H2 H3.
  assert (E : field_status "status" d = Raise (ValidationError "status")).
  { unfold field_status. rewrite Hs.
    destruct (String.eqb_spec s "new"); [contradiction|].
    destruct (String.eqb_spec s "read"); [contradiction|].
    destruct (String.eqb_spec s "responded"); [contradiction|].
    reflexivity. }
  unfold ContactForm.validate. rewrite E. rejected.
Qed.

(** ** The reading handlers *)

Lemma listing_reads_only {T} (validate : document -> outcome T)
    name pre detail w :
  db (snd (listing validate name pre detail w)) = db w
  /\ (is_return (fst (listing validate name pre detail w)) = true ->
      log (snd (listing validate name pre detail w)) = log w).
Proof.
  destruct (faults w (ops w)) as [msg|] eqn:Hf.
  - rewrite (listing_fault validate name pre detail w msg Hf). simpl.
    split; [reflexivity|discriminate].
  - rewrite (listing_run validate name pre detail w Hf).
    destruct (validate_all _ _); simpl; split;
      try reflexivity; try discriminate.
Qed.

Lemma get_profile_fault w msg :
  faults w (ops w) = Some msg ->
  get_profile w =
    answer_500 "Error fetching profile: " "Failed to fetch profile"
      (StoreError msg) (next_op w).
Proof.
  intros Hf. unfold get_profile, try_except, bind.
  rewrite (find_one_fault _ _ _ msg Hf). reflexivity.
Qed.

(** The answer of [get_profile] and the world it leaves, case by
    case. *)
Lemma get_profile_cases w :
  fst (get_profile w) = profile_answer w
  /\ db (snd (get_profile w)) = db w
  /\ (is_return (fst (get_profile w)) = true ->
      log (snd (get_profile w)) = log w)
  /\ (fst (get_profile w) = Raise (HTTPException 404 "Profile not found") ->
      log (snd (get_profile w)) = log w).
Proof.
  unfold profile_answer.
  destruct (faults w (ops w)) as [msg|] eqn:Hf.
  - rewrite (get_profile_fault w msg Hf). simpl.
    repeat split; discriminate.
  - destruct (active_docs "profile" w) as [|d rest] eqn:Ha.
    + rewrite (get_profile_none w Hf Ha). simpl.
      repeat split; discriminate.
    + rewrite (get_profile_first w d rest Hf Ha).
      destruct (Profile.validate lax (convert_objectid d)); simpl;
        repeat split; discriminate.
Qed.

(** X9.  The reading endpoints never change the database, whatever
    the store holds and whether or not it fails; the listings and the
    profile endpoint write to the log only when they raise. *)
Theorem reading_endpoints_change_nothing :
  keeps_database get_experiences
  /\ keeps_database get_accomplishments
  /\ keeps_database get_testimonials
  /\ keeps_database get_profile
  /\ keeps_database get_analytics_summary
  /\ keeps_database root
  /\ silent_on_return get_experiences
  /\ silent_on_return get_accomplishments
  /\ silent_on_return get_testimonials
  /\ silent_on_return get_profile
  /\ silent_on_return root.
Proof.
  split; [|split; [|split; [|split; [|split; [|split;
    [|split; [|split; [|split; [|split]]]]]]]]]; intros w.
  - apply (listing_reads_only (Experience.validate lax) "experiences"
             "Error fetching experiences: " "Failed to fetch experiences").
  - apply (listing_reads_only (Accomplishment.validate lax) "accomplishments"
             "Error fetching accomplishments: "
             "Failed to fetch accomplishments").
  - apply (listing_reads_only (Testimonial.validate lax) "testimonials"
             "Error fetching testimonials: " "Failed to fetch testimonials").
  - apply get_profile_cases.
  - destruct (faults w (ops w)) as [msg|] eqn:Hf1.
    + rewrite (get_analytics_summary_fault_first w msg Hf1). reflexivity.
    + destruct (faults w (S (ops w))) as [msg|] eqn:Hf2.
      * rewrite (get_analytics_summary_fault_second w msg Hf1 Hf2).
        reflexivity.
      * rewrite (get_analytics_summary_ok w Hf1 Hf2). reflexivity.
  - reflexivity.
  - apply (listing_reads_only (Experience.validate lax) "experiences"
             "Error fetching experiences: " "Failed to fetch experiences").
  - apply (listing_reads_only (Accomplishment.validate lax) "accomplishments"
             "Error fetching accomplishments: "
             "Failed to fetch accomplishments").
  - apply (listing_reads_only (Testimonial.validate lax) "testimonials"
             "Error fetching testimonials: " "Failed to fetch testimonials").
  - apply get_profile_cases.
  - reflexivity.
Qed.

Lemma active_docs_add_inactive name (d : document) w :
  matches active d = false ->
  active_docs name (add_document name d w) = active_docs name w.
Proof.
  intros H. unfold active_docs. rewrite collection_add_document.
  rewrite List.filter_app.
  change (List.filter (matches active) [d])
    with (if matches active d then [d] else []).
  rewrite H. apply app_nil_r.
Qed.

Lemma listing_answer {T} (validate : document -> outcome T)
    name pre detail w w' :
  faults w' = faults w -> ops w' = ops w ->
  active_docs name w' = active_docs name w ->
  fst (listing validate name pre detail w')
  = fst (listing validate name pre detail w).
Proof.
  intros Hfa Hop Hact.
  destruct (faults w (ops w)) as [msg|] eqn:Hf.
  - rewrite (listing_fault validate name pre detail w msg Hf).
    rewrite (listing_fault validate name pre detail w' msg)
      by (rewrite Hfa, Hop; exact Hf).
    reflexivity.
  - rewrite (listing_run validate name pre detail w Hf).
    rewrite (listing_run validate name pre detail w')
      by (rewrite Hfa, Hop; exact Hf).
    rewrite Hact. destruct (validate_all _ _); reflexivity.
Qed.

(** X10.  A document the store does not match against
    [{"isActive": True}] has no influence on the listings and on the
    profile: adding one to the collection, well formed or not, leaves
    the response as it was. *)
Theorem inactive_document_is_invisible (w : world) (d : document) :
  matches active d = false ->
  fst (get_experiences (add_document "experiences" d w))
  = fst (get_experiences w)
  /\ fst (get_accomplishments (add_document "accomplishments" d w))
     = fst (get_accomplishments w)
  /\ fst (get_testimonials (add_document "testimonials" d w))
     = fst (get_testimonials w)
  /\ fst (get_profile (add_document "profile" d w)) = fst (get_profile w).
Proof.
  intros Hd. split; [|split; [|split]].
  - apply (listing_answer (Experience.validate lax) "experiences"); try reflexivity.
    apply active_docs_add_inactive, Hd.
  - apply (listing_answer (Accomplishment.validate lax) "accomplishments");
      try reflexivity.
    apply active_docs_add_inactive, Hd.
  - apply (listing_answer (Testimonial.validate lax) "testimonials");
      try reflexivity.
    apply active_docs_add_inactive, Hd.
  - destruct (get_profile_cases w) as [-> _].
    destruct (get_profile_cases (add_document "profile" d w)) as [-> _].
    unfold profile_answer.
    rewrite (active_docs_add_inactive "profile" d w Hd). reflexivity.
Qed.

(** X11.  With several active profile documents the endpoint returns
    the first one the store holds; the others, well formed or not, are
    never looked at. *)
Theorem first_active_profile_wins (w : world) (d : document)
    (rest : list document) (m : Profile.t) :
  faults w (ops w) = None ->
  active_docs "profile" w = d :: rest ->
  Profile.validate lax (convert_objectid d) = Return m ->
  get_profile w = (Return m, next_op w).
Proof.
  intros Hf Ha Hv. rewrite (get_profile_first w d rest Hf Ha), Hv.
  reflexivity.
Qed.

(** X12.  The profile endpoint fails in three ways only.  A store
    failure and an active document that does not pass validation both
    give the 500 "Failed to fetch profile" with the cause appended to
    the log; no active document gives the 404, which is not logged.  No
    other exception leaves the handler. *)
Theorem profile_failures (w : world) :
  (forall msg, faults w (ops w) = Some msg ->
     get_profile w =
       (Raise (HTTPException 500 "Failed to fetch profile"),
        write_log ("Error fetching profile: " ++ msg) (next_op w)))
  /\ (forall (d : document) rest e,
        faults w (ops w) = None ->
        active_docs "profile" w = d :: rest ->
        Profile.validate lax (convert_objectid d) = Raise e ->
        get_profile w =
          (Raise (HTTPException 500 "Failed to fetch profile"),
           write_log ("Error fetching profile: " ++ exn_str e) (next_op w)))
  /\ (fst (get_profile w) = Raise (HTTPException 404 "Profile not found") ->
      log (snd (get_profile w)) = log w)
  /\ (forall e, fst (get_profile w) = Raise e ->
        e = HTTPException 404 "Profile not found"
        \/ e = HTTPException 500 "Failed to fetch profile").
Proof.
  split; [|split; [|split]].
  - intros msg Hf. apply (get_profile_fault w msg Hf).
  - intros d rest e Hf Ha Hv.
    rewrite (get_profile_first w d rest Hf Ha), Hv. reflexivity.
  - apply get_profile_cases.
  - intros e. destruct (get_profile_cases w) as [-> _].
    unfold profile_answer.
    destruct (faults w (ops w)); [intros [= <-]; auto|].
    destruct (active_docs "profile" w) as [|d rest]; [intros [= <-]; auto|].
    destruct (Profile.validate lax (convert_objectid d));
      [discriminate|intros [= <-]; auto].
Qed.

(** ** The contact endpoint *)

Lemma validate_stamped_contact_null contact created updated o :
  ContactFormCreate.subject contact = None ->
  ContactForm.validate lax
    (convert_objectid
       (<["_id" := VOid o]> (stamped_contact contact created updated)))
  = Raise (ValidationError "subject").
Proof.
  intros Hs. unfold ContactForm.validate.
  rewrite (field_id_convert _ (VOid o)) by apply lookup_insert_eq.
  rewrite !field_str_convert, field_str_default_convert by discriminate.
  unfold field_str, field_str_default, stamped_contact,
    ContactFormCreate.dict.
  rewrite Hs.
  repeat (rewrite lookup_insert_eq || rewrite lookup_insert_ne by discriminate).
  reflexivity.
Qed.

Lemma stamped_contact_fields contact created updated o :
  let doc := <["_id" := VOid o]> (stamped_contact contact created updated) in
  doc !! "name" = Some (VStr (ContactFormCreate.name contact))
  /\ doc !! "email" = Some (VStr (ContactFormCreate.email contact))
  /\ doc !! "message" = Some (VStr (ContactFormCreate.message contact))
  /\ doc !! "subject"
     = Some (match ContactFormCreate.subject contact with
             | Some s => VStr s
             | None => VNull
             end)
  /\ doc !! "status" = Some (VStr "new")
  /\ doc !! "createdAt" = Some (VDate created)
  /\ doc !! "updatedAt" = Some (VDate updated).
Proof.
  unfold stamped_contact, ContactFormCreate.dict. cbv zeta.
  repeat split;
    repeat (rewrite lookup_insert_eq
            || rewrite lookup_insert_ne by discriminate);
    reflexivity.
Qed.

(** X13.  A request whose [subject] is [null] is accepted as a
    request, and on a store that answers both operations the contact is
    stored, with a null subject; but the stored document does not pass
    the response model, whose [subject] is a plain string, so the caller
    gets the 500 and one line is logged. *)
Theorem null_subject_stored_but_refused
    (body : document) (name email message : string) (w : world) :
  body !! "name" = Some (VStr name) ->
  body !! "email" = Some (VStr email) ->
  body !! "message" = Some (VStr message) ->
  body !! "subject" = Some VNull ->
  faults w (ops w) = None ->
  faults w (S (ops w)) = None ->
  existsb (matches (QEq "_id" (VOid (oid_supply w (minted w)))))
          (collection "contacts" w) = false ->
  let contact := ContactFormCreate.Make name email None message in
  let doc := <["_id" := VOid (oid_supply w (minted w))]>
               (stamped_contact contact (clock w (ticks w))
                  (clock w (S (ticks w)))) in
  ContactFormCreate.validate body = Return contact
  /\ fst (submit_contact_form contact w)
     = Raise (HTTPException 500 "Failed to submit contact form")
  /\ collection "contacts" (snd (submit_contact_form contact w))
     = (collection "contacts" w ++ [doc])%list
  /\ doc !! "subject" = Some VNull
  /\ length (log (snd (submit_contact_form contact w)))
     = S (length (log w)).
Proof.
  intros Hn He Hm Hs Hf1 Hf2 Hdup contact doc.
  split.
  { unfold ContactFormCreate.validate, ContactFormCreate.field_subject,
      field_str. rewrite Hn, He, Hm, Hs. reflexivity. }
  rewrite submit_contact_form_steps. cbv zeta.
  rewrite (insert_one_fresh "contacts" _ (tick (tick w)))
    by (try apply stamped_contact_no_id; assumption).
  rewrite find_one_ok by exact Hf2.
  change (oid_supply (tick (tick w)) (minted (tick (tick w))))
    with (oid_supply w (minted w)).
  rewrite find_inserted by exact Hdup.
  rewrite (validate_stamped_contact_null contact _ _ _ eq_refl).
  unfold answer_500. cbn [fst snd].
  split; [reflexivity|]. split; [|split].
  - change (collection "contacts" (write_log ?l (next_op ?x)))
      with (collection "contacts" x).
    rewrite collection_add_document. reflexivity.
  - apply (stamped_contact_fields contact).
  - cbn [log write_log next_op add_document set_db mint tick].
    rewrite length_app. simpl. lia.
Qed.

(** X14.  A submission with a subject, on a store that answers both
    operations: the response repeats the name, the email, the subject
    and the message of the request, with status [new]; the stored
    document holds the same four values, the status "new" and the two
    stamps.  Nothing in the request can set the status or the stamps. *)
Theorem contact_submission_echoes_request
    (contact : ContactFormCreate.t) (s : string) (w : world) :
  ContactFormCreate.subject contact = Some s ->
  faults w (ops w) = None ->
  faults w (S (ops w)) = None ->
  existsb (matches (QEq "_id" (VOid (oid_supply w (minted w)))))
          (collection "contacts" w) = false ->
  exists m doc,
    fst (submit_contact_form contact w) = Return m
    /\ ContactForm.name m = ContactFormCreate.name contact
    /\ ContactForm.email m = ContactFormCreate.email contact
    /\ ContactForm.subject m = s
    /\ ContactForm.message m = ContactFormCreate.message contact
    /\ ContactForm.status m = NEW
    /\ collection "contacts" (snd (submit_contact_form contact w))
       = (collection "contacts" w ++ [doc])%list
    /\ doc !! "name" = Some (VStr (ContactFormCreate.name contact))
    /\ doc !! "email" = Some (VStr (ContactFormCreate.email contact))
    /\ doc !! "subject" = Some (VStr s)
    /\ doc !! "message" = Some (VStr (ContactFormCreate.message contact))
    /\ doc !! "status" = Some (VStr "new")
    /\ doc !! "createdAt" = Some (VDate (clock w (ticks w)))
    /\ doc !! "updatedAt" = Some (VDate (clock w (S (ticks w)))).
Proof.
  intros Hs Hf1 Hf2 Hdup.
  rewrite (submit_contact_form_ok contact w s Hs Hf1 Hf2 Hdup).
  eexists _, _. cbn [fst snd ContactForm.name ContactForm.email
                     ContactForm.subject ContactForm.message
                     ContactForm.status].
  do 6 (split; [reflexivity|]).
  split.
  { change (collection "contacts" (next_op ?x))
      with (collection "contacts" x).
    rewrite collection_add_document. reflexivity. }
  destruct (stamped_contact_fields contact (clock w (ticks w))
              (clock w (S (ticks w))) (oid_supply w (minted w)))
    as (H1 & H2 & H3 & H4 & H5 & H6 & H7).
  rewrite Hs in H4. repeat split; assumption.
Qed.

(** X15.  What a 500 from the contact endpoint says about the store.
    When the insert fails, or the fresh identifier is already taken,
    nothing is stored.  When the insert succeeds and the re-read fails,
    the contact is stored although the caller is told the submission
    failed. *)
Theorem contact_failure_and_the_store
    (contact : ContactFormCreate.t) (w : world) :
  (forall msg, faults w (ops w) = Some msg ->
     db (snd (submit_contact_form contact w)) = db w)
  /\ (faults w (ops w) = None ->
      existsb (matches (QEq "_id" (VOid (oid_supply w (minted w)))))
              (collection "contacts" w) = true ->
      fst (submit_contact_form contact w)
      = Raise (HTTPException 500 "Failed to submit contact form")
      /\ db (snd (submit_contact_form contact w)) = db w)
  /\ (forall msg,
        faults w (ops w) = None ->
        existsb (matches (QEq "_id" (VOid (oid_supply w (minted w)))))
                (collection "contacts" w) = false ->
        faults w (S (ops w)) = Some msg ->
        fst (submit_contact_form contact w)
        = Raise (HTTPException 500 "Failed to submit contact form")
        /\ collection "contacts" (snd (submit_contact_form contact w))
           = (collection "contacts" w
                ++ [<["_id" := VOid (oid_supply w (minted w))]>
                      (stamped_contact contact (clock w (ticks w))
                         (clock w (S (ticks w))))])%list).
Proof.
  split; [|split].
  - intros msg Hf. rewrite submit_contact_form_steps. cbv zeta.
    rewrite (insert_one_fresh_fault "contacts" _ (tick (tick w)) msg)
      by (try apply stamped_contact_no_id; assumption).
    reflexivity.
  - intros Hf Hdup. rewrite submit_contact_form_steps. cbv zeta.
    rewrite (insert_one_fresh_duplicate "contacts" _ (tick (tick w)))
      by (try apply stamped_contact_no_id; assumption).
    split; reflexivity.
  - intros msg Hf1 Hdup Hf2. rewrite submit_contact_form_steps. cbv zeta.
    rewrite (insert_one_fresh "contacts" _ (tick (tick w)))
      by (try apply stamped_contact_no_id; assumption).
    rewrite (find_one_fault _ _ _ msg) by exact Hf2.
    split; [reflexivity|].
    unfold answer_500. cbn [snd].
    change (collection "contacts" (write_log ?l (next_op ?x)))
      with (collection "contacts" x).
    rewrite collection_add_document. reflexivity.
Qed.

(** ** Identifiers *)

Lemma hex_digit_inj a b :
  (a < 16)%N -> (b < 16)%N -> hex_digit a = hex_digit b -> a = b.
Proof.
  intros Ha Hb.
  assert (Hcases : forall n, (n < 16)%N ->
            n = 0%N \/ n = 1%N \/ n = 2%N \/ n = 3%N \/ n = 4%N \/ n = 5%N
            \/ n = 6%N \/ n = 7%N \/ n = 8%N \/ n = 9%N \/ n = 10%N
            \/ n = 11%N \/ n = 12%N \/ n = 13%N \/ n = 14%N \/ n = 15%N)
    by (intros n Hn; lia).
  destruct (Hcases a Ha) as [->|[->|[->|[->|[->|[->|[->|[->|[->|[->|[->|[->|
    [->|[->|[->| ->]]]]]]]]]]]]]]];
  destruct (Hcases b Hb) as [->|[->|[->|[->|[->|[->|[->|[->|[->|[->|[->|[->|
    [->|[->|[->| ->]]]]]]]]]]]]]]];
  simpl; intros H; first [reflexivity | discriminate H].
Qed.

Lemma hex_fixed_inj width n m acc acc' :
  String.length acc = String.length acc' ->
  hex_fixed width n acc = hex_fixed width m acc' ->
  (n mod 16 ^ N.of_nat width = m mod 16 ^ N.of_nat width)%N /\ acc = acc'.
Proof.
  revert n m acc acc'.
  induction width as [|width IH]; intros n m acc acc' Hlen H.
  - simpl in *. rewrite !N.mod_1_r. auto.
  - simpl hex_fixed in H.
    apply IH in H as [Hhigh Hacc]; [|simpl; congruence].
    injection Hacc as Hd ->. split; [|reflexivity].
    apply hex_digit_inj in Hd; try (apply N.mod_upper_bound; discriminate).
    rewrite Nat2N.inj_succ, N.pow_succ_r'.
    rewrite !N.Div0.mod_mul_r. rewrite Hd, Hhigh. reflexivity.
Qed.

(** Two different [ObjectId]s never get the same string: on
    identifiers of twelve bytes [str()] is injective. *)
Lemma str_oid_injective (o o' : N) :
  (o < 2 ^ 96)%N -> (o' < 2 ^ 96)%N ->
  str_oid o = str_oid o' -> o = o'.
Proof.
  intros Ho Ho' H. unfold str_oid in H.
  apply hex_fixed_inj in H as [H _]; [|reflexivity].
  change (16 ^ N.of_nat 24)%N with (2 ^ 96)%N in H.
  rewrite !N.mod_small in H by assumption. exact H.
Qed.

Lemma existsb_snoc {A} (p : A -> bool) l d :
  existsb p (l ++ [d]) = existsb p l || p d.
Proof. rewrite existsb_app. simpl. rewrite orb_false_r. reflexivity. Qed.

Lemma find_app_found {A} (p : A -> bool) l l' x :
  List.find p l = Some x -> List.find p (l ++ l') = Some x.
Proof.
  induction l as [|y l IH]; simpl; [discriminate|].
  destruct (p y); [auto|exact IH].
Qed.

(** X16.  Two submissions one after the other, on a store that answers
    all four operations and with two different unused identifiers from
    the generator: both succeed, the responses carry different [id]s,
    the contacts collection ends with the two stored documents in the
    order of submission, and each is found under its own identifier. *)
Theorem two_submissions_are_kept_apart
    (c1 c2 : ContactFormCreate.t) (s1 s2 : string) (w : world) :
  let o1 := oid_supply w (minted w) in
  let o2 := oid_supply w (S (minted w)) in
  let w1 := snd (submit_contact_form c1 w) in
  let w2 := snd (submit_contact_form c2 w1) in
  ContactFormCreate.subject c1 = Some s1 ->
  ContactFormCreate.subject c2 = Some s2 ->
  faults w (ops w) = None ->
  faults w (S (ops w)) = None ->
  faults w (S (S (ops w))) = None ->
  faults w (S (S (S (ops w)))) = None ->
  (o1 < 2 ^ 96)%N -> (o2 < 2 ^ 96)%N -> o1 <> o2 ->
  existsb (matches (QEq "_id" (VOid o1))) (collection "contacts" w) = false ->
  existsb (matches (QEq "_id" (VOid o2))) (collection "contacts" w) = false ->
  exists m1 m2 d1 d2,
    fst (submit_contact_form c1 w) = Return m1
    /\ fst (submit_contact_form c2 w1) = Return m2
    /\ ContactForm.id m1 = str_oid o1
    /\ ContactForm.id m2 = str_oid o2
    /\ ContactForm.id m1 <> ContactForm.id m2
    /\ collection "contacts" w2 = (collection "contacts" w ++ [d1; d2])%list
    /\ List.find (matches (QEq "_id" (VOid o1))) (collection "contacts" w2)
       = Some d1
    /\ List.find (matches (QEq "_id" (VOid o2))) (collection "contacts" w2)
       = Some d2
    /\ d1 !! "message" = Some (VStr (ContactFormCreate.message c1))
    /\ d2 !! "message" = Some (VStr (ContactFormCreate.message c2)).
Proof.
  intros o1 o2 w1 w2 Hs1 Hs2 Hf1 Hf2 Hf3 Hf4 Ho1 Ho2 Hne Hd1 Hd2.
  pose proof (submit_contact_form_ok c1 w s1 Hs1 Hf1 Hf2 Hd1) as Hrun1.
  fold o1 in Hrun1.
  set (d1 := <["_id" := VOid o1]>
               (stamped_contact c1 (clock w (ticks w))
                  (clock w (S (ticks w))))) in *.
  assert (Hw1 : w1 = next_op (add_document "contacts" d1
                                (next_op (mint (tick (tick w))))))
    by (unfold w1; rewrite Hrun1; reflexivity).
  assert (Hc1 : collection "contacts" w1
                = (collection "contacts" w ++ [d1])%list).
  { rewrite Hw1.
    change (collection "contacts" (next_op ?x))
      with (collection "contacts" x).
    rewrite collection_add_document. reflexivity. }
  assert (Hmiss : matches (QEq "_id" (VOid o2)) d1 = false).
  { unfold d1. simpl. rewrite lookup_insert_eq. simpl.
    apply N.eqb_neq. congruence. }
  assert (Hsup : oid_supply w1 (minted w1) = o2) by (rewrite Hw1; reflexivity).
  assert (Hd2' : existsb (matches (QEq "_id" (VOid (oid_supply w1 (minted w1)))))
                   (collection "contacts" w1) = false).
  { rewrite Hsup, Hc1, existsb_snoc, Hd2, Hmiss. reflexivity. }
  assert (Hf3' : faults w1 (ops w1) = None) by (rewrite Hw1; exact Hf3).
  assert (Hf4' : faults w1 (S (ops w1)) = None) by (rewrite Hw1; exact Hf4).
  pose proof (submit_contact_form_ok c2 w1 s2 Hs2 Hf3' Hf4' Hd2') as Hrun2.
  rewrite Hsup in Hrun2.
  set (d2 := <["_id" := VOid o2]>
               (stamped_contact c2 (clock w1 (ticks w1))
                  (clock w1 (S (ticks w1))))) in *.
  assert (Hc2 : collection "contacts" w2
                = (collection "contacts" w ++ [d1; d2])%list).
  { unfold w2. rewrite Hrun2. cbn [snd].
    change (collection "contacts" (next_op ?x))
      with (collection "contacts" x).
    rewrite collection_add_document.
    change (collection "contacts" (next_op (mint (tick (tick w1)))))
      with (collection "contacts" w1).
    rewrite Hc1, <- app_assoc. reflexivity. }
  eexists _, _, d1, d2.
  rewrite Hrun1, Hrun2. cbn [fst ContactForm.id].
  split; [reflexivity|]. split; [reflexivity|].
  split; [reflexivity|]. split; [reflexivity|].
  split.
  { intros H. apply Hne. apply str_oid_injective; assumption. }
  split; [exact Hc2|]. rewrite Hc2.
  split; [|split; [|split]].
  - change [d1; d2] with ([d1] ++ [d2])%list. rewrite app_assoc.
    apply find_app_found, find_appended;
      [exact Hd1|apply matches_own_oid].
  - change [d1; d2] with ([d1] ++ [d2])%list. rewrite app_assoc.
    apply find_appended; [|apply matches_own_oid].
    rewrite existsb_snoc, Hd2, Hmiss. reflexivity.
  - apply (stamped_contact_fields c1).
  - apply (stamped_contact_fields c2).
Qed.

(** ** The analytics endpoints *)

Lemma holds_of_self v : holds_of (value_eqb v) v = true.
Proof.
  assert (H : value_eqb v v = true) by apply value_eqb_refl.
  destruct v; unfold holds_of; try exact H.
  rewrite H. reflexivity.
Qed.

Lemma matches_own_id (d : document) v :
  matches (QEq "_id" v) (<["_id" := v]> d) = true.
Proof.
  unfold matches. rewrite lookup_insert_eq. apply holds_of_self.
Qed.

(** [insert_one] on a document that brings its own [_id]. *)
Lemma insert_one_given name (doc : document) w v :
  doc !! "_id" = Some v ->
  insert_one name doc w =
    match faults w (ops w) with
    | Some msg => (Raise (StoreError msg), next_op w)
    | None =>
        match v with
        | VList _ =>
            (Raise (StoreError "The '_id' value cannot be of type array"),
             next_op w)
        | _ =>
            if existsb (matches (QEq "_id" v)) (collection name w)
            then (Raise (DuplicateKeyError "E11000 duplicate key error"),
                  next_op w)
            else (Return v, add_document name (<["_id" := v]> doc) (next_op w))
        end
    end.
Proof.
  intros Hid. unfold insert_one, bind, store_call. rewrite Hid.
  cbn [ret]. destruct (faults w (ops w)); [reflexivity|].
  change (collection name (next_op w)) with (collection name w).
  destruct v; reflexivity.
Qed.

(** A success body means the insert went through. *)
Lemma track_analytics_accepted (payload : document) (w : world) :
  fst (track_analytics payload w) = Return {["status" := VStr "success"]} ->
  exists id,
    insert_one "analytics"
      (<["createdAt" := VDate (clock w (ticks w))]> payload) (tick w)
    = (Return id, snd (track_analytics payload w)).
Proof.
  rewrite track_analytics_steps.
  destruct (insert_one "analytics" _ (tick w)) as [[id|e] w1] eqn:Hins;
    cbn [fst snd]; intros Hok.
  - exists id. reflexivity.
  - apply (f_equal (fun r : outcome document =>
                      match r with Return b => b | Raise _ => ∅ end)) in Hok.
    cbv beta iota in Hok. symmetry in Hok.
    destruct (status_success_not_error Hok).
Qed.

(** X17.  When the track endpoint answers success, the stored document
    is the payload as posted, except for two keys: [createdAt] is the
    server's clock reading even when the payload brought its own, and
    [_id] is the payload's when it brought one and a fresh [ObjectId]
    otherwise. *)
Theorem tracked_payload_stored_as_posted (payload : document) (w : world) :
  fst (track_analytics payload w) = Return {["status" := VStr "success"]} ->
  exists doc : document,
    collection "analytics" (snd (track_analytics payload w))
    = (collection "analytics" w ++ [doc])%list
    /\ doc !! "createdAt" = Some (VDate (clock w (ticks w)))
    /\ (forall k, k <> "createdAt" -> k <> "_id" -> doc !! k = payload !! k)
    /\ (forall v, payload !! "_id" = Some v -> doc !! "_id" = Some v)
    /\ (payload !! "_id" = None ->
        doc !! "_id" = Some (VOid (oid_supply w (minted w)))).
Proof.
  intros Hok. destruct (track_analytics_accepted payload w Hok) as [id Hins].
  apply insert_one_inv in Hins as (_ & _ & _ & Hdb & Hid).
  rewrite lookup_insert_ne in Hid by discriminate.
  eexists. split.
  { unfold collection at 1. rewrite Hdb, lookup_insert_eq. reflexivity. }
  split; [|split; [|split]].
  - rewrite lookup_insert_ne by discriminate. apply lookup_insert_eq.
  - intros k Hk1 Hk2. rewrite !lookup_insert_ne by congruence. reflexivity.
  - intros v Hv. rewrite lookup_insert_eq.
    destruct Hid as [Hid|[Hid _]]; congruence.
  - intros Hn. rewrite lookup_insert_eq.
    destruct Hid as [Hid|[_ ->]]; [congruence|reflexivity].
Qed.

(** X18.  A payload that brings its own [_id] is recorded once: after
    the track endpoint has answered success for it, posting the same
    payload again is answered with [{status: "error"}], whatever the
    store does, and the analytics collection stays as the first call
    left it. *)
Theorem payload_with_own_id_recorded_once
    (payload : document) (v : value) (w : world) :
  payload !! "_id" = Some v ->
  fst (track_analytics payload w) = Return {["status" := VStr "success"]} ->
  let w1 := snd (track_analytics payload w) in
  fst (track_analytics payload w1) = Return {["status" := VStr "error"]}
  /\ db (snd (track_analytics payload w1)) = db w1.
Proof.
  intros Hv Hok w1.
  destruct (track_analytics_accepted payload w Hok) as [id Hins].
  fold w1 in Hins.
  apply insert_one_inv in Hins as (_ & _ & _ & Hdb & Hid).
  rewrite lookup_insert_ne in Hid by discriminate.
  assert (Hidv : id = v) by (destruct Hid as [Hid|[Hid _]]; congruence).
  subst id.
  assert (Hdup : existsb (matches (QEq "_id" v)) (collection "analytics" w1)
                 = true).
  { assert (Hcoll : collection "analytics" w1
                    = (collection "analytics" w
                         ++ [<["_id" := v]>
                               (<["createdAt" := VDate (clock w (ticks w))]>
                                  payload)])%list)
      by (unfold collection at 1; rewrite Hdb, lookup_insert_eq;
          reflexivity).
    rewrite Hcoll, existsb_snoc, matches_own_id. apply orb_true_r. }
  rewrite track_analytics_steps.
  rewrite (insert_one_given "analytics" _ (tick w1) v)
    by (rewrite lookup_insert_ne by discriminate; exact Hv).
  change (collection "analytics" (tick w1)) with (collection "analytics" w1).
  destruct (faults (tick w1) (ops (tick w1))); [split; reflexivity|].
  rewrite Hdup. destruct v; split; reflexivity.
Qed.

Lemma count_where_all name w :
  count_where QAll name w = Z.of_nat (length (collection name w)).
Proof.
  unfold count_where. f_equal. f_equal.
  induction (collection name w) as [|d l IH]; simpl; [reflexivity|].
  rewrite IH. reflexivity.
Qed.

Lemma count_where_bounds q name w :
  0 <= count_where q name w <= Z.of_nat (length (collection name w)).
Proof.
  unfold count_where.
  pose proof (List.filter_length_le (matches q) (collection name w)). lia.
Qed.

(** X19.  The summary endpoint always answers with a body that holds
    both counts as integers, never an exception, and the counts satisfy
    0 <= recent_visits <= total_visits <= number of stored documents. *)
Theorem summary_always_answers (w : world) :
  exists (body : document) (total recent : Z),
    fst (get_analytics_summary w) = Return body
    /\ body !! "total_visits" = Some (VInt total)
    /\ body !! "recent_visits" = Some (VInt recent)
    /\ 0 <= recent <= total
    /\ total <= Z.of_nat (length (collection "analytics" w)).
Proof.
  destruct (faults w (ops w)) as [msg|] eqn:Hf1;
    [|destruct (faults w (S (ops w))) as [msg|] eqn:Hf2].
  - rewrite (get_analytics_summary_fault_first w msg Hf1).
    exists zero_counts, 0, 0. repeat split; try reflexivity; lia.
  - rewrite (get_analytics_summary_fault_second w msg Hf1 Hf2).
    exists zero_counts, 0, 0. repeat split; try reflexivity; lia.
  - rewrite (get_analytics_summary_ok w Hf1 Hf2).
    eexists _, _, _. split; [reflexivity|].
    split; [reflexivity|]. split; [reflexivity|].
    rewrite count_where_all.
    pose proof (count_where_bounds
                  (QSince "timestamp" (clock w (ticks w) - week))
                  "analytics" w).
    lia.
Qed.

Lemma is_since_json_scalar t v :
  json_scalar v = true -> holds_of (is_since t) v = false.
Proof. destruct v; try discriminate; reflexivity. Qed.

(** X20.  A visit whose [timestamp] is not a date (a string or a
    number, as a JSON client sends it) is counted in [total_visits] and
    never in [recent_visits], whatever the clock reads. *)
Theorem text_timestamp_never_recent
    (d : document) (v : value) (w : world) :
  d !! "timestamp" = Some v ->
  json_scalar v = true ->
  faults w (ops w) = None ->
  faults w (S (ops w)) = None ->
  exists total recent stamp,
    fst (get_analytics_summary w) = Return (summary_body total recent stamp)
    /\ fst (get_analytics_summary (add_document "analytics" d w))
       = Return (summary_body (total + 1) recent stamp).
Proof.
  intros Hd Hv Hf1 Hf2. do 3 eexists.
  rewrite (get_analytics_summary_ok w Hf1 Hf2).
  rewrite (get_analytics_summary_ok (add_document "analytics" d w) Hf1 Hf2).
  split; [reflexivity|].
  change (clock (add_document "analytics" d w)) with (clock w).
  change (ticks (add_document "analytics" d w)) with (ticks w).
  rewrite !count_where_add_document.
  assert (Hno : matches (QSince "timestamp" (clock w (ticks w) - week)) d
                = false).
  { unfold matches. rewrite Hd. apply is_since_json_scalar, Hv. }
  rewrite Hno. cbn [matches]. rewrite Z.add_0_r. reflexivity.
Qed.

(** ** All or nothing, and each endpoint to its own collection *)

Lemma listing_returned {T} (validate : document -> outcome T)
    name pre detail w ms :
  fst (listing validate name pre detail w) = Return ms ->
  faults w (ops w) = None
  /\ exists ds,
       ds ≡ₚ active_docs name w
       /\ Forall2 (fun d m => validate (convert_objectid d) = Return m) ds ms.
Proof.
  destruct (faults w (ops w)) as [msg|] eqn:Hf.
  - rewrite (listing_fault validate name pre detail w msg Hf). discriminate.
  - rewrite (listing_run validate name pre detail w Hf).
    destruct (validate_all _ _) as [ms'|e] eqn:Hv; [|discriminate].
    intros [= <-]. split; [reflexivity|].
    exists (merge_sort (doc_le "order") (active_docs name w)).
    split; [apply merge_sort_Permutation|].
    apply validate_all_Return, Hv.
Qed.

(** X21.  A listing is all or nothing.  Whenever a listing endpoint
    returns a list, the store has answered and the list holds one model
    for every active document of the collection, each the validated
    form of its document; the endpoint never returns a list from which
    an active document has been left out. *)
Theorem listing_is_all_or_nothing (w : world) :
  (forall ms, fst (get_experiences w) = Return ms ->
     length ms = length (active_docs "experiences" w)
     /\ exists ds,
          ds ≡ₚ active_docs "experiences" w
          /\ Forall2 (fun d m =>
                        Experience.validate lax (convert_objectid d) = Return m)
                     ds ms)
  /\ (forall ms, fst (get_accomplishments w) = Return ms ->
        length ms = length (active_docs "accomplishments" w)
        /\ exists ds,
             ds ≡ₚ active_docs "accomplishments" w
             /\ Forall2 (fun d m =>
                           Accomplishment.validate lax (convert_objectid d)
                           = Return m)
                        ds ms)
  /\ (forall ms, fst (get_testimonials w) = Return ms ->
        length ms = length (active_docs "testimonials" w)
        /\ exists ds,
             ds ≡ₚ active_docs "testimonials" w
             /\ Forall2 (fun d m =>
                           Testimonial.validate lax (convert_objectid d)
                           = Return m)
                        ds ms).
Proof.
  split; [|split]; intros ms H.
  - apply (listing_returned (Experience.validate lax) "experiences"
             "Error fetching experiences: " "Failed to fetch experiences")
      in H as (_ & ds & Hp & Hall).
    split; [|exists ds; auto].
    rewrite <- (Forall2_length _ _ _ Hall). apply Permutation_length, Hp.
  - apply (listing_returned (Accomplishment.validate lax) "accomplishments"
             "Error fetching accomplishments: "
             "Failed to fetch accomplishments")
      in H as (_ & ds & Hp & Hall).
    split; [|exists ds; auto].
    rewrite <- (Forall2_length _ _ _ Hall). apply Permutation_length, Hp.
  - apply (listing_returned (Testimonial.validate lax) "testimonials"
             "Error fetching testimonials: " "Failed to fetch testimonials")
      in H as (_ & ds & Hp & Hall).
    split; [|exists ds; auto].
    rewrite <- (Forall2_length _ _ _ Hall). apply Permutation_length, Hp.
Qed.

Lemma find_one_keeps_db name q w :
  db (snd (find_one name q w)) = db w.
Proof.
  unfold find_one, store_call. destruct (faults w (ops w)); reflexivity.
Qed.

Lemma insert_one_other_collections name (doc : document) w other :
  other <> name ->
  collection other (snd (insert_one name doc w)) = collection other w.
Proof.
  intros Hne.
  destruct (insert_one name doc w) as [[id|e] w1] eqn:Hins;
    apply insert_one_inv in Hins as (_ & _ & _ & Hdb); cbn [snd];
    unfold collection.
  - destruct Hdb as [-> _]. rewrite lookup_insert_ne by congruence.
    reflexivity.
  - rewrite Hdb. reflexivity.
Qed.

(** X22.  The two writing endpoints write to their own collection
    only: whatever the request and whatever the store does, a contact
    submission leaves every collection but [contacts] as it was, and a
    tracked visit every collection but [analytics]. *)
Theorem writes_stay_in_their_collection (w : world) (other : string) :
  (forall contact, other <> "contacts" ->
     collection other (snd (submit_contact_form contact w))
     = collection other w)
  /\ (forall payload, other <> "analytics" ->
        collection other (snd (track_analytics payload w))
        = collection other w).
Proof.
  split.
  - intros contact Hne. rewrite submit_contact_form_steps. cbv zeta.
    pose proof (insert_one_other_collections "contacts"
                  (stamped_contact contact (clock w (ticks w))
                     (clock w (S (ticks w))))
                  (tick (tick w)) other Hne) as Hins.
    destruct (insert_one "contacts" _ (tick (tick w))) as [[id|e] w1];
      cbn [snd] in Hins; [|exact Hins].
    pose proof (find_one_keeps_db "contacts" (QEq "_id" id) w1) as Hfind.
    destruct (find_one "contacts" (QEq "_id" id) w1) as [[[d|]|e] w2];
      cbn [snd] in Hfind;
      try destruct (ContactForm.validate lax (convert_objectid d));
      unfold answer_500; cbn [snd]; unfold collection in *;
      cbn [db write_log]; rewrite Hfind; exact Hins.
  - intros payload Hne. rewrite track_analytics_steps.
    pose proof (insert_one_other_collections "analytics"
                  (<["createdAt" := VDate (clock w (ticks w))]> payload)
                  (tick w) other Hne) as Hins.
    destruct (insert_one "analytics" _ (tick w)) as [[id|e] w1];
      cbn [snd] in *; exact Hins.
Qed.

End Portfolio.

(** ** The statements at work on the sample stores *)

(** C1 at work: the three sample experiences, listed. *)
Lemma listing_returns_active_in_store_order_witness :
  faults (world_of experiences_store no_faults)
         (ops (world_of experiences_store no_faults)) = None
  /\ exists ds ms,
       fst (get_experiences no_repr sample_lax (world_of experiences_store no_faults))
       = Return ms
       /\ ds ≡ₚ active_docs "experiences" (world_of experiences_store no_faults)
       /\ Sorted (doc_le "order") ds
       /\ Forall (fun m => Experience.isActive m = true) ms
       /\ map Experience.order ms = map (reported_order sample_lax) ds.
Proof.
  split; [reflexivity|].
  destruct (listing_returns_active_in_store_order no_repr sample_lax)
    as [H _].
  destruct (H (world_of experiences_store no_faults) eq_refl) as [Hok _].
  destruct Hok as (ds & ms & H1 & H2 & H3 & _ & _ & H6 & H7 & _).
  - assert (E : active_docs "experiences" (world_of experiences_store no_faults)
                = [experience_doc 1 (Some (-1)) true; experience_doc 2 None true])
      by (vm_compute; reflexivity).
    rewrite E. repeat constructor.
  - exists ds, ms. auto.
Defined.

(** C1 as stated fails: both sample experiences are active and pass
    validation, the store answers, and the response lists [order] 0
    before [order] -1. *)
Lemma listing_not_sorted_by_reported_order :
  exists ms,
    fst (get_experiences no_repr sample_lax (world_of experiences_store no_faults))
    = Return ms
    /\ map Experience.order ms = [0; -1]
    /\ ~ Sorted Z.le (map Experience.order ms).
Proof.
  eexists. split; [vm_compute; reflexivity|]. split; [reflexivity|].
  simpl. intros H. apply Sorted_inv in H as [_ H]. apply HdRel_inv in H. lia.
Qed.

(** The sort is on the stored value, the response shows the converted
    one: an active experience with the text "5" as [order] is read as
    [order] 5 and listed after the experience of [order] 7, since the
    store sorts every number before every string. *)
Lemma text_order_listed_after_numbers :
  exists ms,
    fst (get_experiences no_repr sample_lax
           (world_of text_order_store no_faults))
    = Return ms
    /\ map Experience.order ms = [7; 5].
Proof.
  eexists. split; [vm_compute; reflexivity|reflexivity].
Qed.

(** C2 at work: no profile gives the 404, the sample profile is
    returned. *)
Lemma profile_not_found_or_returned_witness :
  get_profile no_repr sample_lax (world_of ∅ no_faults)
  = (Raise (HTTPException 404 "Profile not found"),
     next_op (world_of ∅ no_faults))
  /\ get_profile no_repr sample_lax (world_of profile_store no_faults)
     = (Return profile_model, next_op (world_of profile_store no_faults))
  /\ kept_by no_repr sample_lax Profile.dump Profile_schema
       profile_doc profile_model.
Proof.
  split.
  - assert (Hf : faults (world_of ∅ no_faults) (ops (world_of ∅ no_faults))
                 = None) by reflexivity.
    destruct (profile_not_found_or_returned no_repr sample_lax
                (world_of ∅ no_faults) Hf) as [H _].
    apply H. vm_compute. reflexivity.
  - assert (Hf : faults (world_of profile_store no_faults)
                   (ops (world_of profile_store no_faults)) = None)
      by reflexivity.
    assert (Hone : active_docs "profile" (world_of profile_store no_faults)
                   = [profile_doc]) by (vm_compute; reflexivity).
    assert (Hv : Profile.validate sample_lax (convert_objectid no_repr profile_doc)
                 = Return profile_model) by (vm_compute; reflexivity).
    destruct (profile_not_found_or_returned no_repr sample_lax
                (world_of profile_store no_faults) Hf) as (_ & H & _).
    apply (H profile_doc profile_model Hone Hv).
Defined.

(** C2 as stated fails: the store holds exactly one active profile
    document, which has no [name]; the handler does not return it, it
    raises the 500. *)
Lemma profile_single_active_not_returned :
  active_docs "profile" (world_of nameless_profile_store no_faults)
  = [profile_nameless]
  /\ fst (get_profile no_repr sample_lax
            (world_of nameless_profile_store no_faults))
     = Raise (HTTPException 500 "Failed to fetch profile").
Proof.
  split; vm_compute; reflexivity.
Qed.

(** C3 at work: the sample body on an empty store. *)
Lemma contact_submission_without_subject_witness :
  exists m w',
    submit_contact_form no_repr sample_lax
      (ContactFormCreate.Make "A" "a@x.com" (Some "") "hi")
      (world_of ∅ no_faults) = (Return m, w')
    /\ ContactForm.subject m = ""
    /\ ContactForm.status m = NEW
    /\ ContactForm.id m = "000000000000000000001000"
    /\ ContactForm.createdAt m = Some 1700000000000
    /\ ContactForm.updatedAt m = Some 1700000000005
    /\ length (collection "contacts" w') = 1%nat.
Proof.
  assert (Hn : contact_body !! "name" = Some (VStr "A"))
    by (vm_compute; reflexivity).
  assert (He : contact_body !! "email" = Some (VStr "a@x.com"))
    by (vm_compute; reflexivity).
  assert (Hm : contact_body !! "message" = Some (VStr "hi"))
    by (vm_compute; reflexivity).
  assert (Hs : contact_body !! "subject" = None)
    by (vm_compute; reflexivity).
  assert (Hdup : existsb
            (matches (QEq "_id"
               (VOid (oid_supply (world_of ∅ no_faults)
                        (minted (world_of ∅ no_faults))))))
            (collection "contacts" (world_of ∅ no_faults)) = false)
    by (vm_compute; reflexivity).
  destruct (contact_submission_without_subject no_repr sample_lax contact_body
              "A" "a@x.com" "hi" (world_of ∅ no_faults)
              Hn He Hm Hs (eq_refl None) (eq_refl None) Hdup)
    as (contact & m & w' & Hbody & Hrun & Hsub & Hst & _ & Hid & _ & _ & _ & _
        & _ & Hc & Hu & _ & Hcoll & _).
  rewrite (body_without_subject contact_body "A" "a@x.com" "hi" Hn He Hm Hs)
    in Hbody.
  injection Hbody as <-.
  exists m, w'. split; [exact Hrun|]. split; [exact Hsub|].
  split; [exact Hst|]. split; [exact Hid|]. split; [exact Hc|].
  split; [exact Hu|]. rewrite Hcoll. reflexivity.
Defined.

(** C4 at work: a page view on an empty store is recorded, and a
    refused connection is reported in the body. *)
Lemma track_analytics_answers_in_body_witness :
  fst (track_analytics visit_payload (world_of ∅ no_faults))
  = Return {["status" := VStr "success"]}
  /\ length (collection "analytics"
               (snd (track_analytics visit_payload (world_of ∅ no_faults))))
     = 1%nat
  /\ fst (track_analytics visit_payload
            (world_of ∅ (fault_at 0 "connection refused")))
     = Return {["status" := VStr "error"]}.
Proof.
  assert (Hid : visit_payload !! "_id" = None) by (vm_compute; reflexivity).
  assert (Hdup : existsb
            (matches (QEq "_id"
               (VOid (oid_supply (world_of ∅ no_faults)
                        (minted (world_of ∅ no_faults))))))
            (collection "analytics" (world_of ∅ no_faults)) = false)
    by (vm_compute; reflexivity).
  destruct (track_analytics_answers_in_body visit_payload
              (world_of ∅ no_faults)) as (_ & Hok & _).
  rewrite (Hok Hid (eq_refl None) Hdup).
  split; [reflexivity|]. split.
  - cbn [snd]. rewrite collection_add_document. reflexivity.
  - destruct (track_analytics_answers_in_body visit_payload
                (world_of ∅ (fault_at 0 "connection refused")))
      as (_ & _ & H & _).
    apply (H "connection refused" (eq_refl (Some "connection refused"))).
Defined.

(** C5 at work: an empty analytics collection, then one visit stamped
    with the clock reading of the summary. *)
Lemma analytics_summary_counts_witness :
  exists stamp,
    fst (get_analytics_summary (world_of ∅ no_faults))
    = Return (summary_body 0 0 stamp)
    /\ fst (get_analytics_summary
              (add_document "analytics" visit_now (world_of ∅ no_faults)))
       = Return (summary_body 1 1 stamp).
Proof.
  destruct (analytics_summary_counts (world_of ∅ no_faults)
              (eq_refl None) (eq_refl None))
    as (total & recent & stamp & Hrun & _ & _ & Hzero & Hadd).
  assert (He : collection "analytics" (world_of ∅ no_faults) = [])
    by (vm_compute; reflexivity).
  destruct (Hzero He) as [-> ->].
  assert (Ht : visit_now !! "timestamp" = Some (VDate 1700000000000))
    by (vm_compute; reflexivity).
  destruct (Hadd visit_now 1700000000000 Ht) as (recent' & Hrun' & Hnow & _).
  assert (E : recent' = 0 + 1) by (apply Hnow; reflexivity).
  rewrite E in Hrun'.
  exists stamp. split; [exact Hrun|exact Hrun'].
Defined.

(** C6 at work: a store without experiences. *)
Lemma listing_empty_when_none_active_witness :
  active_docs "experiences" (world_of profile_store no_faults) = []
  /\ get_experiences no_repr sample_lax (world_of profile_store no_faults)
     = (Return [], next_op (world_of profile_store no_faults)).
Proof.
  assert (He : active_docs "experiences" (world_of profile_store no_faults)
               = []) by (vm_compute; reflexivity).
  split; [exact He|].
  destruct (listing_empty_when_none_active no_repr sample_lax
              (world_of profile_store no_faults) (eq_refl None)) as [H _].
  apply H. exact He.
Defined.

(** C7 at work: the listing query times out, and so does the re-read
    of a submitted contact. *)
Lemma store_failure_gives_generic_500_witness :
  get_experiences no_repr sample_lax
    (world_of experiences_store (fault_at 0 "timed out"))
  = (Raise (HTTPException 500 "Failed to fetch experiences"),
     write_log "Error fetching experiences: timed out"
       (next_op (world_of experiences_store (fault_at 0 "timed out"))))
  /\ fst (submit_contact_form no_repr sample_lax
            (ContactFormCreate.Make "A" "a@x.com" (Some "") "hi")
            (world_of ∅ (fault_at 1 "timed out")))
     = Raise (HTTPException 500 "Failed to submit contact form").
Proof.
  split.
  - destruct (store_failure_gives_generic_500 no_repr sample_lax
                (world_of experiences_store (fault_at 0 "timed out"))
                "timed out") as [H _].
    destruct (H (eq_refl (Some "timed out"))) as [H1 _]. exact H1.
  - assert (Hdup : existsb
              (matches (QEq "_id"
                 (VOid (oid_supply (world_of ∅ (fault_at 1 "timed out"))
                          (minted (world_of ∅ (fault_at 1 "timed out")))))))
              (collection "contacts" (world_of ∅ (fault_at 1 "timed out")))
              = false)
      by (vm_compute; reflexivity).
    destruct (store_failure_gives_generic_500 no_repr sample_lax
                (world_of ∅ (fault_at 1 "timed out")) "timed out")
      as (_ & H2 & _).
    apply (H2 (eq_refl None) (eq_refl (Some "timed out")) Hdup).
Defined.

(** C8 at work: the sample profile keeps its declared fields. *)
Lemma declared_fields_round_trip_witness :
  Profile.validate sample_lax (convert_objectid no_repr profile_doc)
  = Return profile_model
  /\ kept_by no_repr sample_lax Profile.dump Profile_schema
       profile_doc profile_model.
Proof.
  assert (Hv : Profile.validate sample_lax (convert_objectid no_repr profile_doc)
               = Return profile_model) by (vm_compute; reflexivity).
  split; [exact Hv|].
  destruct (declared_fields_round_trip no_repr sample_lax profile_doc)
    as (_ & _ & H & _).
  apply (H profile_model Hv).
Defined.

(** C8 as stated fails: the sample profile document holds [createdAt],
    the Profile model does not declare it, and the serialized model has
    no such key. *)
Lemma profile_created_at_not_preserved :
  Profile.validate sample_lax (convert_objectid no_repr profile_doc)
  = Return profile_model
  /\ profile_doc !! "createdAt" = Some (VDate 1600000000000)
  /\ Profile.dump profile_model !! "createdAt" = None.
Proof.
  split; [vm_compute; reflexivity|]. split; vm_compute; reflexivity.
Qed.

(** A declared field is not always preserved either: the [order]
    stored as the text "5" is served as the integer 5. *)
Lemma text_order_served_as_integer :
  exists m,
    Experience.validate sample_lax
      (convert_objectid no_repr experience_text_order) = Return m
    /\ experience_text_order !! "order" = Some (VStr "5")
    /\ Experience.dump m !! "order" = Some (VInt 5).
Proof.
  eexists. split; [vm_compute; reflexivity|].
  split; vm_compute; reflexivity.
Qed.

(** C9 at work: a page view without [timestamp], and the summary taken
    before and after it. *)
Lemma untimestamped_visit_never_recent_witness :
  visit_payload !! "timestamp" = None
  /\ fst (track_analytics visit_payload (world_of ∅ no_faults))
     = Return {["status" := VStr "success"]}
  /\ exists total recent stamp,
       fst (get_analytics_summary
              (set_db (fun _ => db (world_of ∅ no_faults))
                 (world_of ∅ no_faults)))
       = Return (summary_body total recent stamp)
       /\ fst (get_analytics_summary
                 (set_db
                    (fun _ => db (snd (track_analytics visit_payload
                                         (world_of ∅ no_faults))))
                    (world_of ∅ no_faults)))
          = Return (summary_body (total + 1) recent stamp).
Proof.
  assert (Hts : visit_payload !! "timestamp" = None)
    by (vm_compute; reflexivity).
  assert (Hok : fst (track_analytics visit_payload (world_of ∅ no_faults))
                = Return {["status" := VStr "success"]})
    by (vm_compute; reflexivity).
  split; [exact Hts|]. split; [exact Hok|].
  destruct (untimestamped_visit_never_recent visit_payload
              (world_of ∅ no_faults) Hts Hok)
    as (doc & _ & _ & _ & H).
  apply (H (world_of ∅ no_faults) (eq_refl None) (eq_refl None)).
Defined.

(** C10 at work: the first count fails. *)
Lemma failed_summary_lacks_timestamp_witness :
  fst (get_analytics_summary (world_of ∅ (fault_at 0 "timed out")))
  = Return zero_counts
  /\ zero_counts !! "timestamp" = None.
Proof.
  destruct (failed_summary_lacks_timestamp
              (world_of ∅ (fault_at 0 "timed out"))) as [H _].
  destruct (H "timed out" (or_introl (eq_refl (Some "timed out"))))
    as (H1 & H2 & _).
  split; assumption.
Defined.

(** ** The further properties at work *)

(** X2 at work, on the sample profile. *)
Lemma convert_objectid_touches_only_id_witness :
  convert_objectid no_repr profile_doc !! "name" = profile_doc !! "name"
  /\ convert_objectid no_repr profile_doc !! "_id"
     = Some (VStr "000000000000000000000007").
Proof.
  destruct (convert_objectid_touches_only_id no_repr profile_doc)
    as (_ & Hother & Hid & _).
  split.
  - apply Hother. discriminate.
  - assert (H : profile_doc !! "_id" = Some (VOid 7))
      by (vm_compute; reflexivity).
    apply (Hid (VOid 7) H).
Defined.

(** X5 at work: an experience without [position]. *)
Lemma missing_required_key_rejected_witness :
  experience_without_position !! "position" = None
  /\ is_return (Experience.validate sample_lax experience_without_position) = false.
Proof.
  assert (H : experience_without_position !! "position" = None)
    by (vm_compute; reflexivity).
  split; [exact H|].
  destruct (missing_required_key_rejected sample_lax experience_without_position
              "position" H) as [Hexp _].
  apply Hexp. repeat constructor.
Defined.

(** X6 at work: [createdAt] is not a field of the Profile model. *)
Lemma undeclared_key_ignored_witness :
  Profile.validate sample_lax (<["createdAt" := VStr "yesterday"]> profile_doc)
  = Profile.validate sample_lax profile_doc.
Proof.
  destruct (undeclared_key_ignored sample_lax profile_doc "createdAt"
              (VStr "yesterday")) as (_ & _ & H & _).
  apply H. intros Hin.
  repeat (apply elem_of_cons in Hin as [Hin|Hin]; [discriminate Hin|]).
  inversion Hin.
Defined.

(** X7 at work: a testimonial with the required fields only. *)
Lemma absent_fields_take_defaults_witness :
  Testimonial.validate sample_lax testimonial_minimal
  = Return (Testimonial.Make "t1" "Asha" "CTO" "" "Great" "" "" 0 true
              None None).
Proof.
  assert (Hid : testimonial_minimal !! "_id" = Some (VStr "t1"))
    by (vm_compute; reflexivity).
  destruct (absent_fields_take_defaults sample_lax testimonial_minimal "t1" Hid)
    as (_ & _ & _ & H & _).
  apply H; vm_compute; reflexivity.
Defined.

(** X8 at work: a contact stored with status "archived". *)
Lemma unknown_status_rejected_witness :
  contact_archived !! "status" = Some (VStr "archived")
  /\ is_return (ContactForm.validate sample_lax contact_archived) = false.
Proof.
  assert (H : contact_archived !! "status" = Some (VStr "archived"))
    by (vm_compute; reflexivity).
  split; [exact H|].
  apply (unknown_status_rejected sample_lax contact_archived "archived" H);
    discriminate.
Defined.

(** X9 at work: a listing that raises logs, and still leaves the
    database; a listing that returns logs nothing. *)
Lemma reading_endpoints_change_nothing_witness :
  db (snd (get_experiences no_repr sample_lax
             (world_of experiences_store (fault_at 0 "timed out"))))
  = experiences_store
  /\ log (snd (get_experiences no_repr sample_lax
                 (world_of experiences_store no_faults))) = [].
Proof.
  destruct (reading_endpoints_change_nothing no_repr sample_lax)
    as (Hdb & _ & _ & _ & _ & _ & Hlog & _).
  split.
  - apply (Hdb (world_of experiences_store (fault_at 0 "timed out"))).
  - apply (Hlog (world_of experiences_store no_faults)).
    vm_compute. reflexivity.
Defined.

(** X10 at work: one more inactive experience. *)
Lemma inactive_document_is_invisible_witness :
  matches active (experience_doc 9 (Some 5) false) = false
  /\ fst (get_experiences no_repr sample_lax
            (add_document "experiences" (experience_doc 9 (Some 5) false)
               (world_of experiences_store no_faults)))
     = fst (get_experiences no_repr sample_lax (world_of experiences_store no_faults)).
Proof.
  assert (H : matches active (experience_doc 9 (Some 5) false) = false)
    by (vm_compute; reflexivity).
  split; [exact H|].
  destruct (inactive_document_is_invisible no_repr sample_lax
              (world_of experiences_store no_faults)
              (experience_doc 9 (Some 5) false) H) as [Hexp _].
  exact Hexp.
Defined.

(** X11 at work: the sample profile ahead of a nameless one. *)
Lemma first_active_profile_wins_witness :
  active_docs "profile" (world_of two_profiles_store no_faults)
  = [profile_doc; profile_nameless]
  /\ get_profile no_repr sample_lax (world_of two_profiles_store no_faults)
     = (Return profile_model, next_op (world_of two_profiles_store no_faults)).
Proof.
  assert (Ha : active_docs "profile" (world_of two_profiles_store no_faults)
               = [profile_doc; profile_nameless])
    by (vm_compute; reflexivity).
  assert (Hv : Profile.validate sample_lax (convert_objectid no_repr profile_doc)
               = Return profile_model) by (vm_compute; reflexivity).
  split; [exact Ha|].
  apply (first_active_profile_wins no_repr sample_lax
           (world_of two_profiles_store no_faults) profile_doc
           [profile_nameless] profile_model (eq_refl None) Ha Hv).
Defined.

(** X12 at work: the store times out, and a nameless profile. *)
Lemma profile_failures_witness :
  fst (get_profile no_repr sample_lax (world_of profile_store (fault_at 0 "timed out")))
  = Raise (HTTPException 500 "Failed to fetch profile")
  /\ fst (get_profile no_repr sample_lax (world_of nameless_profile_store no_faults))
     = Raise (HTTPException 500 "Failed to fetch profile").
Proof.
  split.
  - destruct (profile_failures no_repr sample_lax
                (world_of profile_store (fault_at 0 "timed out")))
      as [H _].
    rewrite (H "timed out" (eq_refl (Some "timed out"))). reflexivity.
  - assert (Ha : active_docs "profile"
                   (world_of nameless_profile_store no_faults)
                 = [profile_nameless]) by (vm_compute; reflexivity).
    assert (Hv : Profile.validate sample_lax (convert_objectid no_repr profile_nameless)
                 = Raise (ValidationError "name"))
      by (vm_compute; reflexivity).
    destruct (profile_failures no_repr sample_lax
                (world_of nameless_profile_store no_faults))
      as (_ & H & _).
    rewrite (H profile_nameless [] _ (eq_refl None) Ha Hv). reflexivity.
Defined.

(** X13 at work: the sample request with a null subject. *)
Lemma null_subject_stored_but_refused_witness :
  fst (submit_contact_form no_repr sample_lax
         (ContactFormCreate.Make "A" "a@x.com" None "hi")
         (world_of ∅ no_faults))
  = Raise (HTTPException 500 "Failed to submit contact form")
  /\ length (collection "contacts"
               (snd (submit_contact_form no_repr sample_lax
                       (ContactFormCreate.Make "A" "a@x.com" None "hi")
                       (world_of ∅ no_faults)))) = 1%nat.
Proof.
  assert (Hn : contact_body_null_subject !! "name" = Some (VStr "A"))
    by (vm_compute; reflexivity).
  assert (He : contact_body_null_subject !! "email" = Some (VStr "a@x.com"))
    by (vm_compute; reflexivity).
  assert (Hm : contact_body_null_subject !! "message" = Some (VStr "hi"))
    by (vm_compute; reflexivity).
  assert (Hs : contact_body_null_subject !! "subject" = Some VNull)
    by (vm_compute; reflexivity).
  assert (Hdup : existsb
            (matches (QEq "_id"
               (VOid (oid_supply (world_of ∅ no_faults)
                        (minted (world_of ∅ no_faults))))))
            (collection "contacts" (world_of ∅ no_faults)) = false)
    by (vm_compute; reflexivity).
  destruct (null_subject_stored_but_refused no_repr sample_lax
              contact_body_null_subject "A" "a@x.com" "hi"
              (world_of ∅ no_faults) Hn He Hm Hs
              (eq_refl None) (eq_refl None) Hdup)
    as (_ & Hrun & Hcoll & _).
  split; [exact Hrun|]. rewrite Hcoll. reflexivity.
Defined.

(** X14 at work: a submission with the subject "Hello". *)
Lemma contact_submission_echoes_request_witness :
  exists m,
    fst (submit_contact_form no_repr sample_lax contact_hello (world_of ∅ no_faults))
    = Return m
    /\ ContactForm.subject m = "Hello"
    /\ ContactForm.status m = NEW.
Proof.
  assert (Hdup : existsb
            (matches (QEq "_id"
               (VOid (oid_supply (world_of ∅ no_faults)
                        (minted (world_of ∅ no_faults))))))
            (collection "contacts" (world_of ∅ no_faults)) = false)
    by (vm_compute; reflexivity).
  destruct (contact_submission_echoes_request no_repr sample_lax contact_hello "Hello"
              (world_of ∅ no_faults) (eq_refl (Some "Hello"))
              (eq_refl None) (eq_refl None) Hdup)
    as (m & doc & Hrun & _ & _ & Hs & _ & Hst & _).
  exists m. auto.
Defined.

(** X15 at work: the re-read times out and the contact is stored all
    the same. *)
Lemma contact_failure_and_the_store_witness :
  fst (submit_contact_form no_repr sample_lax contact_hello
         (world_of ∅ (fault_at 1 "timed out")))
  = Raise (HTTPException 500 "Failed to submit contact form")
  /\ length (collection "contacts"
               (snd (submit_contact_form no_repr sample_lax contact_hello
                       (world_of ∅ (fault_at 1 "timed out"))))) = 1%nat
  /\ db (snd (submit_contact_form no_repr sample_lax contact_hello
                (world_of ∅ (fault_at 0 "timed out")))) = ∅.
Proof.
  assert (Hdup : existsb
            (matches (QEq "_id"
               (VOid (oid_supply (world_of ∅ (fault_at 1 "timed out"))
                        (minted (world_of ∅ (fault_at 1 "timed out")))))))
            (collection "contacts" (world_of ∅ (fault_at 1 "timed out")))
            = false)
    by (vm_compute; reflexivity).
  destruct (contact_failure_and_the_store no_repr sample_lax contact_hello
              (world_of ∅ (fault_at 1 "timed out"))) as (_ & _ & H).
  destruct (H "timed out" (eq_refl None) Hdup (eq_refl (Some "timed out")))
    as [Hrun Hcoll].
  split; [exact Hrun|]. split; [rewrite Hcoll; reflexivity|].
  destruct (contact_failure_and_the_store no_repr sample_lax contact_hello
              (world_of ∅ (fault_at 0 "timed out"))) as (H0 & _).
  apply (H0 "timed out" (eq_refl (Some "timed out"))).
Defined.

(** X16 at work: two submissions on an empty store. *)
Lemma two_submissions_are_kept_apart_witness :
  exists m1 m2,
    fst (submit_contact_form no_repr sample_lax contact_hello (world_of ∅ no_faults))
    = Return m1
    /\ fst (submit_contact_form no_repr sample_lax contact_again
              (snd (submit_contact_form no_repr sample_lax contact_hello
                      (world_of ∅ no_faults))))
       = Return m2
    /\ ContactForm.id m1 = "000000000000000000001000"
    /\ ContactForm.id m2 = "000000000000000000001001"
    /\ ContactForm.id m1 <> ContactForm.id m2.
Proof.
  assert (Hd1 : existsb (matches (QEq "_id" (VOid 4096)))
                  (collection "contacts" (world_of ∅ no_faults)) = false)
    by (vm_compute; reflexivity).
  assert (Hd2 : existsb (matches (QEq "_id" (VOid 4097)))
                  (collection "contacts" (world_of ∅ no_faults)) = false)
    by (vm_compute; reflexivity).
  assert (Ho1 : (4096 < 2 ^ 96)%N) by (vm_compute; reflexivity).
  assert (Ho2 : (4097 < 2 ^ 96)%N) by (vm_compute; reflexivity).
  assert (Hne : 4096%N <> 4097%N) by discriminate.
  destruct (two_submissions_are_kept_apart no_repr sample_lax contact_hello
              contact_again "Hello" "" (world_of ∅ no_faults)
              (eq_refl (Some "Hello")) (eq_refl (Some ""))
              (eq_refl None) (eq_refl None) (eq_refl None) (eq_refl None)
              Ho1 Ho2 Hne Hd1 Hd2)
    as (m1 & m2 & d1 & d2 & H1 & H2 & H3 & H4 & H5 & _).
  exists m1, m2. auto.
Defined.

(** X17 at work: a page view that brings its own [createdAt]. *)
Lemma tracked_payload_stored_as_posted_witness :
  exists doc : document,
    collection "analytics"
      (snd (track_analytics (<["createdAt" := VStr "1999"]> visit_payload)
              (world_of ∅ no_faults)))
    = [doc]
    /\ doc !! "createdAt" = Some (VDate 1700000000000)
    /\ doc !! "page" = Some (VStr "/").
Proof.
  assert (Hok : fst (track_analytics
                       (<["createdAt" := VStr "1999"]> visit_payload)
                       (world_of ∅ no_faults))
                = Return {["status" := VStr "success"]})
    by (vm_compute; reflexivity).
  destruct (tracked_payload_stored_as_posted
              (<["createdAt" := VStr "1999"]> visit_payload)
              (world_of ∅ no_faults) Hok)
    as (doc & Hcoll & Hc & Hk & _).
  exists doc. split; [exact Hcoll|]. split; [exact Hc|].
  rewrite (Hk "page") by discriminate. vm_compute. reflexivity.
Defined.

(** X18 at work: the same identified payload posted twice. *)
Lemma payload_with_own_id_recorded_once_witness :
  fst (track_analytics visit_with_id (world_of ∅ no_faults))
  = Return {["status" := VStr "success"]}
  /\ fst (track_analytics visit_with_id
            (snd (track_analytics visit_with_id (world_of ∅ no_faults))))
     = Return {["status" := VStr "error"]}.
Proof.
  assert (Hid : visit_with_id !! "_id" = Some (VStr "v1"))
    by (vm_compute; reflexivity).
  assert (Hok : fst (track_analytics visit_with_id (world_of ∅ no_faults))
                = Return {["status" := VStr "success"]})
    by (vm_compute; reflexivity).
  split; [exact Hok|].
  apply (payload_with_own_id_recorded_once visit_with_id (VStr "v1")
           (world_of ∅ no_faults) Hid Hok).
Defined.

(** X20 at work: a visit stamped with an ISO string. *)
Lemma text_timestamp_never_recent_witness :
  exists total recent stamp,
    fst (get_analytics_summary (world_of ∅ no_faults))
    = Return (summary_body total recent stamp)
    /\ fst (get_analytics_summary
              (add_document "analytics" visit_text_stamp
                 (world_of ∅ no_faults)))
       = Return (summary_body (total + 1) recent stamp).
Proof.
  assert (Hd : visit_text_stamp !! "timestamp"
               = Some (VStr "2024-01-01T00:00:00Z"))
    by (vm_compute; reflexivity).
  apply (text_timestamp_never_recent visit_text_stamp
           (VStr "2024-01-01T00:00:00Z") (world_of ∅ no_faults)
           Hd (eq_refl true) (eq_refl None) (eq_refl None)).
Defined.

(** X21 at work: the sample experiences, two of them active. *)
Lemma listing_is_all_or_nothing_witness :
  exists ms,
    fst (get_experiences no_repr sample_lax (world_of experiences_store no_faults))
    = Return ms
    /\ length ms = length (active_docs "experiences"
                             (world_of experiences_store no_faults)).
Proof.
  destruct (fst (get_experiences no_repr sample_lax
                   (world_of experiences_store no_faults)))
    as [ms|e] eqn:Hrun.
  - exists ms. split; [reflexivity|].
    destruct (listing_is_all_or_nothing no_repr sample_lax
                (world_of experiences_store no_faults)) as [H _].
    apply (H ms Hrun).
  - exfalso. vm_compute in Hrun. discriminate Hrun.
Defined.

(** X22 at work: a submission and a tracked visit leave the
    experiences alone. *)
Lemma writes_stay_in_their_collection_witness :
  collection "experiences"
    (snd (submit_contact_form no_repr sample_lax contact_hello
            (world_of experiences_store no_faults)))
  = collection "experiences" (world_of experiences_store no_faults)
  /\ collection "experiences"
       (snd (track_analytics visit_payload
               (world_of experiences_store no_faults)))
     = collection "experiences" (world_of experiences_store no_faults).
Proof.
  destruct (writes_stay_in_their_collection no_repr sample_lax
              (world_of experiences_store no_faults) "experiences")
    as [Hc Ht].
  split.
  - apply Hc. discriminate.
  - apply Ht. discriminate.
Defined.
